(** * Railway calendar engine

    A shallow embedding of the [RailwayDateAPI] object of
    [src/railway-calendar.jsx] and the proofs of its calendar properties.

    Conventions of the embedding.

    - A JavaScript number that the calendar code manipulates is an integer
      or [NaN]; it is a value of [number := option Z], [None] being [NaN].
      Integer arithmetic on doubles is exact below 2^53, and every time
      value of a valid [Date] is at most 8.64e15 < 2^53 in magnitude.
    - A [Date] object is its time value (milliseconds since the epoch), or
      [NaN] for an Invalid Date.  The abstract operations of ECMA-262
      ([Day], [YearFromTime], [MakeDay], [TimeClip], ...) are written out in
      module [ES].
    - Module [JsDate] is the [Date] object of a host whose time zone is UTC,
      where local time and time value coincide; the functions that read and
      write calendar fields only, and those that round a difference of
      dates to whole days, are modelled over it.  Module [Zoned] is the
      [Date] object of a host in any time zone, with the steps [LocalTime]
      and [UTC] of ECMA-262, and module [Zone] gives the zones: [dateToRailway]
      rounds a difference of local midnights down, its result depends on
      the zone, and it is modelled over [Zoned] as well as over [JsDate].
    - Mutation of a [Date] ([setHours], [setDate]) is explicit state
      passing: the setter returns the new time value.
    - The astronomical functions compute with IEEE 754 doubles: these are
      the primitive binary64 floats, whose operations the kernel evaluates
      and the axioms of [FloatAxioms] specify.  [Math.sin], [Math.cos],
      [Math.tan], [Math.acos] and the printing of a number are left to the
      host by ECMA-262 and are parameters of the embedding ([Math.host]). *)

From Stdlib Require Import ZArith Lia Bool List String Ascii.
From Stdlib Require Import Decimal DecimalString.
From Stdlib Require Import Floats.
Import ListNotations.
Local Open Scope Z_scope.

(** ** Numbers *)

Definition number : Type := option Z.
Definition NaN : number := None.

Definition bind {A B : Type} (x : option A) (f : A -> option B) : option B :=
  match x with
  | Some v => f v
  | None => None
  end.

Notation "'let*' x ':=' a 'in' b" := (bind a (fun x => b))
  (at level 10, x name, a at level 100, b at level 200).

Module Js.

Definition add (a b : number) : number :=
  let* x := a in let* y := b in Some (x + y).
Definition sub (a b : number) : number :=
  let* x := a in let* y := b in Some (x - y).
Definition mul (a b : number) : number :=
  let* x := a in let* y := b in Some (x * y).

(** [a % k] for a non-zero literal [k]: the remainder takes the sign of the
    dividend (truncated division), as [Z.rem] does. *)
Definition rem (a : number) (k : Z) : number :=
  let* x := a in Some (Z.rem x k).

(** [Math.floor(a / k)], [Math.ceil(a / k)] and [Math.round(a / k)] for a
    positive literal [k].  [Math.round] rounds halves towards +infinity. *)
Definition floor_div (a : number) (k : Z) : number :=
  let* x := a in Some (x / k).
Definition ceil_div (a : number) (k : Z) : number :=
  let* x := a in Some (- ((- x) / k)).
Definition round_div (a : number) (k : Z) : number :=
  let* x := a in Some ((2 * x + k) / (2 * k)).

Definition min (a b : number) : number :=
  let* x := a in let* y := b in Some (Z.min x y).

(** Comparisons: any comparison with [NaN] is false, [!==] is true. *)
Definition lt (a b : number) : bool :=
  match a, b with Some x, Some y => x <? y | _, _ => false end.
Definition ge (a b : number) : bool :=
  match a, b with Some x, Some y => y <=? x | _, _ => false end.
Definition le (a b : number) : bool :=
  match a, b with Some x, Some y => x <=? y | _, _ => false end.
Definition gt (a b : number) : bool :=
  match a, b with Some x, Some y => y <? x | _, _ => false end.
Definition seq (a b : number) : bool :=
  match a, b with Some x, Some y => x =? y | _, _ => false end.
Definition sne (a b : number) : bool := negb (seq a b).

(** [a || b]: [b] when [a] is falsy, that is 0 or [NaN]. *)
Definition or (a b : number) : number :=
  match a with
  | Some 0 => b
  | Some x => Some x
  | None => b
  end.

(** [Number.prototype.toString] on an integer or [NaN]. *)
Definition toString (a : number) : string :=
  match a with
  | Some x => NilZero.string_of_int (Z.to_int x)
  | None => "NaN"
  end.

(** [s.slice(-2)]: the last two characters of [s]. *)
Definition slice_last2 (s : string) : string :=
  let n := String.length s in
  String.substring (n - 2) 2 s.

End Js.

Declare Scope js_scope.
Delimit Scope js_scope with js.
Infix "+" := Js.add : js_scope.
Infix "-" := Js.sub : js_scope.
Infix "*" := Js.mul : js_scope.
Notation "a 'rem' k" := (Js.rem a k) (at level 40, no associativity) : js_scope.
Infix "<" := Js.lt : js_scope.
Infix ">=" := Js.ge : js_scope.
Infix "<=" := Js.le : js_scope.
Infix ">" := Js.gt : js_scope.
Infix "===" := Js.seq (at level 70, no associativity) : js_scope.
Infix "!==" := Js.sne (at level 70, no associativity) : js_scope.


(** ** Doubles *)

#[local] Set Warnings "-inexact-float".

Module F64.

(** The double nearest to an integer; exact below 2^53. *)
Definition of_Z (z : Z) : float :=
  SF2Prim (binary_normalize prec emax z 0 false).

Definition of_number (a : number) : float :=
  match a with
  | Some z => of_Z z
  | None => nan
  end.

(** [x % y] on doubles: the remainder of the truncated division, exact,
    with the sign of [x]. *)
Definition fmod (x y : float) : float :=
  match Prim2SF x, Prim2SF y with
  | S754_nan, _ | _, S754_nan => nan
  | S754_infinity _, _ => nan
  | _, S754_zero _ => nan
  | S754_zero _, _ => x
  | S754_finite _ _ _, S754_infinity _ => x
  | S754_finite sx mx ex, S754_finite _ my ey =>
      let e := Z.min ex ey in
      let r := (Zpos mx * 2 ^ (ex - e)) mod (Zpos my * 2 ^ (ey - e)) in
      SF2Prim (binary_normalize prec emax (cond_Zopp sx r) e sx)
  end.

End F64.

Module Math.

Definition PI : float := 3.141592653589793.

(** [Math.floor]. *)
Definition floor (x : float) : float :=
  match Prim2SF x with
  | S754_finite s m e =>
      if 0 <=? e then x
      else
        let d := 2 ^ (- e) in
        let q := Zpos m / d in
        let r := Zpos m mod d in
        let n := if s && negb (r =? 0) then q + 1 else q in
        SF2Prim (binary_normalize prec emax (cond_Zopp s n) 0 s)
  | _ => x
  end.

(** [Math.round]: the nearest integer, a tie going towards +infinity. *)
Definition round (x : float) : float :=
  match Prim2SF x with
  | S754_finite s m e =>
      if 0 <=? e then x
      else
        let d := 2 ^ (- e) in
        let q := Zpos m / d in
        let r := Zpos m mod d in
        let n :=
          if s then (if 2 * r <=? d then q else q + 1)
          else (if 2 * r <? d then q else q + 1) in
        SF2Prim (binary_normalize prec emax (cond_Zopp s n) 0 s)
  | _ => x
  end.

Definition abs (x : float) : float := PrimFloat.abs x.

(** [Math.max] and [Math.min] of two numbers: [NaN] if either is, and +0
    is larger than -0. *)
Definition max (x y : float) : float :=
  if is_nan x || is_nan y then nan
  else if (x <? y)%float then y
  else if (y <? x)%float then x
  else if get_sign x then y else x.

Definition min (x y : float) : float :=
  if is_nan x || is_nan y then nan
  else if (x <? y)%float then x
  else if (y <? x)%float then y
  else if get_sign x then x else y.

(** What ECMA-262 leaves to the host: the trigonometric functions are
    implementation-approximated, and [toString] is [Number::toString]. *)
Record host : Type := {
  sin : float -> float;
  cos : float -> float;
  tan : float -> float;
  acos : float -> float;
  toString : float -> string
}.

End Math.

(** [s.padStart(2, '0')]. *)
Definition padStart2 (s : string) : string :=
  match String.length s with
  | O => "00"
  | S O => "0" ++ s
  | _ => s
  end%string.

(** ** ECMAScript time values *)

Module ES.

Definition msPerDay : Z := 86400000.

Definition Day (t : Z) : Z := t / msPerDay.
Definition TimeWithinDay (t : Z) : Z := t mod msPerDay.

Definition isLeapYear (y : Z) : bool :=
  if negb (y mod 4 =? 0) then false
  else if negb (y mod 100 =? 0) then true
  else if negb (y mod 400 =? 0) then false
  else true.

Definition DaysInYear (y : Z) : Z := if isLeapYear y then 366 else 365.

Definition DayFromYear (y : Z) : Z :=
  365 * (y - 1970) + (y - 1969) / 4 - (y - 1901) / 100 + (y - 1601) / 400.

Definition TimeFromYear (y : Z) : Z := msPerDay * DayFromYear y.

(** The largest [y] with [DayFromYear y <= day]: a first guess from the
    mean year length, off by at most one, then corrected. *)
Definition YearFromDay (day : Z) : Z :=
  let y0 := 1970 + (400 * day) / 146097 in
  if day <? DayFromYear y0 then y0 - 1
  else if DayFromYear (y0 + 1) <=? day then y0 + 1
  else y0.

Definition YearFromTime (t : Z) : Z := YearFromDay (Day t).

Definition InLeapYear (t : Z) : Z :=
  if isLeapYear (YearFromTime t) then 1 else 0.

Definition DayWithinYear (t : Z) : Z := Day t - DayFromYear (YearFromTime t).

Definition MonthFromTime (t : Z) : Z :=
  let d := DayWithinYear t in
  let l := InLeapYear t in
  if d <? 31 then 0
  else if d <? 59 + l then 1
  else if d <? 90 + l then 2
  else if d <? 120 + l then 3
  else if d <? 151 + l then 4
  else if d <? 181 + l then 5
  else if d <? 212 + l then 6
  else if d <? 243 + l then 7
  else if d <? 273 + l then 8
  else if d <? 304 + l then 9
  else if d <? 334 + l then 10
  else 11.

Definition DateFromTime (t : Z) : Z :=
  let d := DayWithinYear t in
  let l := InLeapYear t in
  match MonthFromTime t with
  | 0 => d + 1
  | 1 => d - 30
  | 2 => d - 58 - l
  | 3 => d - 89 - l
  | 4 => d - 119 - l
  | 5 => d - 150 - l
  | 6 => d - 180 - l
  | 7 => d - 211 - l
  | 8 => d - 242 - l
  | 9 => d - 272 - l
  | 10 => d - 303 - l
  | _ => d - 333 - l
  end.

Definition WeekDay (t : Z) : Z := (Day t + 4) mod 7.

(** Days from 1 January to the first of month [mn] (0..11). *)
Definition DaysBeforeMonth (mn : Z) (leap : bool) : Z :=
  let l := if leap then 1 else 0 in
  match mn with
  | 0 => 0
  | 1 => 31
  | 2 => 59 + l
  | 3 => 90 + l
  | 4 => 120 + l
  | 5 => 151 + l
  | 6 => 181 + l
  | 7 => 212 + l
  | 8 => 243 + l
  | 9 => 273 + l
  | 10 => 304 + l
  | _ => 334 + l
  end.

Definition MakeTime (hour min sec ms : Z) : Z :=
  hour * 3600000 + min * 60000 + sec * 1000 + ms.

(** [MakeDay]: months outside 0..11 carry into the year, days outside the
    month carry into the neighbouring months. *)
Definition MakeDay (year month date : Z) : Z :=
  let ym := year + month / 12 in
  let mn := month mod 12 in
  DayFromYear ym + DaysBeforeMonth mn (isLeapYear ym) + date - 1.

Definition MakeDate (day time : Z) : Z := day * msPerDay + time.

Definition maxTime : Z := 8640000000000000.

Definition TimeClip (t : Z) : number :=
  if Z.abs t <=? maxTime then Some t else NaN.

End ES.

(** ** The [Date] object *)

(** [JsDate] is the [Date] object on a host in UTC: the local time of a
    time value is the time value itself.  [Zoned], further down, is the
    same object on a host in any zone. *)

Definition Date : Type := number.

Module JsDate.
Import ES.

(** The year that the constructor [new Date(year, month, ...)] uses: a
    year from 0 to 99 stands for 1900 + year. *)
Definition fullYear (y : Z) : Z :=
  if (0 <=? y) && (y <=? 99) then 1900 + y else y.

(** [new Date(year, month, date, hours, minutes, seconds)]. *)
Definition make (year month date hours minutes seconds : number) : Date :=
  let* y := year in
  let* m := month in
  let* dt := date in
  let* h := hours in
  let* mi := minutes in
  let* s := seconds in
  let yr := fullYear y in
  TimeClip (MakeDate (MakeDay yr m dt) (MakeTime h mi s 0)).

(** [new Date(year, month, date)]. *)
Definition ymd (year month date : number) : Date :=
  make year month date (Some 0) (Some 0) (Some 0).

(** [new Date(d)] for a [Date] object [d]: a copy of its time value. *)
Definition copy (d : Date) : Date := d.

Definition getTime (d : Date) : number := d.
Definition getFullYear (d : Date) : number :=
  let* t := d in Some (YearFromTime t).
Definition getMonth (d : Date) : number :=
  let* t := d in Some (MonthFromTime t).
Definition getDate (d : Date) : number :=
  let* t := d in Some (DateFromTime t).
Definition getDay (d : Date) : number :=
  let* t := d in Some (WeekDay t).

(** [d.setDate(dt)]. *)
Definition setDate (d : Date) (date : number) : Date :=
  let* t := d in
  let* dt := date in
  TimeClip (MakeDate (MakeDay (YearFromTime t) (MonthFromTime t) dt)
                     (TimeWithinDay t)).

(** [d.setHours(0, 0, 0, 0)]. *)
Definition setHours0 (d : Date) : Date :=
  let* t := d in
  TimeClip (MakeDate (Day t) (MakeTime 0 0 0 0)).

End JsDate.

(** ** The [RailwayDateAPI] object *)

(** The functions of [RailwayDateAPI] over [JsDate], that is on a host in
    UTC.  Those that the railway conversion is made of are given again
    over [Zoned], for a host in any zone: [Zoned.getWeekOneStart],
    [Zoned.getTotalWeeks], [Zoned.dateToRailway], [Zoned.railwayToDateRange]
    and [Zoned.getPeriodDates]. *)

Record RailwayCoordinate : Type := {
  railwayYear : number;
  railWeek : number;
  dayOfRailWeek : number;
  period : number;
  weekInPeriod : number;
  totalWeeks : number;
  weekOneStart : Date;
  dayName : option string;
  railwayYearDisplay : string
}.

Record DateRange : Type := {
  startDate : Date;
  endDate : Date
}.

Record PeriodDates : Type := {
  periodStart : Date;
  periodEnd : Date;
  startWeek : number;
  endWeek : number
}.

Module Holiday.
Record t : Type := mk {
  date : Date;
  name : string;
  emoji : string;
  type : string
}.
End Holiday.

Module RailwayDateAPI.
Import ES JsDate.
Local Open Scope js_scope.

(** Reference payday: December 5, 2025. *)
Definition referencePayday : Date :=
  setHours0 (ymd (Some 2025%Z) (Some 11%Z) (Some 5%Z)).

Definition isPayday (date : Date) : bool :=
  let d := copy date in
  let d := setHours0 d in
  let daysDiff := Js.round_div (d - referencePayday) msPerDay in
  daysDiff rem 28 === Some 0%Z.

Definition getNextPayday (fromDate : Date) : Date :=
  let d := copy fromDate in
  let d := setHours0 d in
  let daysDiff := Js.round_div (d - referencePayday) msPerDay in
  let daysUntilPayday := Some 28%Z - daysDiff rem 28 in
  let daysUntilPayday :=
    if daysUntilPayday === Some 28%Z then Some 0%Z else daysUntilPayday in
  let nextPayday := copy d in
  let nextPayday := setDate nextPayday (getDate nextPayday + daysUntilPayday) in
  nextPayday.

Definition getWeekOneStart (railwayYear : number) : Date :=
  let lastDayOfMarch := ymd railwayYear (Some 2%Z) (Some 31%Z) in
  let dayOfWeek := getDay lastDayOfMarch in
  let daysToGoBack := (dayOfWeek + Some 1%Z) rem 7 in
  let lastSaturday := ymd railwayYear (Some 2%Z) (Some 31%Z - daysToGoBack) in
  lastSaturday.

Definition getTotalWeeks (railwayYear : number) : number :=
  let thisYearStart := getWeekOneStart railwayYear in
  let nextYearStart := getWeekOneStart (railwayYear + Some 1%Z) in
  let days := Js.round_div (nextYearStart - thisYearStart) msPerDay in
  Js.floor_div days 7.

Definition dayNames : list string :=
  ["Saturday"; "Sunday"; "Monday"; "Tuesday"; "Wednesday"; "Thursday";
   "Friday"]%string.

(** [a[i]]: [undefined] (here [None]) outside the array. *)
Definition index {A : Type} (a : list A) (i : number) : option A :=
  match i with
  | Some k => if (k <? 0)%Z then None else nth_error a (Z.to_nat k)
  | None => None
  end.

Definition dateToRailway (date : Date) : RailwayCoordinate :=
  let d := copy date in
  let d := setHours0 d in
  let railwayYear := getFullYear d in
  let weekOneStart := getWeekOneStart railwayYear in
  let '(railwayYear, weekOneStart) :=
    if d < weekOneStart then
      let railwayYear := railwayYear - Some 1%Z in
      (railwayYear, getWeekOneStart railwayYear)
    else
      let nextYearStart := getWeekOneStart (railwayYear + Some 1%Z) in
      if d >= nextYearStart then (railwayYear + Some 1%Z, nextYearStart)
      else (railwayYear, weekOneStart) in
  let daysDiff := Js.floor_div (d - weekOneStart) msPerDay in
  let railWeek := Js.floor_div daysDiff 7 + Some 1%Z in
  let dayOfRailWeek := daysDiff rem 7 + Some 1%Z in
  let period := Js.ceil_div railWeek 4 in
  let weekInPeriod := (railWeek - Some 1%Z) rem 4 + Some 1%Z in
  let totalWeeks := getTotalWeeks railwayYear in
  {| railwayYear := railwayYear;
     railWeek := railWeek;
     dayOfRailWeek := dayOfRailWeek;
     period := period;
     weekInPeriod := weekInPeriod;
     totalWeeks := totalWeeks;
     weekOneStart := weekOneStart;
     dayName := index dayNames (dayOfRailWeek - Some 1%Z);
     railwayYearDisplay :=
       (Js.toString railwayYear ++ "/" ++
        Js.slice_last2 (Js.toString (railwayYear + Some 1%Z)))%string |}.

Definition railwayToDateRange (railwayYear railWeek : number) : DateRange :=
  let weekOneStart := getWeekOneStart railwayYear in
  let startDate := copy weekOneStart in
  let startDate :=
    setDate startDate (getDate startDate + (railWeek - Some 1%Z) * Some 7%Z) in
  let endDate := copy startDate in
  let endDate := setDate endDate (getDate endDate + Some 6%Z) in
  {| startDate := startDate; endDate := endDate |}.

Definition getPeriodDates (railwayYear period : number) : PeriodDates :=
  let startWeek := (period - Some 1%Z) * Some 4%Z + Some 1%Z in
  let endWeek := Js.min (period * Some 4%Z) (getTotalWeeks railwayYear) in
  let r1 := railwayToDateRange railwayYear startWeek in
  let r2 := railwayToDateRange railwayYear endWeek in
  {| periodStart := startDate r1; periodEnd := endDate r2;
     startWeek := startWeek; endWeek := endWeek |}.

(** Anonymous Gregorian algorithm. *)
Definition getEasterSunday (year : number) : Date :=
  let a := year rem 19 in
  let b := Js.floor_div year 100 in
  let c := year rem 100 in
  let d := Js.floor_div b 4 in
  let e := b rem 4 in
  let f := Js.floor_div (b + Some 8%Z) 25 in
  let g := Js.floor_div (b - f + Some 1%Z) 3 in
  let h := (Some 19%Z * a + b - d - g + Some 15%Z) rem 30 in
  let i := Js.floor_div c 4 in
  let k := c rem 4 in
  let l := (Some 32%Z + Some 2%Z * e + Some 2%Z * i - h - k) rem 7 in
  let m := Js.floor_div (a + Some 11%Z * h + Some 22%Z * l) 451 in
  let month :=
    Js.floor_div (h + l - Some 7%Z * m + Some 114%Z) 31 - Some 1%Z in
  let day := (h + l - Some 7%Z * m + Some 114%Z) rem 31 + Some 1%Z in
  ymd year month day.

(** [holidays.push(e)]: the array with [e] appended. *)
Definition push {A : Type} (a : list A) (e : A) : list A := a ++ [e].

Definition addDays (date : Date) (days : number) : Date :=
  let result := copy date in
  let result := setDate result (getDate result + days) in
  result.

Definition getNthWeekday (year month weekday n : number) : Date :=
  if n > Some 0%Z then
    let first := ymd year month (Some 1%Z) in
    let dayOffset := (weekday - getDay first + Some 7%Z) rem 7 in
    ymd year month (Some 1%Z + dayOffset + (n - Some 1%Z) * Some 7%Z)
  else
    let last := ymd year (month + Some 1%Z) (Some 0%Z) in
    let dayOffset := (getDay last - weekday + Some 7%Z) rem 7 in
    ymd year (month + Some 1%Z)
        (Some 0%Z - dayOffset + (n + Some 1%Z) * Some 7%Z).

Definition getUKBankHolidays (year : number) : list Holiday.t :=
  let holidays := [] in
  let easter := getEasterSunday year in
  let nyd := ymd year (Some 0%Z) (Some 1%Z) in
  let nyd := if getDay nyd === Some 0%Z then ymd year (Some 0%Z) (Some 2%Z) else nyd in
  let nyd := if getDay nyd === Some 6%Z then ymd year (Some 0%Z) (Some 3%Z) else nyd in
  let holidays :=
    push holidays
      (Holiday.mk nyd
         "New Year's Day" "🎆" "bank") in
  let holidays :=
    push holidays
      (Holiday.mk (addDays easter (Some (-2)%Z))
         "Good Friday" "✝️" "bank") in
  let holidays :=
    push holidays
      (Holiday.mk (addDays easter (Some 1%Z))
         "Easter Monday" "🐣" "bank") in
  let holidays :=
    push holidays
      (Holiday.mk (getNthWeekday year (Some 4%Z) (Some 1%Z) (Some 1%Z))
         "Early May Bank Holiday" "🌷" "bank") in
  let holidays :=
    push holidays
      (Holiday.mk (getNthWeekday year (Some 4%Z) (Some 1%Z) (Some (-1)%Z))
         "Spring Bank Holiday" "🌻" "bank") in
  let holidays :=
    push holidays
      (Holiday.mk (getNthWeekday year (Some 7%Z) (Some 1%Z) (Some (-1)%Z))
         "Summer Bank Holiday" "☀️" "bank") in
  let xmas := ymd year (Some 11%Z) (Some 25%Z) in
  let xmasDay := getDay xmas in
  let xmas := if xmasDay === Some 0%Z then ymd year (Some 11%Z) (Some 27%Z) else xmas in
  let xmas := if xmasDay === Some 6%Z then ymd year (Some 11%Z) (Some 27%Z) else xmas in
  let holidays :=
    push holidays
      (Holiday.mk xmas
         "Christmas Day" "🎄" "bank") in
  let boxing := ymd year (Some 11%Z) (Some 26%Z) in
  let boxingDay := getDay boxing in
  let boxing := if boxingDay === Some 0%Z then ymd year (Some 11%Z) (Some 28%Z) else boxing in
  let boxing := if boxingDay === Some 6%Z then ymd year (Some 11%Z) (Some 28%Z) else boxing in
  let holidays :=
    push holidays
      (Holiday.mk boxing
         "Boxing Day" "🎁" "bank") in
  let holidays :=
    push holidays
      (Holiday.mk (ymd year (Some 0%Z) (Some 6%Z))
         "Epiphany" "⭐" "religious") in
  let holidays :=
    push holidays
      (Holiday.mk (addDays easter (Some (-47)%Z))
         "Shrove Tuesday" "🥞" "religious") in
  let holidays :=
    push holidays
      (Holiday.mk (addDays easter (Some (-46)%Z))
         "Ash Wednesday" "✝️" "religious") in
  let holidays :=
    push holidays
      (Holiday.mk (addDays easter (Some (-21)%Z))
         "Mother's Day (UK)" "💐" "cultural") in
  let holidays :=
    push holidays
      (Holiday.mk (addDays easter (Some (-7)%Z))
         "Palm Sunday" "🌿" "religious") in
  let holidays :=
    push holidays
      (Holiday.mk (addDays easter (Some (-3)%Z))
         "Maundy Thursday" "✝️" "religious") in
  let holidays :=
    push holidays
      (Holiday.mk easter
         "Easter Sunday" "🐣" "religious") in
  let holidays :=
    push holidays
      (Holiday.mk (addDays easter (Some 39%Z))
         "Ascension Day" "☁️" "religious") in
  let holidays :=
    push holidays
      (Holiday.mk (addDays easter (Some 49%Z))
         "Pentecost" "🕊️" "religious") in
  let xmasDate := ymd year (Some 11%Z) (Some 25%Z) in
  let xmasDayOfWeek := getDay xmasDate in
  let daysToSunday :=
    if xmasDayOfWeek === Some 0%Z then Some 0%Z else Some 7%Z - xmasDayOfWeek in
  let advent := ymd year (Some 11%Z) (Some 25%Z - daysToSunday - Some 21%Z) in
  let holidays :=
    push holidays
      (Holiday.mk advent
         "Advent Sunday" "🕯️" "religious") in
  let holidays :=
    push holidays
      (Holiday.mk (ymd year (Some 11%Z) (Some 24%Z))
         "Christmas Eve" "🎄" "religious") in
  let diwaliBase := ymd year (Some 9%Z) (Some 15%Z) in
  let diwaliOffset := ((year - Some 2024%Z) * Some 11%Z) rem 30 in
  let diwali :=
    ymd year
        (Some 9%Z + Js.floor_div (Some 15%Z + diwaliOffset) 30)
        (Js.or ((Some 15%Z + diwaliOffset) rem 30) (Some 15%Z)) in
  let holidays :=
    push holidays
      (Holiday.mk diwali
         "Diwali (approx)" "🪔" "religious") in
  let holidays :=
    push holidays
      (Holiday.mk (ymd year (Some 11%Z) (Some 10%Z))
         "Hanukkah (approx)" "🕎" "religious") in
  let eidFitrBase := ymd (Some 2024%Z) (Some 3%Z) (Some 10%Z) in
  let yearDiff := year - Some 2024%Z in
  let eidShift := (yearDiff * Some 11%Z) rem 354 in
  let eidFitr := copy eidFitrBase in
  let eidFitr := setDate eidFitr (getDate eidFitr - eidShift) in
  let eidFitr :=
    if getFullYear eidFitr !== year
    then ymd year (getMonth eidFitr) (getDate eidFitr)
    else eidFitr in
  let holidays :=
    push holidays
      (Holiday.mk eidFitr
         "Eid al-Fitr (approx)" "🌙" "religious") in
  let eidAdha := addDays eidFitr (Some 70%Z) in
  let holidays :=
    push holidays
      (Holiday.mk eidAdha
         "Eid al-Adha (approx)" "🌙" "religious") in
  let holidays :=
    push holidays
      (Holiday.mk (ymd year (Some 0%Z) (Some 25%Z))
         "Burns Night" "🏴󠁧󠁢󠁳󠁣󠁴󠁿" "cultural") in
  let holidays :=
    push holidays
      (Holiday.mk (ymd year (Some 1%Z) (Some 14%Z))
         "Valentine's Day" "💝" "cultural") in
  let holidays :=
    push holidays
      (Holiday.mk (ymd year (Some 2%Z) (Some 1%Z))
         "St David's Day" "🏴󠁧󠁢󠁷󠁬󠁳󠁿" "cultural") in
  let holidays :=
    push holidays
      (Holiday.mk (ymd year (Some 2%Z) (Some 17%Z))
         "St Patrick's Day" "☘️" "cultural") in
  let holidays :=
    push holidays
      (Holiday.mk (ymd year (Some 3%Z) (Some 23%Z))
         "St George's Day" "🏴󠁧󠁢󠁥󠁮󠁧󠁿" "cultural") in
  let holidays :=
    push holidays
      (Holiday.mk (getNthWeekday year (Some 5%Z) (Some 0%Z) (Some 3%Z))
         "Father's Day" "👔" "cultural") in
  let holidays :=
    push holidays
      (Holiday.mk (ymd year (Some 9%Z) (Some 31%Z))
         "Halloween" "🎃" "cultural") in
  let holidays :=
    push holidays
      (Holiday.mk (ymd year (Some 10%Z) (Some 5%Z))
         "Bonfire Night" "🎆" "cultural") in
  let holidays :=
    push holidays
      (Holiday.mk (getNthWeekday year (Some 10%Z) (Some 0%Z) (Some 2%Z))
         "Remembrance Sunday" "🌺" "cultural") in
  let holidays :=
    push holidays
      (Holiday.mk (ymd year (Some 10%Z) (Some 11%Z))
         "Armistice Day" "🎖️" "cultural") in
  let holidays :=
    push holidays
      (Holiday.mk (ymd year (Some 10%Z) (Some 30%Z))
         "St Andrew's Day" "🏴󠁧󠁢󠁳󠁣󠁴󠁿" "cultural") in
  let holidays :=
    push holidays
      (Holiday.mk (ymd year (Some 11%Z) (Some 31%Z))
         "New Year's Eve" "🥂" "cultural") in
  holidays.

End RailwayDateAPI.

Module MoonPhase.
Record t : Type := mk {
  phase : Z;
  emoji : string;
  name : string;
  lunarDay : float;
  illumination : float;
  isSignificant : bool
}.
End MoonPhase.

Module DayLength.
Record t : Type := mk {
  dayLengthHours : float;
  dayLengthFormatted : string;
  dayLengthPercent : float;
  sunrise : option string;
  sunset : option string;
  daysGettingLonger : bool;
  changeMinutes : float;
  changeFormatted : string
}.
End DayLength.

(** ** The astronomical estimators of [RailwayDateAPI] *)

Module Astronomy.
Import ES JsDate.
Local Open Scope string_scope.
Local Open Scope float_scope.

Section Host.

Variable M : Math.host.

Definition latitude : float := 51.5074.
Definition longitude : float := -0.1278.

Definition toRad (deg : float) : float := deg * Math.PI / 180.
Definition toDeg (rad : float) : float := rad * 180 / Math.PI.

(** Day of the year of [d], from the last day of the previous year. *)
Definition dayOfYear (d : Date) : float :=
  let startOfYear := ymd (getFullYear d) (Some 0%Z) (Some 0%Z) in
  let diff := F64.of_number (Js.sub d startOfYear) in
  Math.floor (diff / 86400000).

Definition declinationOf (dayOfYear : float) : float :=
  toRad (23.44 * Math.sin M (toRad ((360 / 365) * (dayOfYear + 284)))).

Definition latRad : float := toRad latitude.

Definition cosHourAngleOf (dayOfYear : float) : float :=
  - Math.tan M latRad * Math.tan M (declinationOf dayOfYear).

(** [cosHourAngle] of [getDayLength date]. *)
Definition cosHourAngle (date : Date) : float :=
  cosHourAngleOf (dayOfYear (copy date)).

Definition formatTime (minutes : float) : string :=
  let hrs := Math.floor (minutes / 60) in
  let mins := Math.round (F64.fmod minutes 60) in
  (padStart2 (Math.toString M hrs) ++ ":"
   ++ padStart2 (Math.toString M mins))%string.

Definition getDayLength (date : Date) : DayLength.t :=
  let d := copy date in
  let dayOfYear := dayOfYear d in
  let cosHourAngle := cosHourAngleOf dayOfYear in
  let '(hourAngle, dayLengthHours, sunrise, sunset) :=
    if cosHourAngle <? -1 then
      (Math.PI, 24, None, None)
    else if 1 <? cosHourAngle then
      (0, 0, None, None)
    else
      let hourAngle := Math.acos M cosHourAngle in
      let dayLengthHours := (2 * toDeg hourAngle) / 15 in
      let B := toRad ((360 / 365) * (dayOfYear - 81)) in
      let equationOfTime :=
        9.87 * Math.sin M (2 * B) - 7.53 * Math.cos M B
        - 1.5 * Math.sin M B in
      let timeCorrection := 4 * longitude + equationOfTime in
      let solarNoon := 12 * 60 - timeCorrection in
      let halfDayMinutes := (dayLengthHours / 2) * 60 in
      let sunriseMinutes := solarNoon - halfDayMinutes in
      let sunsetMinutes := solarNoon + halfDayMinutes in
      (hourAngle, dayLengthHours,
       Some (formatTime sunriseMinutes), Some (formatTime sunsetMinutes)) in
  let hours := Math.floor dayLengthHours in
  let minutes := Math.round ((dayLengthHours - hours) * 60) in
  let dayLengthFormatted :=
    (Math.toString M hours ++ "h " ++ Math.toString M minutes ++ "m")%string in
  let maxDayLength := 16.5 in
  let minDayLength := 7.5 in
  let dayLengthPercent :=
    Math.round (((dayLengthHours - minDayLength)
                 / (maxDayLength - minDayLength)) * 100) in
  let tomorrow := copy d in
  let tomorrow := setDate tomorrow (Js.add (getDate tomorrow) (Some 1%Z)) in
  let tomorrowDayOfYear := dayOfYear + 1 in
  let tomorrowDeclination := declinationOf tomorrowDayOfYear in
  let tomorrowCosHourAngle :=
    - Math.tan M latRad * Math.tan M tomorrowDeclination in
  let tomorrowHourAngle :=
    Math.acos M (Math.max (-1) (Math.min 1 tomorrowCosHourAngle)) in
  let tomorrowDayLength := (2 * toDeg tomorrowHourAngle) / 15 in
  let dayLengthChange := tomorrowDayLength - dayLengthHours in
  let daysGettingLonger := 0 <? dayLengthChange in
  let changeMinutes := Math.abs (Math.round (dayLengthChange * 60)) in
  {| DayLength.dayLengthHours := Math.round (dayLengthHours * 100) / 100;
     DayLength.dayLengthFormatted := dayLengthFormatted;
     DayLength.dayLengthPercent := Math.max 0 (Math.min 100 dayLengthPercent);
     DayLength.sunrise := sunrise;
     DayLength.sunset := sunset;
     DayLength.daysGettingLonger := daysGettingLonger;
     DayLength.changeMinutes := changeMinutes;
     DayLength.changeFormatted :=
       ((if daysGettingLonger then "+" else "-")
        ++ Math.toString M changeMinutes ++ "m")%string |}.

(** Known new moon reference: January 6, 2000 at 18:14. *)
Definition knownNewMoon : Date :=
  make (Some 2000%Z) (Some 0%Z) (Some 6%Z) (Some 18%Z) (Some 14%Z) (Some 0%Z).

Definition synodicMonth : float := 29.53058867.

Definition phaseLength : float := synodicMonth / 8.

(** The position in the lunar cycle, [lunarDay] of [getMoonPhase]. *)
Definition lunarDayOf (date : Date) : float :=
  let d := copy date in
  let d := setHours0 d in
  let daysSinceNewMoon :=
    F64.of_number (Js.sub (getTime d) (getTime knownNewMoon)) / 86400000 in
  let lunarDay := F64.fmod daysSinceNewMoon synodicMonth in
  if lunarDay <? 0 then lunarDay + synodicMonth else lunarDay.

Definition getMoonPhase (date : Date) : MoonPhase.t :=
  let lunarDay := lunarDayOf date in
  let illumination :=
    Math.round
      ((1 - Math.cos M ((lunarDay / synodicMonth) * 2 * Math.PI)) / 2 * 100) in
  let '(phase, emoji, name) :=
    if lunarDay <? phaseLength * 0.5 then (0%Z, "🌑", "New Moon")
    else if lunarDay <? phaseLength * 1.5 then (1%Z, "🌒", "Waxing Crescent")
    else if lunarDay <? phaseLength * 2.5 then (2%Z, "🌓", "First Quarter")
    else if lunarDay <? phaseLength * 3.5 then (3%Z, "🌔", "Waxing Gibbous")
    else if lunarDay <? phaseLength * 4.5 then (4%Z, "🌕", "Full Moon")
    else if lunarDay <? phaseLength * 5.5 then (5%Z, "🌖", "Waning Gibbous")
    else if lunarDay <? phaseLength * 6.5 then (6%Z, "🌗", "Last Quarter")
    else if lunarDay <? phaseLength * 7.5 then (7%Z, "🌘", "Waning Crescent")
    else (0%Z, "🌑", "New Moon") in
  let isSignificant :=
    ((phase =? 0) || (phase =? 2) || (phase =? 4) || (phase =? 6))%Z in
  {| MoonPhase.phase := phase;
     MoonPhase.emoji := emoji;
     MoonPhase.name := name;
     MoonPhase.lunarDay := lunarDay;
     MoonPhase.illumination := illumination;
     MoonPhase.isSignificant := isSignificant |}.

End Host.

End Astronomy.

(** ** The calendar component *)

(** [Date.prototype.toDateString]: the weekday, the month, the day on two
    digits and the year on at least four, or [Invalid Date]. *)
Module DateString.
Import ES.
Local Open Scope string_scope.

Definition weekdays : list string :=
  ["Sun"; "Mon"; "Tue"; "Wed"; "Thu"; "Fri"; "Sat"].

Definition months : list string :=
  ["Jan"; "Feb"; "Mar"; "Apr"; "May"; "Jun"; "Jul"; "Aug"; "Sep"; "Oct";
   "Nov"; "Dec"].

Fixpoint zeros (n : nat) : string :=
  match n with
  | O => EmptyString
  | S k => "0" ++ zeros k
  end.

(** [ToZeroPaddedDecimalString(n, minLength)] for [n >= 0]. *)
Definition zeroPadded (n : Z) (minLength : nat) : string :=
  let s := NilZero.string_of_int (Z.to_int n) in
  zeros (minLength - String.length s) ++ s.

Definition toDateString (d : number) : string :=
  match d with
  | None => "Invalid Date"
  | Some t =>
      let yv := YearFromTime t in
      let yearSign := if (0 <=? yv)%Z then EmptyString else "-" in
      nth (Z.to_nat (WeekDay t)) weekdays EmptyString ++ " "
      ++ nth (Z.to_nat (MonthFromTime t)) months EmptyString ++ " "
      ++ zeroPadded (DateFromTime t) 2 ++ " "
      ++ yearSign ++ zeroPadded (Z.abs yv) 4
  end.

End DateString.

Module PeriodColor.
Record t : Type := mk {
  bg : string;
  border : string;
  text : string
}.
End PeriodColor.

(** An entry of [weekDays] in the week view. *)
Module DayCell.
Record t : Type := mk {
  date : Date;
  info : RailwayCoordinate;
  holiday : option Holiday.t;
  moon : MoonPhase.t;
  dayLight : DayLength.t;
  isPayday : bool
}.
End DayCell.

(** An entry of a row of [weeks] in the month view. *)
Module MonthCell.
Record t : Type := mk {
  date : Date;
  info : RailwayCoordinate;
  isCurrentMonth : bool;
  holiday : option Holiday.t;
  moon : MoonPhase.t;
  dayLight : DayLength.t;
  isPayday : bool
}.
End MonthCell.

Module RailwayCalendar.
Import ES JsDate RailwayDateAPI Astronomy.
Local Open Scope string_scope.
Local Open Scope js_scope.

Definition normalizeDate (value : Date) : Date :=
  let d := copy value in
  setHours0 d.

Section Component.

Variable M : Math.host.

(** The state [currentDate] of the component. *)
Variable currentDate : Date.

(** The date that [navigateWeek(delta)] hands to [setCurrentDate]. *)
Definition navigateWeek (delta : number) : Date :=
  let newDate := copy currentDate in
  setDate newDate (getDate newDate + delta * Some 7%Z).

Definition navigateMonth (delta : number) : Date :=
  ymd (getFullYear currentDate) (getMonth currentDate + delta) (Some 1%Z).

Definition navigateYear (delta : number) : Date :=
  ymd (getFullYear currentDate + delta) (getMonth currentDate) (Some 1%Z).

Definition jumpToRailwayWeek (railwayYear week : number) : Date :=
  startDate (railwayToDateRange railwayYear week).

Definition currentInfo : RailwayCoordinate := dateToRailway currentDate.

Definition holidays : list Holiday.t :=
  let year := getFullYear currentDate in
  getUKBankHolidays year ++ getUKBankHolidays (year + Some 1%Z).

Definition isHoliday (date : Date) : option Holiday.t :=
  find (fun h =>
          String.eqb (DateString.toDateString (Holiday.date h))
                     (DateString.toDateString date))
       holidays.

Definition colors : list PeriodColor.t :=
  [PeriodColor.mk "from-cyan-500/20 to-cyan-600/20" "border-cyan-400/50"
     "text-cyan-400";
   PeriodColor.mk "from-magenta-500/20 to-pink-600/20" "border-pink-400/50"
     "text-pink-400";
   PeriodColor.mk "from-amber-500/20 to-orange-600/20" "border-amber-400/50"
     "text-amber-400";
   PeriodColor.mk "from-emerald-500/20 to-teal-600/20"
     "border-emerald-400/50" "text-emerald-400";
   PeriodColor.mk "from-violet-500/20 to-purple-600/20"
     "border-violet-400/50" "text-violet-400";
   PeriodColor.mk "from-rose-500/20 to-red-600/20" "border-rose-400/50"
     "text-rose-400";
   PeriodColor.mk "from-sky-500/20 to-blue-600/20" "border-sky-400/50"
     "text-sky-400";
   PeriodColor.mk "from-lime-500/20 to-green-600/20" "border-lime-400/50"
     "text-lime-400";
   PeriodColor.mk "from-fuchsia-500/20 to-pink-600/20"
     "border-fuchsia-400/50" "text-fuchsia-400";
   PeriodColor.mk "from-yellow-500/20 to-amber-600/20"
     "border-yellow-400/50" "text-yellow-400";
   PeriodColor.mk "from-teal-500/20 to-cyan-600/20" "border-teal-400/50"
     "text-teal-400";
   PeriodColor.mk "from-indigo-500/20 to-violet-600/20"
     "border-indigo-400/50" "text-indigo-400";
   PeriodColor.mk "from-orange-500/20 to-red-600/20" "border-orange-400/50"
     "text-orange-400"].

(** [colors[(period - 1) % colors.length]]: [undefined] (here [None])
    when the index is negative or not a number. *)
Definition getPeriodColor (period : number) : option PeriodColor.t :=
  index colors ((period - Some 1%Z) rem Z.of_nat (List.length colors)).

(** The first day of the week view. *)
Definition weekStart : Date :=
  let weekStart := copy currentDate in
  let dayOfWeek := getDay weekStart in
  let daysToSaturday := (dayOfWeek + Some 1%Z) rem 7 in
  setDate weekStart (getDate weekStart - daysToSaturday).

(** [Array.from({ length: 7 }, (_, i) => ...)] of the week view. *)
Definition weekDays : list DayCell.t :=
  map (fun i : Z =>
         let d := copy weekStart in
         let d := setDate d (getDate d + Some i) in
         DayCell.mk d (dateToRailway d) (isHoliday d) (getMoonPhase M d)
                    (getDayLength M d) (isPayday d))
      [0; 1; 2; 3; 4; 5; 6]%Z.

(** The year view: the number of periods and, for each, its weeks. *)
Definition periods : number :=
  let railwayYear := railwayYear currentInfo in
  let totalWeeks := getTotalWeeks railwayYear in
  Js.ceil_div totalWeeks 4.

Definition weeksInPeriod (period : number) : number :=
  let g := getPeriodDates (railwayYear currentInfo) period in
  endWeek g - startWeek g + Some 1%Z.

End Component.

End RailwayCalendar.

(** *** The month view *)

(** A [for] loop whose body does not read its counter: the body run [n]
    times on the state. *)
Fixpoint forLoop {S : Type} (n : nat) (body : S -> S) (s : S) : S :=
  match n with
  | O => s
  | Datatypes.S k => forLoop k body (body s)
  end.

Module MonthView.
Import ES JsDate RailwayDateAPI Astronomy.
Local Open Scope js_scope.

Section Grid.

Variable M : Math.host.
Variable currentDate : Date.

(** The body of the loop over the days of a week: the cell of [current]
    is pushed on [week], and [current] moves to the next day. *)
Definition dayBody (month : number) (st : list MonthCell.t * Date)
  : list MonthCell.t * Date :=
  let '(week, current) := st in
  let week :=
    push week
      (MonthCell.mk (copy current) (dateToRailway current)
         (getMonth current === month)
         (RailwayCalendar.isHoliday currentDate current)
         (getMoonPhase M current) (getDayLength M current)
         (isPayday current)) in
  let current := setDate current (getDate current + Some 1%Z) in
  (week, current).

(** The body of the loop over the weeks: a week with a day of the current
    month is pushed on [weeks]. *)
Definition weekBody (month : number)
  (st : list (list MonthCell.t) * Date) : list (list MonthCell.t) * Date :=
  let '(weeks, current) := st in
  let week := [] in
  let '(week, current) := forLoop 7 (dayBody month) (week, current) in
  let weeks :=
    if existsb MonthCell.isCurrentMonth week then push weeks week
    else weeks in
  (weeks, current).

(** The last day of the month, as the view computes it; the grid does not
    read it. *)
Definition lastDay : Date :=
  let year := getFullYear currentDate in
  let month := getMonth currentDate in
  ymd year (month + Some 1%Z) (Some 0%Z).

(** The Saturday on or before the first day of the month.  The steps on
    [startDate] and on [current] act on copies, so that no cell shares its
    date with the loop variable. *)
Definition startDate : Date :=
  let year := getFullYear currentDate in
  let month := getMonth currentDate in
  let firstDay := ymd year month (Some 1%Z) in
  let startDate := copy firstDay in
  let dayOfWeek := getDay startDate in
  setDate startDate (getDate startDate - (dayOfWeek + Some 1%Z) rem 7).

(** The six weeks from [startDate], less those without a day of the current
    month. *)
Definition weeks : list (list MonthCell.t) :=
  let month := getMonth currentDate in
  let weeks := [] in
  let current := copy startDate in
  fst (forLoop 6 (weekBody month) (weeks, current)).

End Grid.

End MonthView.

(** ** The host time zone *)

(** The railway conversion divides a difference of time values by the
    length of a day, so that its result depends on the time zone of the
    host.  [Zoned] is the [Date] object and the railway conversion on a host
    in any time zone; [JsDate] and [RailwayDateAPI] above are the same code
    on a host in UTC (lemmas [ymd_utc] to [dateToRailway_utc]). *)

Module Zone.
Import ES.

(** A time zone as ECMA-262 sees it: [offset t] is the offset of local time
    from UTC, in milliseconds, at the time value [t], and [localOffset t]
    the offset under which the local time [t] is read, the two differing
    around a transition only. *)
Record t : Type := mk {
  offset : Z -> Z;
  localOffset : Z -> Z
}.

Definition LocalTime (z : t) (tv : Z) : Z := tv + offset z tv.
Definition UTC (z : t) (tl : Z) : Z := tl - localOffset z tl.

Definition utc : t := mk (fun _ => 0) (fun _ => 0).

Definition msPerHour : Z := 3600000.

(** Day number of the last Sunday of a month of 31 days. *)
Definition lastSunday (y m : Z) : Z :=
  let d31 := MakeDay y m 31 in
  d31 - (d31 + 4) mod 7.

(** Europe/London under the rule in force since 1996, taken for every year:
    summer time, one hour ahead of UTC, from 01:00 UTC on the last Sunday of
    March to 01:00 UTC on the last Sunday of October.  A local time that the
    change in March skips is read with the offset before it, and one that
    the change in October repeats is read as the earlier instant. *)
Definition summerStart (y : Z) : Z :=
  MakeDate (lastSunday y 2) (MakeTime 1 0 0 0).
Definition summerEnd (y : Z) : Z :=
  MakeDate (lastSunday y 9) (MakeTime 1 0 0 0).

Definition london : t :=
  mk (fun tv =>
        let y := YearFromTime tv in
        if (summerStart y <=? tv) && (tv <? summerEnd y) then msPerHour
        else 0)
     (fun tl =>
        let y := YearFromTime tl in
        if (summerStart y + msPerHour <=? tl)
           && (tl <? summerEnd y + msPerHour) then msPerHour
        else 0).

End Zone.

Module Zoned.
Import ES.
Local Open Scope js_scope.

Section Host.

Variable z : Zone.t.

(** *** The [Date] object in the zone of the host *)

(** [new Date(year, month, date, hours, minutes, seconds)]: the fields are
    local time. *)
Definition make (year month date hours minutes seconds : number) : Date :=
  let* y := year in
  let* m := month in
  let* dt := date in
  let* h := hours in
  let* mi := minutes in
  let* s := seconds in
  let yr := JsDate.fullYear y in
  TimeClip (Zone.UTC z (MakeDate (MakeDay yr m dt) (MakeTime h mi s 0))).

Definition ymd (year month date : number) : Date :=
  make year month date (Some 0) (Some 0) (Some 0).

Definition copy (d : Date) : Date := d.

Definition getTime (d : Date) : number := d.
Definition getFullYear (d : Date) : number :=
  let* t := d in Some (YearFromTime (Zone.LocalTime z t)).
Definition getMonth (d : Date) : number :=
  let* t := d in Some (MonthFromTime (Zone.LocalTime z t)).
Definition getDate (d : Date) : number :=
  let* t := d in Some (DateFromTime (Zone.LocalTime z t)).
Definition getDay (d : Date) : number :=
  let* t := d in Some (WeekDay (Zone.LocalTime z t)).

Definition setDate (d : Date) (date : number) : Date :=
  let* t := d in
  let* dt := date in
  let tl := Zone.LocalTime z t in
  TimeClip
    (Zone.UTC z
       (MakeDate (MakeDay (YearFromTime tl) (MonthFromTime tl) dt)
                 (TimeWithinDay tl))).

Definition setHours0 (d : Date) : Date :=
  let* t := d in
  let tl := Zone.LocalTime z t in
  TimeClip (Zone.UTC z (MakeDate (Day tl) (MakeTime 0 0 0 0))).

(** *** The railway conversion in the zone of the host *)

Definition getWeekOneStart (railwayYear : number) : Date :=
  let lastDayOfMarch := ymd railwayYear (Some 2%Z) (Some 31%Z) in
  let dayOfWeek := getDay lastDayOfMarch in
  let daysToGoBack := (dayOfWeek + Some 1%Z) rem 7 in
  let lastSaturday := ymd railwayYear (Some 2%Z) (Some 31%Z - daysToGoBack) in
  lastSaturday.

Definition getTotalWeeks (railwayYear : number) : number :=
  let thisYearStart := getWeekOneStart railwayYear in
  let nextYearStart := getWeekOneStart (railwayYear + Some 1%Z) in
  let days := Js.round_div (nextYearStart - thisYearStart) msPerDay in
  Js.floor_div days 7.

Definition dateToRailway (date : Date) : RailwayCoordinate :=
  let d := copy date in
  let d := setHours0 d in
  let railwayYear := getFullYear d in
  let weekOneStart := getWeekOneStart railwayYear in
  let '(railwayYear, weekOneStart) :=
    if d < weekOneStart then
      let railwayYear := railwayYear - Some 1%Z in
      (railwayYear, getWeekOneStart railwayYear)
    else
      let nextYearStart := getWeekOneStart (railwayYear + Some 1%Z) in
      if d >= nextYearStart then (railwayYear + Some 1%Z, nextYearStart)
      else (railwayYear, weekOneStart) in
  let daysDiff := Js.floor_div (d - weekOneStart) msPerDay in
  let railWeek := Js.floor_div daysDiff 7 + Some 1%Z in
  let dayOfRailWeek := daysDiff rem 7 + Some 1%Z in
  let period := Js.ceil_div railWeek 4 in
  let weekInPeriod := (railWeek - Some 1%Z) rem 4 + Some 1%Z in
  let totalWeeks := getTotalWeeks railwayYear in
  {| railwayYear := railwayYear;
     railWeek := railWeek;
     dayOfRailWeek := dayOfRailWeek;
     period := period;
     weekInPeriod := weekInPeriod;
     totalWeeks := totalWeeks;
     weekOneStart := weekOneStart;
     dayName := RailwayDateAPI.index RailwayDateAPI.dayNames
                  (dayOfRailWeek - Some 1%Z);
     railwayYearDisplay :=
       (Js.toString railwayYear ++ "/" ++
        Js.slice_last2 (Js.toString (railwayYear + Some 1%Z)))%string |}.

Definition railwayToDateRange (railwayYear railWeek : number) : DateRange :=
  let weekOneStart := getWeekOneStart railwayYear in
  let startDate := copy weekOneStart in
  let startDate :=
    setDate startDate (getDate startDate + (railWeek - Some 1%Z) * Some 7%Z) in
  let endDate := copy startDate in
  let endDate := setDate endDate (getDate endDate + Some 6%Z) in
  {| startDate := startDate; endDate := endDate |}.

Definition getPeriodDates (railwayYear period : number) : PeriodDates :=
  let startWeek := (period - Some 1%Z) * Some 4%Z + Some 1%Z in
  let endWeek := Js.min (period * Some 4%Z) (getTotalWeeks railwayYear) in
  let r1 := railwayToDateRange railwayYear startWeek in
  let r2 := railwayToDateRange railwayYear endWeek in
  {| periodStart := startDate r1; periodEnd := endDate r2;
     startWeek := startWeek; endWeek := endWeek |}.

End Host.

End Zoned.

(** ** Vocabulary of the statements *)

Module Spec.
Import ES JsDate.

(** Day number of the Saturday on or before 31 March of year [y]. *)
Definition weekOneDay (y : Z) : Z :=
  let m31 := MakeDay y 2 31 in
  m31 - (m31 + 5) mod 7.

(** Years whose 31 March and the week before it are representable. *)
Definition representable (y : Z) : Prop := -271820 <= y <= 275760.

(** The railway year of [d] and its week-one start, as [dateToRailway]
    chooses them from the calendar year [railwayYear] of [d]. *)
Definition locate (d : Date) (railwayYear : number) : number * Date :=
  let weekOneStart := RailwayDateAPI.getWeekOneStart railwayYear in
  if Js.lt d weekOneStart then
    let railwayYear := Js.sub railwayYear (Some 1) in
    (railwayYear, RailwayDateAPI.getWeekOneStart railwayYear)
  else
    let nextYearStart :=
      RailwayDateAPI.getWeekOneStart (Js.add railwayYear (Some 1)) in
    if Js.ge d nextYearStart then (Js.add railwayYear (Some 1), nextYearStart)
    else (railwayYear, weekOneStart).

(** Day number of the reference payday, 5 December 2025. *)
Definition referenceDay : Z := MakeDay 2025 11 5.

(** The next payday in the words of the specification, on time values:
    [daysUntil = 28 - ((date - referencePayday) mod 28)] with the
    floor-based modulo; the date itself when that is 28, and the date
    plus [daysUntil] days otherwise. *)
Definition nextPayday_floor (date : Z) : Z :=
  let daysUntil := 28 - (Day date - referenceDay) mod 28 in
  if daysUntil =? 28 then date else date + daysUntil * msPerDay.

(** The number of days that [getNextPayday] adds, with the remainder of
    the truncated division that [%] computes. *)
Definition daysUntilPayday (day : Z) : Z :=
  let u := 28 - Z.rem (day - referenceDay) 28 in
  if u =? 28 then 0 else u.

(** The entries of a holiday table that carry a given name. *)
Definition named (n : string) (holidays : list Holiday.t) : list Holiday.t :=
  filter (fun h => String.eqb (Holiday.name h) n) holidays.

(** The date of the Christmas Day entry of the holiday table. *)
Definition christmas (year : number) : Date :=
  let xmas := ymd year (Some 11) (Some 25) in
  let xmasDay := getDay xmas in
  let xmas :=
    if Js.seq xmasDay (Some 0) then ymd year (Some 11) (Some 27) else xmas in
  if Js.seq xmasDay (Some 6) then ymd year (Some 11) (Some 27) else xmas.



(** The mantissa of [synodicMonth], which is [mS * 2^-48]. *)
Abbreviation mS := 8312121758140212%positive.



(** Two hosts whose tangent puts [cosHourAngle] below -1 and above 1. *)
Definition polarDay : Math.host :=
  {| Math.sin := fun x => x; Math.cos := fun x => x;
     Math.tan := fun _ => 2%float; Math.acos := fun x => x;
     Math.toString := fun _ => "0"%string |}.

Definition polarNight : Math.host :=
  {| Math.sin := fun _ => 0%float; Math.cos := fun x => x;
     Math.tan := fun x => if (x =? Astronomy.latRad)%float then 2%float
                          else (-2)%float;
     Math.acos := fun x => x;
     Math.toString := fun _ => "0"%string |}.


(** Days of month [m] (0..11) of year [y]. *)
Definition DaysInMonth (y m : Z) : Z :=
  match m with
  | 1 => if isLeapYear y then 29 else 28
  | 3 | 5 | 8 | 10 => 30
  | _ => 31
  end.

(** Years that [new Date(year, ...)] takes as they are, with week one of
    the year and of the next one representable. *)
Definition plainYear (y : Z) : Prop :=
  -271820 <= y <= -2 \/ 100 <= y <= 275759.

(** A [Date] of the embedding that stands for a [Date] object: the time
    value of a valid date is within the range of [TimeClip]. *)
Definition wellFormed (d : Date) : Prop :=
  match d with
  | Some t => Z.abs t <= maxTime
  | None => True
  end.

(** A date that falls from Monday to Friday. *)
Definition onWeekday (d : Date) : Prop :=
  exists t w, d = Some t /\ getDay (Some t) = Some w /\ 1 <= w <= 5.

(** The number [h + l - 7m + 114] of the Anonymous Gregorian algorithm in
    [getEasterSunday], whose quotient and remainder by 31 give the month
    and the day. *)
Definition easterNumber (year : Z) : Z :=
  let a := Z.rem year 19 in
  let b := year / 100 in
  let c := Z.rem year 100 in
  let d := b / 4 in
  let e := Z.rem b 4 in
  let f := (b + 8) / 25 in
  let g := (b - f + 1) / 3 in
  let h := Z.rem (19 * a + b - d - g + 15) 30 in
  let i := c / 4 in
  let k := Z.rem c 4 in
  let l := Z.rem (32 + 2 * e + 2 * i - h - k) 7 in
  let m := (a + 11 * h + 22 * l) / 451 in
  h + l - 7 * m + 114.

(** Day number of Easter Sunday of year [y]: 22 March plus
    [easterNumber y - 114] days. *)
Definition easterDay (y : Z) : Z := MakeDay y 2 (easterNumber y - 92).

(** The entries of the holiday table tied to Easter, each with the day of
    the week that its name announces (0 is Sunday). *)
Definition feastDays : list (string * Z) :=
  [("Shrove Tuesday", 2); ("Ash Wednesday", 3); ("Mother's Day (UK)", 0);
   ("Palm Sunday", 0); ("Maundy Thursday", 4); ("Good Friday", 5);
   ("Easter Sunday", 0); ("Easter Monday", 1); ("Ascension Day", 4);
   ("Pentecost", 0)]%string.

(** The entries of a holiday table of a given type. *)
Definition ofType (ty : string) (holidays : list Holiday.t) : list Holiday.t :=
  filter (fun h => String.eqb (Holiday.type h) ty) holidays.

(** The names of the days of the week as [getDay] numbers them. *)
Definition weekdayNames : list string :=
  ["Sunday"; "Monday"; "Tuesday"; "Wednesday"; "Thursday"; "Friday";
   "Saturday"]%string.

(** The phases of the moon in the order of their index. *)
Definition phases : list (string * string) :=
  [("🌑", "New Moon"); ("🌒", "Waxing Crescent"); ("🌓", "First Quarter");
   ("🌔", "Waxing Gibbous"); ("🌕", "Full Moon"); ("🌖", "Waning Gibbous");
   ("🌗", "Last Quarter"); ("🌘", "Waning Crescent")]%string.

(** The state after one turn of a loop over days that pushes [f current]
    and moves [current] to the next day. *)
Definition stepDay {A : Type} (f : Date -> A) (st : list A * Date)
  : list A * Date :=
  let '(week, current) := st in
  (RailwayDateAPI.push week (f current),
   setDate current (Js.add (getDate current) (Some 1))).

(** The state after one turn of a loop over weeks that keeps the weeks
    satisfying [keep]. *)
Definition stepWeek {A : Type} (f : Date -> A) (keep : list A -> bool)
  (st : list (list A) * Date) : list (list A) * Date :=
  let '(weeks, current) := st in
  let '(week, current) := forLoop 7 (stepDay f) ([], current) in
  ((if keep week then RailwayDateAPI.push weeks week else weeks), current).

(** The seven values of [f] on the days from the time value [c]. *)
Definition sevenDays {A : Type} (f : Date -> A) (c : Z) : list A :=
  map (fun k => f (Some (c + Z.of_nat k * msPerDay))) (seq 0 7).

(** The cell of the month grid for the date [current]. *)
Definition monthCell (M : Math.host) (currentDate : Date) (month : number)
  (current : Date) : MonthCell.t :=
  MonthCell.mk (copy current) (RailwayDateAPI.dateToRailway current)
    (Js.seq (getMonth current) month)
    (RailwayCalendar.isHoliday currentDate current)
    (Astronomy.getMoonPhase M current) (Astronomy.getDayLength M current)
    (RailwayDateAPI.isPayday current).

(** The calendar years whose month grids stay within plain years. *)
Definition gridYear (y : Z) : Prop :=
  -271818 <= y <= -3 \/ 102 <= y <= 275758.

(** Day number of the first day of the grid of the month [m] of the year
    [y]: the Saturday on or before the first of the month. *)
Definition gridStart (y m : Z) : Z :=
  MakeDay y m 1 - (MakeDay y m 1 + 5) mod 7.

(** The time value of local midnight of the day number [n] on a host in
    the zone [z], and the day number of the local day of a time value. *)
Definition midnight (z : Zone.t) (n : Z) : Z := Zone.UTC z (n * msPerDay).
Definition localDay (z : Zone.t) (t : Z) : Z := Day (Zone.LocalTime z t).

(** A zone in which every local midnight exists and is read back as
    itself, whose offsets are less than a day and differ from one another
    by less than half a day. *)
Definition regular (z : Zone.t) : Prop :=
  (forall n, Zone.LocalTime z (midnight z n) = n * msPerDay) /\
  (forall tl, Z.abs (Zone.localOffset z tl) < msPerDay) /\
  (forall a b,
     2 * Z.abs (Zone.localOffset z a - Zone.localOffset z b) < msPerDay).

(** Whether the offset at local midnight of day [n] is larger than at
    local midnight of day [w]: 1 when it is, as on a day of summer time
    counted from a day of winter time, and 0 otherwise. *)
Definition lag (z : Zone.t) (w n : Z) : Z :=
  if Zone.localOffset z (w * msPerDay) <? Zone.localOffset z (n * msPerDay)
  then 1 else 0.

(** The railway year of [d] and its week-one start, as [Zoned.dateToRailway]
    chooses them from the calendar year [railwayYear] of [d]. *)
Definition zlocate (z : Zone.t) (d : Date) (railwayYear : number)
  : number * Date :=
  let weekOneStart := Zoned.getWeekOneStart z railwayYear in
  if Js.lt d weekOneStart then
    let railwayYear := Js.sub railwayYear (Some 1) in
    (railwayYear, Zoned.getWeekOneStart z railwayYear)
  else
    let nextYearStart :=
      Zoned.getWeekOneStart z (Js.add railwayYear (Some 1)) in
    if Js.ge d nextYearStart then (Js.add railwayYear (Some 1), nextYearStart)
    else (railwayYear, weekOneStart).

(** Whether the offset of the zone at the date [a] is not larger than at
    the date [b]; an Invalid Date has no offset and sets no condition. *)
Definition offsetNotLarger (z : Zone.t) (a b : Date) : Prop :=
  match a, b with
  | Some x, Some y => Zone.offset z x <= Zone.offset z y
  | _, _ => True
  end.

End Spec.

(** * Properties *)

Import ES JsDate RailwayDateAPI Astronomy Spec.

Ltac zdiv := Z.div_mod_to_equations; lia.

(** ** Years and days *)

Section Calendar.

Lemma DayFromYear_succ (y : Z) :
  DayFromYear (y + 1) = DayFromYear y + DaysInYear y.
Proof.
  unfold DayFromYear, DaysInYear, isLeapYear.
  destruct (Z.eqb_spec (y mod 4) 0), (Z.eqb_spec (y mod 100) 0),
    (Z.eqb_spec (y mod 400) 0); cbn [negb]; zdiv.
Qed.

Lemma DaysInYear_cases (y : Z) : DaysInYear y = 365 \/ DaysInYear y = 366.
Proof. unfold DaysInYear. destruct (isLeapYear y); auto. Qed.

Lemma DayFromYear_le (y y' : Z) : y <= y' -> DayFromYear y <= DayFromYear y'.
Proof.
  intros H. replace y' with (y + (y' - y)) by lia.
  assert (Hn : 0 <= y' - y) by lia. revert Hn.
  generalize (y' - y). intros n Hn. pattern n.
  apply natlike_ind; trivial.
  - rewrite Z.add_0_r. lia.
  - intros k Hk IH. replace (y + Z.succ k) with (y + k + 1) by lia.
    rewrite DayFromYear_succ. destruct (DaysInYear_cases (y + k)); lia.
Qed.


Lemma YearFromDay_spec (d : Z) :
  DayFromYear (YearFromDay d) <= d < DayFromYear (YearFromDay d + 1).
Proof.
  unfold YearFromDay. cbv zeta.
  destruct (Z.ltb_spec d (DayFromYear (1970 + 400 * d / 146097))).
  - unfold DayFromYear in *. zdiv.
  - destruct (Z.leb_spec (DayFromYear (1970 + 400 * d / 146097 + 1)) d);
      unfold DayFromYear in *; zdiv.
Qed.

Lemma YearFromDay_unique (d y : Z) :
  DayFromYear y <= d < DayFromYear (y + 1) -> YearFromDay d = y.
Proof.
  intros H. pose proof (YearFromDay_spec d) as S.
  destruct (Z.lt_trichotomy (YearFromDay d) y) as [L | [E | G]]; trivial.
  - assert (DayFromYear (YearFromDay d + 1) <= DayFromYear y)
      by (apply DayFromYear_le; lia). lia.
  - assert (DayFromYear (y + 1) <= DayFromYear (YearFromDay d))
      by (apply DayFromYear_le; lia). lia.
Qed.


Lemma MakeDate_Day (t : Z) : MakeDate (Day t) (TimeWithinDay t) = t.
Proof. unfold MakeDate, Day, TimeWithinDay, msPerDay. zdiv. Qed.

Lemma DayWithinYear_bounds (t : Z) :
  0 <= DayWithinYear t < DaysInYear (YearFromTime t).
Proof.
  unfold DayWithinYear, YearFromTime.
  pose proof (YearFromDay_spec (Day t)) as S.
  rewrite DayFromYear_succ in S. lia.
Qed.

(** The getters invert [MakeDay]: the calendar fields of a time value
    name its day. *)
Lemma MakeDay_fields (t : Z) :
  MakeDay (YearFromTime t) (MonthFromTime t) (DateFromTime t) = Day t.
Proof.
  pose proof (DayWithinYear_bounds t) as B.
  unfold MakeDay, DateFromTime, MonthFromTime, InLeapYear, DaysInYear in *.
  unfold DayWithinYear in *. cbv zeta.
  set (dy := Day t - DayFromYear (YearFromTime t)) in *.
  destruct (isLeapYear (YearFromTime t)) eqn:L;
    repeat match goal with
      | |- context [if ?a <? ?b then _ else _] =>
          destruct (Z.ltb_spec a b)
      end;
    cbn [Z.div Z.modulo]; rewrite ?Z.add_0_r; try rewrite L;
    cbn; subst dy; lia.
Qed.

End Calendar.

(** ** Date objects *)

Section DateObjects.

Lemma TimeClip_ok (t : Z) : Z.abs t <= maxTime -> TimeClip t = Some t.
Proof.
  intros H. unfold TimeClip. destruct (Z.leb_spec (Z.abs t) maxTime); trivial.
  lia.
Qed.

Lemma TimeClip_out (t : Z) : maxTime < Z.abs t -> TimeClip t = None.
Proof.
  intros H. unfold TimeClip. destruct (Z.leb_spec (Z.abs t) maxTime); trivial.
  lia.
Qed.

Lemma TimeClip_Some (t u : Z) :
  TimeClip t = Some u -> u = t /\ Z.abs t <= maxTime.
Proof.
  unfold TimeClip. destruct (Z.leb_spec (Z.abs t) maxTime); intros E.
  - injection E as <-. auto.
  - discriminate.
Qed.

Lemma ymd_eq (y m dt : Z) :
  ymd (Some y) (Some m) (Some dt)
  = TimeClip (MakeDay (fullYear y) m dt * msPerDay).
Proof.
  unfold ymd, make, bind, MakeDate, MakeTime. f_equal. lia.
Qed.

Lemma MakeDay_add (y m dt k : Z) : MakeDay y m (dt + k) = MakeDay y m dt + k.
Proof. unfold MakeDay. lia. Qed.

Lemma Day_of_days (n : Z) : Day (n * msPerDay) = n.
Proof. unfold Day, msPerDay. zdiv. Qed.

Lemma WeekDay_of_days (n : Z) : WeekDay (n * msPerDay) = (n + 4) mod 7.
Proof. unfold WeekDay. now rewrite Day_of_days. Qed.

(** [d.setDate(d.getDate() + k)] moves [d] by [k] days. *)
Lemma setDate_getDate_add (t k : Z) :
  setDate (Some t) (Js.add (getDate (Some t)) (Some k))
  = TimeClip (t + k * msPerDay).
Proof.
  unfold setDate, getDate, Js.add, bind.
  rewrite MakeDay_add, MakeDay_fields. f_equal.
  pose proof (MakeDate_Day t) as E. unfold MakeDate in *. lia.
Qed.


Lemma setHours0_eq (t : Z) :
  Z.abs t <= maxTime -> setHours0 (Some t) = Some (Day t * msPerDay).
Proof.
  intros H. unfold setHours0, bind, MakeDate, MakeTime.
  rewrite TimeClip_ok; [f_equal; lia|].
  unfold Day, maxTime, msPerDay in *. zdiv.
Qed.

Lemma Day_range (t : Z) :
  Z.abs t <= maxTime -> -100000000 <= Day t <= 100000000.
Proof. unfold Day, maxTime, msPerDay. intros H. zdiv. Qed.

Lemma days_in_range (n : Z) :
  -100000000 <= n <= 100000000 -> Z.abs (n * msPerDay) <= maxTime.
Proof. unfold maxTime, msPerDay. lia. Qed.

Lemma MakeDay_month (y m dt : Z) :
  0 <= m <= 11 ->
  MakeDay y m dt
  = DayFromYear y + DaysBeforeMonth m (isLeapYear y) + dt - 1.
Proof.
  intros H. unfold MakeDay.
  rewrite Z.div_small, Z.mod_small, Z.add_0_r by lia. reflexivity.
Qed.

(** Calendar fields of a day of March. *)
Lemma March_fields (y dt : Z) :
  1 <= dt <= 31 ->
  let t := MakeDay y 2 dt * msPerDay in
  YearFromTime t = y /\ MonthFromTime t = 2 /\ DateFromTime t = dt.
Proof.
  intros H t.
  assert (D : Day t = DayFromYear y + (59 + (if isLeapYear y then 1 else 0))
                      + dt - 1).
  { unfold t. rewrite Day_of_days, MakeDay_month by lia. reflexivity. }
  assert (Y : YearFromTime t = y).
  { unfold YearFromTime. apply YearFromDay_unique. rewrite D.
    rewrite DayFromYear_succ. unfold DaysInYear.
    destruct (isLeapYear y); lia. }
  unfold DateFromTime, MonthFromTime, InLeapYear, DayWithinYear.
  rewrite Y, D. cbv zeta.
  destruct (isLeapYear y);
    repeat match goal with
      | |- context [if ?a <? ?b then _ else _] =>
          destruct (Z.ltb_spec a b); try lia
      end; repeat split; lia.
Qed.

Lemma March_range (y dt : Z) :
  representable y -> 25 <= dt <= 31 ->
  -100000000 <= MakeDay y 2 dt <= 100000000.
Proof.
  intros H H'. rewrite MakeDay_month by lia.
  unfold representable, DayFromYear, DaysBeforeMonth in *.
  destruct (isLeapYear y); zdiv.
Qed.

End DateObjects.

(** ** Week one of a railway year *)

Section WeekOne.

Lemma weekOneDay_March (y : Z) :
  exists k, 0 <= k <= 6 /\ weekOneDay y = MakeDay y 2 (31 - k).
Proof.
  exists ((MakeDay y 2 31 + 5) mod 7). split; [zdiv|].
  unfold weekOneDay. cbv zeta.
  replace (31 - (MakeDay y 2 31 + 5) mod 7)
    with (31 + - ((MakeDay y 2 31 + 5) mod 7)) by lia.
  rewrite MakeDay_add. lia.
Qed.

Lemma weekOneDay_saturday (y : Z) : (weekOneDay y + 4) mod 7 = 6.
Proof. unfold weekOneDay. cbv zeta. zdiv. Qed.

Lemma weekOneDay_range (y : Z) :
  representable y -> -100000000 <= weekOneDay y <= 100000000.
Proof.
  intros R. destruct (weekOneDay_March y) as (k & Hk & ->).
  apply March_range; trivial. lia.
Qed.

Lemma weekOneDay_succ (y : Z) :
  weekOneDay (y + 1) = weekOneDay y + 364
  \/ weekOneDay (y + 1) = weekOneDay y + 371.
Proof.
  unfold weekOneDay. cbv zeta. rewrite !MakeDay_month by lia.
  rewrite DayFromYear_succ. unfold DaysInYear, DaysBeforeMonth.
  destruct (isLeapYear y), (isLeapYear (y + 1)); zdiv.
Qed.

Lemma weekOneDay_in_year (y : Z) :
  DayFromYear y < weekOneDay y < DayFromYear (y + 1).
Proof.
  destruct (weekOneDay_March y) as (k & Hk & ->).
  rewrite MakeDay_month, DayFromYear_succ by lia.
  unfold DaysInYear, DaysBeforeMonth. destruct (isLeapYear y); lia.
Qed.

Lemma getWeekOneStart_val (Y : Z) :
  representable (fullYear Y) ->
  getWeekOneStart (Some Y) = Some (weekOneDay (fullYear Y) * msPerDay).
Proof.
  intros R. unfold getWeekOneStart. rewrite ymd_eq.
  rewrite TimeClip_ok
    by (apply days_in_range, March_range; trivial; lia).
  unfold getDay, Js.add, Js.rem, Js.sub, bind.
  rewrite ymd_eq, WeekDay_of_days.
  set (m31 := MakeDay (fullYear Y) 2 31).
  assert (E : Z.rem ((m31 + 4) mod 7 + 1) 7 = (m31 + 5) mod 7).
  { rewrite Z.rem_mod_nonneg by zdiv. zdiv. }
  rewrite E.
  replace (31 - (m31 + 5) mod 7) with (31 + - ((m31 + 5) mod 7)) by lia.
  rewrite MakeDay_add. fold m31.
  replace (m31 + - ((m31 + 5) mod 7)) with (weekOneDay (fullYear Y))
    by (unfold weekOneDay; fold m31; cbv zeta; lia).
  apply TimeClip_ok, days_in_range, weekOneDay_range, R.
Qed.

Lemma March31_out (y : Z) :
  ~ representable y -> maxTime < Z.abs (MakeDay y 2 31 * msPerDay).
Proof.
  intros R. rewrite MakeDay_month by lia.
  unfold representable, maxTime, msPerDay, DayFromYear, DaysBeforeMonth in *.
  destruct (isLeapYear y); zdiv.
Qed.

Lemma getWeekOneStart_nan (Y : Z) :
  ~ representable (fullYear Y) -> getWeekOneStart (Some Y) = None.
Proof.
  intros R. unfold getWeekOneStart. rewrite ymd_eq.
  rewrite TimeClip_out by (apply March31_out, R). reflexivity.
Qed.

Lemma getWeekOneStart_Some (Y t : Z) :
  getWeekOneStart (Some Y) = Some t ->
  representable (fullYear Y) /\ t = weekOneDay (fullYear Y) * msPerDay.
Proof.
  intros E.
  assert (R : representable (fullYear Y)).
  { unfold representable.
    destruct (Z_le_dec (-271820) (fullYear Y));
      destruct (Z_le_dec (fullYear Y) 275760); try lia;
      rewrite getWeekOneStart_nan in E by (unfold representable; lia);
      discriminate. }
  split; trivial. rewrite getWeekOneStart_val in E by trivial. congruence.
Qed.

Lemma fullYear_plain (Y : Z) : Y < 0 \/ 100 <= Y -> fullYear Y = Y.
Proof.
  intros H. unfold fullYear.
  destruct (Z.leb_spec 0 Y), (Z.leb_spec Y 99); cbn [andb]; lia.
Qed.

Lemma fullYear_succ (Y : Z) :
  Y <> -1 -> Y <> 99 -> fullYear (Y + 1) = fullYear Y + 1.
Proof.
  intros H1 H2. unfold fullYear.
  destruct (Z.leb_spec 0 Y), (Z.leb_spec Y 99), (Z.leb_spec 0 (Y + 1)),
    (Z.leb_spec (Y + 1) 99); cbn [andb]; lia.
Qed.

Lemma getTotalWeeks_val (Y : Z) :
  representable (fullYear Y) -> representable (fullYear (Y + 1)) ->
  getTotalWeeks (Some Y)
  = Some ((weekOneDay (fullYear (Y + 1)) - weekOneDay (fullYear Y)) / 7).
Proof.
  intros R R'. unfold getTotalWeeks. cbn [Js.add bind].
  rewrite !getWeekOneStart_val by trivial.
  unfold Js.sub, Js.round_div, Js.floor_div, bind. do 2 f_equal.
  unfold msPerDay. zdiv.
Qed.

End WeekOne.

(** ** Locating a date in its railway year *)

Section Locate.

Lemma dateToRailway_locate (date : Date) :
  let d := setHours0 date in
  let r := dateToRailway date in
  let p := locate d (getFullYear d) in
  let daysDiff := Js.floor_div (Js.sub d (snd p)) msPerDay in
  railwayYear r = fst p /\
  weekOneStart r = snd p /\
  railWeek r = Js.add (Js.floor_div daysDiff 7) (Some 1) /\
  dayOfRailWeek r = Js.add (Js.rem daysDiff 7) (Some 1) /\
  period r = Js.ceil_div (railWeek r) 4 /\
  weekInPeriod r
  = Js.add (Js.rem (Js.sub (railWeek r) (Some 1)) 4) (Some 1) /\
  totalWeeks r = getTotalWeeks (railwayYear r).
Proof.
  unfold dateToRailway, locate, copy. cbv zeta.
  match goal with
  | |- context [match ?p with pair _ _ => _ end] => destruct p
  end.
  cbn. repeat split.
Qed.

Lemma locate_prev (D y : Z) :
  representable (fullYear y) ->
  D < weekOneDay (fullYear y) ->
  locate (Some (D * msPerDay)) (Some y)
  = (Some (y - 1), getWeekOneStart (Some (y - 1))).
Proof.
  intros R L. unfold locate. cbv zeta.
  rewrite getWeekOneStart_val by trivial. unfold Js.lt.
  destruct (Z.ltb_spec (D * msPerDay) (weekOneDay (fullYear y) * msPerDay)).
  - reflexivity.
  - unfold msPerDay in *. lia.
Qed.

Lemma locate_same (D y : Z) :
  representable (fullYear y) ->
  representable (fullYear (y + 1)) ->
  weekOneDay (fullYear y) <= D < weekOneDay (fullYear (y + 1)) ->
  locate (Some (D * msPerDay)) (Some y)
  = (Some y, Some (weekOneDay (fullYear y) * msPerDay)).
Proof.
  intros R R' L. unfold locate. cbv zeta. cbn [Js.add bind].
  rewrite !getWeekOneStart_val by trivial. unfold Js.lt, Js.ge.
  destruct (Z.ltb_spec (D * msPerDay) (weekOneDay (fullYear y) * msPerDay)).
  - unfold msPerDay in *. lia.
  - destruct (Z.leb_spec (weekOneDay (fullYear (y + 1)) * msPerDay)
                (D * msPerDay)).
    + unfold msPerDay in *. lia.
    + reflexivity.
Qed.

Lemma locate_next (D y : Z) :
  representable (fullYear y) ->
  representable (fullYear (y + 1)) ->
  weekOneDay (fullYear y) <= D ->
  weekOneDay (fullYear (y + 1)) <= D ->
  locate (Some (D * msPerDay)) (Some y)
  = (Some (y + 1), Some (weekOneDay (fullYear (y + 1)) * msPerDay)).
Proof.
  intros R R' L L'. unfold locate. cbv zeta. cbn [Js.add bind].
  rewrite !getWeekOneStart_val by trivial. unfold Js.lt, Js.ge.
  destruct (Z.ltb_spec (D * msPerDay) (weekOneDay (fullYear y) * msPerDay)).
  - unfold msPerDay in *. lia.
  - destruct (Z.leb_spec (weekOneDay (fullYear (y + 1)) * msPerDay)
                (D * msPerDay)).
    + reflexivity.
    + unfold msPerDay in *. lia.
Qed.

(** The fields of the coordinate once the railway year [R], starting on
    day [W], is known. *)
Lemma dateToRailway_fields (t R W : Z) :
  Z.abs t <= maxTime ->
  locate (Some (Day t * msPerDay)) (Some (YearFromDay (Day t)))
  = (Some R, Some (W * msPerDay)) ->
  let r := dateToRailway (Some t) in
  let rw := (Day t - W) / 7 + 1 in
  railwayYear r = Some R /\
  weekOneStart r = Some (W * msPerDay) /\
  railWeek r = Some rw /\
  dayOfRailWeek r = Some (Z.rem (Day t - W) 7 + 1) /\
  period r = Some (- (- rw / 4)) /\
  weekInPeriod r = Some (Z.rem (rw - 1) 4 + 1).
Proof.
  intros V L r rw.
  destruct (dateToRailway_locate (Some t))
    as (H1 & H2 & H3 & H4 & H5 & H6 & _).
  fold r in H1, H2, H3, H4, H5, H6.
  rewrite setHours0_eq in * by trivial.
  unfold getFullYear, bind in *. unfold YearFromTime in *.
  rewrite Day_of_days in *. rewrite L in *. cbn [fst snd] in *.
  assert (E : (Day t * msPerDay - W * msPerDay) / msPerDay = Day t - W)
    by (unfold msPerDay; zdiv).
  unfold Js.sub, Js.floor_div, Js.add, Js.rem, bind in H3, H4.
  rewrite E in H3, H4. fold rw in H3.
  rewrite H3 in H5, H6.
  repeat split; trivial.
Qed.

Lemma railwayToDateRange_val (Y W : Z) :
  representable (fullYear Y) ->
  let s := (weekOneDay (fullYear Y) + (W - 1) * 7) * msPerDay in
  startDate (railwayToDateRange (Some Y) (Some W)) = TimeClip s /\
  endDate (railwayToDateRange (Some Y) (Some W))
  = (let* s' := TimeClip s in TimeClip (s' + 6 * msPerDay)).
Proof.
  intros R s. unfold railwayToDateRange, copy. cbv zeta.
  cbn [startDate endDate]. rewrite getWeekOneStart_val by trivial.
  cbn [Js.sub Js.mul bind]. rewrite setDate_getDate_add.
  replace (weekOneDay (fullYear Y) * msPerDay + (W - 1) * 7 * msPerDay)
    with s by (unfold s; lia).
  split; trivial.
  destruct (TimeClip s) as [s'|]; [|reflexivity].
  cbn [bind]. apply setDate_getDate_add.
Qed.

Lemma getTotalWeeks_Some (Y tw : Z) :
  getTotalWeeks (Some Y) = Some tw ->
  representable (fullYear Y) /\ representable (fullYear (Y + 1)) /\
  tw = (weekOneDay (fullYear (Y + 1)) - weekOneDay (fullYear Y)) / 7.
Proof.
  intros E. pose proof E as E'.
  unfold getTotalWeeks in E'. cbn [Js.add bind] in E'.
  destruct (getWeekOneStart (Some Y)) as [a|] eqn:A;
    [|destruct (getWeekOneStart (Some (Y + 1))); discriminate].
  destruct (getWeekOneStart (Some (Y + 1))) as [b|] eqn:B; [|discriminate].
  apply getWeekOneStart_Some in A, B. destruct A as [RA _], B as [RB _].
  split; [exact RA|]. split; [exact RB|].
  rewrite getTotalWeeks_val in E by trivial. congruence.
Qed.

Lemma DayFromYear_top (y : Z) :
  y <= 275760 -> DayFromYear y + 6 <= 100000000.
Proof.
  intros H. assert (L : DayFromYear y <= DayFromYear 275760)
    by (apply DayFromYear_le; trivial).
  assert (E : DayFromYear 275760 = 99999744) by reflexivity. lia.
Qed.

(** What the invariant needs from [locate]: the railway year [R] starts
    on day [W], not after the day of [t]. *)
Lemma invariant_from_locate (t R : Z) :
  Z.abs t <= maxTime ->
  representable (fullYear R) ->
  let W := weekOneDay (fullYear R) in
  W <= Day t -> Day t + 6 <= 100000000 ->
  locate (Some (Day t * msPerDay)) (Some (YearFromDay (Day t)))
  = (Some R, Some (W * msPerDay)) ->
  let r := dateToRailway (Some t) in
  let range := railwayToDateRange (railwayYear r) (railWeek r) in
  exists w s e rw,
    weekOneStart r = Some w /\
    startDate range = Some s /\
    endDate range = Some e /\
    railWeek r = Some rw /\
    w <= s /\ s <= t /\ Day t <= Day e /\
    period r = Some ((rw + 3) / 4) /\
    weekInPeriod r = Some ((rw - 1) mod 4 + 1).
Proof.
  intros V Rp W LW Top L r range.
  destruct (dateToRailway_fields t R W V L)
    as (H1 & H2 & H3 & _ & H5 & H6).
  fold r in H1, H2, H3, H5, H6.
  set (rw := (Day t - W) / 7 + 1) in *.
  set (sd := W + (rw - 1) * 7).
  destruct (railwayToDateRange_val R rw Rp) as [S E].
  fold W in S, E. fold sd in S, E.
  pose proof (weekOneDay_range _ Rp) as RW. fold W in RW.
  assert (Q : W <= sd <= Day t /\ Day t <= sd + 6 /\ 0 <= rw - 1)
    by (unfold sd, rw; zdiv).
  assert (Vs : Z.abs (sd * msPerDay) <= maxTime)
    by (apply days_in_range; lia).
  assert (Ve : Z.abs (sd * msPerDay + 6 * msPerDay) <= maxTime)
    by (unfold maxTime, msPerDay; lia).
  rewrite (TimeClip_ok _ Vs) in S, E. cbn [bind] in E.
  rewrite (TimeClip_ok _ Ve) in E.
  exists (W * msPerDay), (sd * msPerDay), (sd * msPerDay + 6 * msPerDay), rw.
  unfold range. rewrite H1, H3.
  repeat split; trivial.
  - unfold msPerDay. lia.
  - pose proof (MakeDate_Day t) as M. unfold MakeDate in M.
    assert (0 <= TimeWithinDay t) by (unfold TimeWithinDay, msPerDay; zdiv).
    unfold msPerDay in *. lia.
  - replace (sd * msPerDay + 6 * msPerDay) with ((sd + 6) * msPerDay) by lia.
    rewrite Day_of_days. lia.
  - rewrite H5. f_equal. zdiv.
  - rewrite H6. f_equal. rewrite Z.rem_mod_nonneg by lia. reflexivity.
Qed.

End Locate.

(** ** The payroll cycle *)

Section Payroll.

Lemma referencePayday_val : referencePayday = Some (referenceDay * msPerDay).
Proof. reflexivity. Qed.

Lemma daysDiff_val (D : Z) :
  Js.round_div (Js.sub (Some (D * msPerDay)) referencePayday) msPerDay
  = Some (D - referenceDay).
Proof.
  rewrite referencePayday_val. unfold Js.round_div, Js.sub, bind. f_equal.
  generalize referenceDay. intros R. unfold msPerDay. zdiv.
Qed.

Lemma isPayday_val (t : Z) :
  Z.abs t <= maxTime ->
  isPayday (Some t) = (Z.rem (Day t - referenceDay) 28 =? 0).
Proof.
  intros V. unfold isPayday, copy. cbv zeta.
  rewrite setHours0_eq by trivial. rewrite daysDiff_val. reflexivity.
Qed.

Lemma getNextPayday_val (t : Z) :
  Z.abs t <= maxTime ->
  getNextPayday (Some t)
  = TimeClip ((Day t + daysUntilPayday (Day t)) * msPerDay).
Proof.
  intros V. unfold getNextPayday, copy. cbv zeta.
  rewrite setHours0_eq by trivial. rewrite daysDiff_val.
  cbn [Js.rem Js.sub bind Js.seq].
  fold (daysUntilPayday (Day t)).
  assert (E : (if 28 - Z.rem (Day t - referenceDay) 28 =? 28
               then Some 0
               else Some (28 - Z.rem (Day t - referenceDay) 28))
              = Some (daysUntilPayday (Day t))).
  { unfold daysUntilPayday. cbv zeta.
    destruct (28 - Z.rem (Day t - referenceDay) 28 =? 28); reflexivity. }
  rewrite E, setDate_getDate_add. f_equal. lia.
Qed.


Lemma daysUntilPayday_cycle (D : Z) :
  Z.rem (D + daysUntilPayday D - referenceDay) 28 = 0.
Proof.
  unfold daysUntilPayday. cbv zeta.
  replace (D + (if 28 - Z.rem (D - referenceDay) 28 =? 28 then 0
                else 28 - Z.rem (D - referenceDay) 28) - referenceDay)
    with ((D - referenceDay)
          + (if 28 - Z.rem (D - referenceDay) 28 =? 28 then 0
             else 28 - Z.rem (D - referenceDay) 28))
    by (destruct (28 - Z.rem (D - referenceDay) 28 =? 28); lia).
  generalize (D - referenceDay). intros x.
  destruct (Z.eqb_spec (28 - Z.rem x 28) 28);
    Z.to_euclidean_division_equations; lia.
Qed.

(** [getNextPayday] against the rule with the floor-based modulo: they
    agree from the reference payday on and on every payday; before the
    reference, on any other day, the code is 28 days later. *)
Lemma getNextPayday_floor (t : Z) :
  Z.abs t <= maxTime ->
  let skip :=
    if (Day t <? referenceDay) && negb ((Day t - referenceDay) mod 28 =? 0)
    then 28 * msPerDay else 0 in
  getNextPayday (Some t)
  = TimeClip (nextPayday_floor (Day t * msPerDay) + skip).
Proof.
  intros V skip. rewrite getNextPayday_val by trivial. f_equal.
  unfold skip, nextPayday_floor, daysUntilPayday. rewrite Day_of_days.
  cbv zeta. generalize referenceDay, (Day t). intros R D.
  unfold msPerDay.
  destruct (Z.ltb_spec D R),
    (Z.eqb_spec ((D - R) mod 28) 0),
    (Z.eqb_spec (28 - (D - R) mod 28) 28),
    (Z.eqb_spec (28 - Z.rem (D - R) 28) 28);
    cbn [andb negb]; Z.to_euclidean_division_equations; lia.
Qed.

End Payroll.

(** ** The holiday table *)

Section Holidays.

Lemma named_push (n : string) (l : list Holiday.t) (e : Holiday.t) :
  named n (push l e)
  = if String.eqb (Holiday.name e) n then push (named n l) e else named n l.
Proof.
  unfold named, push. rewrite filter_app. cbn [filter].
  destruct (String.eqb (Holiday.name e) n); [reflexivity|apply app_nil_r].
Qed.

Lemma named_Christmas_Day (year : number) :
  exists em ty,
    named "Christmas Day" (getUKBankHolidays year)
    = [Holiday.mk (christmas year) "Christmas Day" em ty].
Proof.
  unfold getUKBankHolidays. cbv zeta.
  repeat (rewrite named_push; cbn [Holiday.name];
          match goal with
          | |- context [if String.eqb ?a ?b then _ else _] =>
              let v := eval vm_compute in (String.eqb a b) in
              change (String.eqb a b) with v; cbv iota
          end).
  do 2 eexists. reflexivity.
Qed.

Lemma christmas_weekday (year : number) :
  christmas year = NaN
  \/ exists w, getDay (christmas year) = Some w /\ 1 <= w <= 5.
Proof.
  destruct year as [y|]; [|left; reflexivity].
  unfold christmas. cbv zeta. rewrite !ymd_eq.
  replace 27 with (25 + 2) by reflexivity. rewrite MakeDay_add.
  set (m := MakeDay (fullYear y) 11 25).
  destruct (TimeClip (m * msPerDay)) as [t|] eqn:E; [|left; reflexivity].
  apply TimeClip_Some in E. destruct E as [-> _].
  assert (G : forall n, getDay (Some (n * msPerDay)) = Some ((n + 4) mod 7))
    by (intros n; unfold getDay, bind; now rewrite WeekDay_of_days).
  rewrite (G m). unfold Js.seq.
  assert (X : TimeClip ((m + 2) * msPerDay) = NaN
              \/ exists w, getDay (TimeClip ((m + 2) * msPerDay)) = Some w
                           /\ w = (m + 6) mod 7).
  { destruct (TimeClip ((m + 2) * msPerDay)) as [t|] eqn:E;
      [|left; reflexivity].
    apply TimeClip_Some in E. destruct E as [-> _]. right.
    exists ((m + 6) mod 7). rewrite G. split; [f_equal; zdiv | reflexivity]. }
  destruct (Z.eqb_spec ((m + 4) mod 7) 6) as [E6 | N6];
    [|destruct (Z.eqb_spec ((m + 4) mod 7) 0) as [E0 | N0]].
  - destruct X as [-> | (w & -> & ->)]; [left; reflexivity|].
    right. exists ((m + 6) mod 7). split; [reflexivity | zdiv].
  - destruct X as [-> | (w & -> & ->)]; [left; reflexivity|].
    right. exists ((m + 6) mod 7). split; [reflexivity | zdiv].
  - right. exists ((m + 4) mod 7). rewrite G. split; [reflexivity | zdiv].
Qed.

End Holidays.

(** ** Binary64 arithmetic *)

Section Binary64.


















End Binary64.

(** ** The lunar cycle *)

Section LunarCycle.












Lemma SFltb_trans (a b c : spec_float) :
  SFltb a b = true -> SFltb b c = true -> SFltb a c = true.
Proof.
  assert (P : forall x y z : positive,
            Pos.compare_cont Eq x y = Lt -> Pos.compare_cont Eq y z = Lt ->
            Pos.compare_cont Eq x z = Lt).
  { intros x y z. fold (Pos.compare x y) (Pos.compare y z) (Pos.compare x z).
    rewrite !Pos.compare_lt_iff. apply Pos.lt_trans. }
  assert (Q : forall x y z : positive,
            CompOpp (Pos.compare_cont Eq x y) = Lt ->
            CompOpp (Pos.compare_cont Eq y z) = Lt ->
            CompOpp (Pos.compare_cont Eq x z) = Lt).
  { intros x y z. fold (Pos.compare x y) (Pos.compare y z) (Pos.compare x z).
    intros H1 H2.
    destruct (x ?= y)%positive eqn:E1; try discriminate.
    destruct (y ?= z)%positive eqn:E2; try discriminate.
    apply Pos.compare_gt_iff in E1, E2.
    assert (E3 : (z < x)%positive) by (eapply Pos.lt_trans; eassumption).
    apply Pos.compare_gt_iff in E3. now rewrite E3. }
  unfold SFltb, SFcompare.
  destruct a as [sa|sa| |sa ma ea], b as [sb|sb| |sb mb eb],
    c as [sc|sc| |sc mc ec];
    try destruct sa; try destruct sb; try destruct sc;
    intros Hab Hbc; try discriminate; try reflexivity;
    destruct (Z.compare_spec ea eb), (Z.compare_spec eb ec),
      (Z.compare_spec ea ec);
    try discriminate; try reflexivity; try (exfalso; lia).
  - assert (A : CompOpp (Pos.compare_cont Eq ma mb) = Lt)
      by (destruct (CompOpp (Pos.compare_cont Eq ma mb));
          [discriminate | reflexivity | discriminate]).
    assert (B : CompOpp (Pos.compare_cont Eq mb mc) = Lt)
      by (destruct (CompOpp (Pos.compare_cont Eq mb mc));
          [discriminate | reflexivity | discriminate]).
    rewrite (Q _ _ _ A B). reflexivity.
  - assert (A : Pos.compare_cont Eq ma mb = Lt)
      by (destruct (Pos.compare_cont Eq ma mb);
          [discriminate | reflexivity | discriminate]).
    assert (B : Pos.compare_cont Eq mb mc = Lt)
      by (destruct (Pos.compare_cont Eq mb mc);
          [discriminate | reflexivity | discriminate]).
    rewrite (P _ _ _ A B). reflexivity.
Qed.

Lemma ltb_trans (x y z : float) :
  (x <? y)%float = true -> (y <? z)%float = true -> (x <? z)%float = true.
Proof. rewrite !ltb_spec. apply SFltb_trans. Qed.




End LunarCycle.

(** ** Claims on the railway year boundary *)

(** C4, as amended.  For every railway year [Y] that the [Date] constructor
    takes literally ([Y < 0] or [100 <= Y]) and whose 31 March is a
    representable date ([-271820 <= Y <= 275760]), [getWeekOneStart Y] is
    the Saturday on or before 31 March of [Y]: it is a valid date [t], at
    most six days before 31 March, its weekday is Saturday (6), its year is
    [Y], its month is March (2) and its day of month lies in 25..31. *)
Theorem getWeekOneStart_last_Saturday_of_March (Y : Z) :
  Y < 0 \/ 100 <= Y ->
  -271820 <= Y <= 275760 ->
  exists t m dd,
    getWeekOneStart (Some Y) = Some t /\
    ymd (Some Y) (Some 2) (Some 31) = Some m /\
    t <= m < t + 7 * msPerDay /\
    getDay (Some t) = Some 6 /\
    getFullYear (Some t) = Some Y /\
    getMonth (Some t) = Some 2 /\
    getDate (Some t) = Some dd /\ 25 <= dd <= 31.
Proof.
  intros P R. pose proof (fullYear_plain Y P) as F.
  assert (R' : representable (fullYear Y)) by (rewrite F; exact R).
  destruct (weekOneDay_March Y) as (k & Hk & E).
  exists (weekOneDay Y * msPerDay), (MakeDay Y 2 31 * msPerDay), (31 - k).
  rewrite getWeekOneStart_val, ymd_eq, F by trivial.
  rewrite TimeClip_ok by (apply days_in_range, March_range; trivial; lia).
  destruct (March_fields Y (31 - k)) as (HY & HM & HD); [lia|].
  rewrite <- E in HY, HM, HD.
  unfold getDay, getFullYear, getMonth, getDate, bind.
  rewrite WeekDay_of_days, weekOneDay_saturday, HY, HM, HD.
  repeat split; trivial; try lia.
  - rewrite E. replace (31 - k) with (31 + - k) by lia.
    rewrite MakeDay_add. unfold msPerDay. lia.
  - rewrite E. replace (31 - k) with (31 + - k) by lia.
    rewrite MakeDay_add. unfold msPerDay. lia.
Qed.

Lemma getWeekOneStart_last_Saturday_of_March_witness :
  (2025 < 0 \/ 100 <= 2025) /\ -271820 <= 2025 <= 275760 /\
  exists t m dd,
    getWeekOneStart (Some 2025) = Some t /\
    ymd (Some 2025) (Some 2) (Some 31) = Some m /\
    t <= m < t + 7 * msPerDay /\
    getDay (Some t) = Some 6 /\
    getFullYear (Some t) = Some 2025 /\
    getMonth (Some t) = Some 2 /\
    getDate (Some t) = Some dd /\ 25 <= dd <= 31.
Proof.
  split; [right; lia|]. split; [lia|].
  apply (getWeekOneStart_last_Saturday_of_March 2025); [right; lia | lia].
Defined.

(** C4 as stated fails for the railway year 50: the constructor reads the
    year 50 as 1950, so the date returned is 25 March 1950. *)
Lemma getWeekOneStart_two_digit_year :
  getFullYear (getWeekOneStart (Some 50)) = Some 1950 /\
  getMonth (getWeekOneStart (Some 50)) = Some 2 /\
  getDate (getWeekOneStart (Some 50)) = Some 25 /\
  getFullYear (getWeekOneStart (Some 50)) <> Some 50.
Proof. vm_compute. repeat split; trivial. discriminate. Qed.

(** C5, as amended.  For every railway year [Y] with
    [-271820 <= Y <= 275759] other than -1 and 99, [getTotalWeeks Y] is the
    floor of the number of days between [getWeekOneStart Y] and
    [getWeekOneStart (Y + 1)] divided by 7, and it is 52 or 53. *)
Theorem getTotalWeeks_52_or_53 (Y : Z) :
  -271820 <= Y <= 275759 -> Y <> -1 -> Y <> 99 ->
  exists a b,
    getWeekOneStart (Some Y) = Some a /\
    getWeekOneStart (Some (Y + 1)) = Some b /\
    getTotalWeeks (Some Y) = Some ((b - a) / msPerDay / 7) /\
    (getTotalWeeks (Some Y) = Some 52 \/ getTotalWeeks (Some Y) = Some 53).
Proof.
  intros R N1 N2. pose proof (fullYear_succ Y N1 N2) as S.
  assert (R1 : representable (fullYear Y)).
  { unfold representable, fullYear.
    destruct (Z.leb_spec 0 Y), (Z.leb_spec Y 99); cbn [andb]; lia. }
  assert (R2 : representable (fullYear (Y + 1))).
  { rewrite S. unfold representable, fullYear.
    destruct (Z.leb_spec 0 Y), (Z.leb_spec Y 99); cbn [andb]; lia. }
  exists (weekOneDay (fullYear Y) * msPerDay),
    (weekOneDay (fullYear (Y + 1)) * msPerDay).
  rewrite !getWeekOneStart_val, getTotalWeeks_val by trivial.
  rewrite S. split; [trivial|]. split; [trivial|].
  destruct (weekOneDay_succ (fullYear Y)) as [E | E]; rewrite E.
  - split; [|left]; f_equal; unfold msPerDay; zdiv.
  - split; [|right]; f_equal; unfold msPerDay; zdiv.
Qed.

Lemma getTotalWeeks_52_or_53_witness :
  -271820 <= 2025 <= 275759 /\ 2025 <> -1 /\ 2025 <> 99 /\
  exists a b,
    getWeekOneStart (Some 2025) = Some a /\
    getWeekOneStart (Some (2025 + 1)) = Some b /\
    getTotalWeeks (Some 2025) = Some ((b - a) / msPerDay / 7) /\
    (getTotalWeeks (Some 2025) = Some 52 \/ getTotalWeeks (Some 2025) = Some 53).
Proof.
  split; [lia|]. split; [lia|]. split; [lia|].
  apply (getTotalWeeks_52_or_53 2025); lia.
Defined.

(** C5 as stated fails for the railway year 99: week one of 99 is in March
    1999 and week one of 100 is in March of the year 100. *)
Lemma getTotalWeeks_year_99 :
  getTotalWeeks (Some 99) = Some (-99085) /\
  getTotalWeeks (Some 99) <> Some 52 /\
  getTotalWeeks (Some 99) <> Some 53.
Proof. vm_compute. repeat split; discriminate. Qed.

(** ** Claims on the payroll cycle *)





(** C3, at the failing input.  For 4 December 2025, the day before the
    reference payday, [getNextPayday] returns 2 January 2026, 29 days
    later, while the rule with the floor-based modulo gives 5 December
    2025, which [isPayday] accepts as a payday. *)
Theorem getNextPayday_skips_a_payday :
  let d := ymd (Some 2025) (Some 11) (Some 4) in
  getNextPayday d = ymd (Some 2026) (Some 0) (Some 2) /\
  (let* t := d in Some (nextPayday_floor t))
  = ymd (Some 2025) (Some 11) (Some 5) /\
  isPayday (ymd (Some 2025) (Some 11) (Some 5)) = true /\
  getNextPayday d <> ymd (Some 2025) (Some 11) (Some 5).
Proof. vm_compute. repeat split. discriminate. Qed.

(** ** Claims on the holiday table *)

(** C6.  [getEasterSunday 2024] is 31 March 2024 and [getEasterSunday 2025]
    is 20 April 2025 (months count from 0); both are Sundays. *)
Theorem getEasterSunday_2024_2025 :
  getEasterSunday (Some 2024) = ymd (Some 2024) (Some 2) (Some 31) /\
  getFullYear (getEasterSunday (Some 2024)) = Some 2024 /\
  getMonth (getEasterSunday (Some 2024)) = Some 2 /\
  getDate (getEasterSunday (Some 2024)) = Some 31 /\
  getDay (getEasterSunday (Some 2024)) = Some 0 /\
  getEasterSunday (Some 2025) = ymd (Some 2025) (Some 3) (Some 20) /\
  getFullYear (getEasterSunday (Some 2025)) = Some 2025 /\
  getMonth (getEasterSunday (Some 2025)) = Some 3 /\
  getDate (getEasterSunday (Some 2025)) = Some 20 /\
  getDay (getEasterSunday (Some 2025)) = Some 0.
Proof. vm_compute. repeat split. Qed.


(** ** Claims on the astronomical estimators *)

Local Open Scope float_scope.

(** C8.  [getDayLength] is a total function of the host and of the date,
    Invalid Date included: no operation of it can fail.  When
    [cosHourAngle < -1] it returns [dayLengthHours = 24] and no sunrise
    nor sunset ([null]); when [cosHourAngle > 1] it returns
    [dayLengthHours = 0] and no sunrise nor sunset. *)
Theorem getDayLength_degenerate (M : Math.host) (date : Date) :
  let r := getDayLength M date in
  let c := cosHourAngle M date in
  ((c <? -1) = true ->
   DayLength.dayLengthHours r = 24 /\
   DayLength.sunrise r = None /\ DayLength.sunset r = None) /\
  ((1 <? c) = true ->
   DayLength.dayLengthHours r = 0 /\
   DayLength.sunrise r = None /\ DayLength.sunset r = None).
Proof.
  intros r c. unfold r, getDayLength, cosHourAngle in *. cbv zeta. fold c.
  destruct (c <? -1) eqn:Lo; [|destruct (1 <? c) eqn:Hi];
    cbn [DayLength.dayLengthHours DayLength.sunrise DayLength.sunset].
  - split; [intros _ | intros Hi].
    + repeat split; vm_compute; reflexivity.
    + pose proof (ltb_trans _ _ _ Hi Lo) as X. vm_compute in X. discriminate.
  - split; [discriminate | intros _].
    repeat split; vm_compute; reflexivity.
  - split; discriminate.
Qed.

Lemma getDayLength_degenerate_witness :
  let d := ymd (Some 2025%Z) (Some 11%Z) (Some 5%Z) in
  ((cosHourAngle polarDay d <? -1) = true /\
   DayLength.dayLengthHours (getDayLength polarDay d) = 24 /\
   DayLength.sunrise (getDayLength polarDay d) = None /\
   DayLength.sunset (getDayLength polarDay d) = None) /\
  ((1 <? cosHourAngle polarNight d) = true /\
   DayLength.dayLengthHours (getDayLength polarNight d) = 0 /\
   DayLength.sunrise (getDayLength polarNight d) = None /\
   DayLength.sunset (getDayLength polarNight d) = None).
Proof.
  intros d.
  assert (H1 : (cosHourAngle polarDay d <? -1) = true)
    by (vm_compute; reflexivity).
  assert (H2 : (1 <? cosHourAngle polarNight d) = true)
    by (vm_compute; reflexivity).
  split; (split; [assumption|]).
  - exact (proj1 (getDayLength_degenerate polarDay d) H1).
  - exact (proj2 (getDayLength_degenerate polarNight d) H2).
Defined.



(** * Further properties of the calendar engine and of the component *)

Local Open Scope Z_scope.

Ltac named_table :=
  unfold getUKBankHolidays; cbv zeta;
  repeat (rewrite named_push; cbn [Holiday.name];
          match goal with
          | |- context [if String.eqb ?a ?b then _ else _] =>
              let v := eval vm_compute in (String.eqb a b) in
              change (String.eqb a b) with v; cbv iota
          end).


(** ** Months and days *)

Section Months.

Lemma getDay_days (n : Z) : getDay (Some (n * msPerDay)) = Some ((n + 4) mod 7).
Proof. unfold getDay, bind. now rewrite WeekDay_of_days. Qed.

Lemma getDay_val (t : Z) : getDay (Some t) = Some ((Day t + 4) mod 7).
Proof. reflexivity. Qed.

Lemma Day_add_days (t k : Z) : Day (t + k * msPerDay) = Day t + k.
Proof. unfold Day, msPerDay. zdiv. Qed.

Lemma valid_of_day (t : Z) :
  -100000000 <= Day t < 100000000 -> Z.abs t <= maxTime.
Proof. unfold Day, maxTime, msPerDay. intros H. zdiv. Qed.

Lemma fields_of_day (y m dt : Z) :
  0 <= m <= 11 -> 1 <= dt <= DaysInMonth y m ->
  let t := MakeDay y m dt * msPerDay in
  YearFromTime t = y /\ MonthFromTime t = m /\ DateFromTime t = dt.
Proof.
  intros Hm H t.
  assert (D : Day t = DayFromYear y + DaysBeforeMonth m (isLeapYear y) + dt - 1).
  { unfold t. rewrite Day_of_days, MakeDay_month by lia. reflexivity. }
  assert (M : m = 0 \/ m = 1 \/ m = 2 \/ m = 3 \/ m = 4 \/ m = 5 \/ m = 6
              \/ m = 7 \/ m = 8 \/ m = 9 \/ m = 10 \/ m = 11) by lia.
  assert (Y : YearFromTime t = y).
  { unfold YearFromTime. apply YearFromDay_unique. rewrite D.
    rewrite DayFromYear_succ. unfold DaysInYear, DaysInMonth, DaysBeforeMonth in *.
    destruct (isLeapYear y);
      repeat (destruct M as [-> | M]; [lia|]); subst m; lia. }
  unfold DateFromTime, MonthFromTime, InLeapYear, DayWithinYear.
  rewrite Y, D. cbv zeta. unfold DaysInMonth, DaysBeforeMonth in *.
  destruct (isLeapYear y);
  repeat (destruct M as [-> | M];
    [repeat match goal with
      | |- context [if ?a <? ?b then _ else _] =>
          destruct (Z.ltb_spec a b); try lia
      end; repeat split; lia|]); subst m;
   repeat match goal with
      | |- context [if ?a <? ?b then _ else _] =>
          destruct (Z.ltb_spec a b); try lia
      end; repeat split; lia.
Qed.

Lemma MakeDay_in_year (y m dt : Z) :
  0 <= m <= 11 -> 1 <= dt <= DaysInMonth y m ->
  DayFromYear y <= MakeDay y m dt < DayFromYear (y + 1).
Proof.
  intros Hm H. rewrite MakeDay_month, DayFromYear_succ by trivial.
  assert (M : m = 0 \/ m = 1 \/ m = 2 \/ m = 3 \/ m = 4 \/ m = 5 \/ m = 6
              \/ m = 7 \/ m = 8 \/ m = 9 \/ m = 10 \/ m = 11) by lia.
  unfold DaysInYear, DaysInMonth, DaysBeforeMonth in *.
  destruct (isLeapYear y);
    repeat (destruct M as [-> | M]; [lia|]); subst m; lia.
Qed.

Lemma DaysInMonth_range (y m : Z) : 28 <= DaysInMonth y m <= 31.
Proof.
  unfold DaysInMonth. destruct (isLeapYear y);
    repeat match goal with
      | |- context [match ?m with _ => _ end] => destruct m
      end; lia.
Qed.

(** The day before the first of the next month is the last of the month. *)
Lemma MakeDay_last (y m : Z) :
  0 <= m <= 11 -> MakeDay y (m + 1) 0 = MakeDay y m (DaysInMonth y m).
Proof.
  intros Hm.
  assert (M : m = 0 \/ m = 1 \/ m = 2 \/ m = 3 \/ m = 4 \/ m = 5 \/ m = 6
              \/ m = 7 \/ m = 8 \/ m = 9 \/ m = 10 \/ m = 11) by lia.
  destruct (Z.eq_dec m 11) as [-> | N].
  - assert (E : MakeDay y (11 + 1) 0 = DayFromYear (y + 1) - 1).
    { unfold MakeDay. change ((11 + 1) / 12) with 1.
      change ((11 + 1) mod 12) with 0. unfold DaysBeforeMonth.
      destruct (isLeapYear (y + 1)); lia. }
    rewrite E, MakeDay_month, DayFromYear_succ by lia.
    unfold DaysInYear, DaysInMonth, DaysBeforeMonth.
    destruct (isLeapYear y); lia.
  - rewrite !MakeDay_month by lia. unfold DaysInMonth.
    destruct (isLeapYear y);
      repeat (destruct M as [-> | M]; [cbn; lia|]); lia.
Qed.

(** [MakeDay] with a month outside 0..11 is the same day as with the month
    reduced and the year carried. *)
Lemma MakeDay_carry (y m dt : Z) :
  MakeDay y m dt = MakeDay (y + m / 12) (m mod 12) dt.
Proof.
  unfold MakeDay.
  assert (E1 : (m mod 12) / 12 = 0) by zdiv.
  assert (E2 : (m mod 12) mod 12 = m mod 12) by zdiv.
  rewrite E1, E2, Z.add_0_r. reflexivity.
Qed.

Lemma year_days_range (y D : Z) :
  -271820 <= y <= 275759 ->
  DayFromYear y - 256 <= D <= DayFromYear (y + 1) + 256 ->
  -100000000 <= D <= 100000000.
Proof.
  intros Hy H.
  assert (L : DayFromYear (-271820) <= DayFromYear y)
    by (apply DayFromYear_le; lia).
  assert (U : DayFromYear (y + 1) <= DayFromYear 275760)
    by (apply DayFromYear_le; lia).
  assert (E1 : DayFromYear (-271820) = -99999744) by reflexivity.
  assert (E2 : DayFromYear 275760 = 99999744) by reflexivity.
  lia.
Qed.

Lemma ymd_day (Y m dt : Z) :
  (Y < 0 \/ 100 <= Y) -> -271820 <= Y <= 275759 ->
  DayFromYear Y - 256 <= MakeDay Y m dt <= DayFromYear (Y + 1) + 256 ->
  ymd (Some Y) (Some m) (Some dt) = Some (MakeDay Y m dt * msPerDay).
Proof.
  intros P R B. rewrite ymd_eq, fullYear_plain by trivial.
  apply TimeClip_ok, days_in_range, (year_days_range Y); trivial.
Qed.

Lemma getFullYear_days (y D : Z) :
  DayFromYear y <= D < DayFromYear (y + 1) ->
  getFullYear (Some (D * msPerDay)) = Some y.
Proof.
  intros H. unfold getFullYear, bind, YearFromTime. rewrite Day_of_days.
  f_equal. now apply YearFromDay_unique.
Qed.

(** A date given by its month and a day counted from the first of that
    month lies in the year when the count stays within 365 days. *)
Lemma doy_bounds (y m dt : Z) :
  0 <= m <= 11 ->
  0 <= DaysBeforeMonth m false + dt - 1 <= 364 ->
  DayFromYear y <= MakeDay y m dt < DayFromYear (y + 1).
Proof.
  intros Hm H. rewrite MakeDay_month, DayFromYear_succ by trivial.
  assert (M : m = 0 \/ m = 1 \/ m = 2 \/ m = 3 \/ m = 4 \/ m = 5 \/ m = 6
              \/ m = 7 \/ m = 8 \/ m = 9 \/ m = 10 \/ m = 11) by lia.
  unfold DaysInYear, DaysBeforeMonth in *.
  destruct (isLeapYear y);
    repeat (destruct M as [-> | M]; [lia|]); subst m; lia.
Qed.

Lemma ymd_in_year (y m dt : Z) :
  100 <= y <= 275759 -> 0 <= m <= 11 ->
  0 <= DaysBeforeMonth m false + dt - 1 <= 364 ->
  ymd (Some y) (Some m) (Some dt) = Some (MakeDay y m dt * msPerDay) /\
  getFullYear (Some (MakeDay y m dt * msPerDay)) = Some y.
Proof.
  intros R Hm H. pose proof (doy_bounds y m dt Hm H) as B. split.
  - apply ymd_day; lia.
  - now apply getFullYear_days.
Qed.

Lemma month_date_bounds (t : Z) :
  0 <= MonthFromTime t <= 11 /\
  0 <= DaysBeforeMonth (MonthFromTime t) false + DateFromTime t - 1 <= 364.
Proof.
  pose proof (DayWithinYear_bounds t) as B.
  unfold DateFromTime, MonthFromTime, InLeapYear, DaysInYear in *.
  cbv zeta.
  set (dy := DayWithinYear t) in *.
  destruct (isLeapYear (YearFromTime t));
    repeat match goal with
      | |- context [if ?a <? ?b then _ else _] =>
          destruct (Z.ltb_spec a b)
      end; unfold DaysBeforeMonth; lia.
Qed.

Lemma addDays_val (t k : Z) :
  addDays (Some t) (Some k) = TimeClip (t + k * msPerDay).
Proof. unfold addDays, copy. apply setDate_getDate_add. Qed.

Lemma setHours0_same_day (t u : Z) :
  Z.abs t <= maxTime -> Z.abs u <= maxTime -> Day t = Day u ->
  setHours0 (Some t) = setHours0 (Some u).
Proof. intros Vt Vu E. rewrite !setHours0_eq by trivial. now rewrite E. Qed.

End Months.

(** ** Easter *)

Section Easter.

Lemma easterNumber_range (y : Z) : 0 <= y -> 114 <= easterNumber y <= 148.
Proof.
  intros H. unfold easterNumber. cbv zeta.
  set (a := Z.rem y 19). set (b := y / 100). set (c := Z.rem y 100).
  set (d := b / 4). set (e := Z.rem b 4). set (f := (b + 8) / 25).
  set (g := (b - f + 1) / 3).
  assert (Ha : 0 <= a <= 18) by (unfold a; rewrite Z.rem_mod_nonneg by lia; zdiv).
  assert (Hb : 0 <= b) by (unfold b; zdiv).
  assert (Hc : 0 <= c <= 99) by (unfold c; rewrite Z.rem_mod_nonneg by lia; zdiv).
  assert (He : 0 <= e <= 3) by (unfold e; rewrite Z.rem_mod_nonneg by lia; zdiv).
  assert (Hx : 0 <= 19 * a + b - d - g + 15) by (unfold d, g, f; zdiv).
  set (h := Z.rem (19 * a + b - d - g + 15) 30).
  assert (Hh : 0 <= h <= 29) by (unfold h; rewrite Z.rem_mod_nonneg by lia; zdiv).
  set (i := c / 4). set (k := Z.rem c 4).
  assert (Hi : 0 <= i <= 24) by (unfold i; zdiv).
  assert (Hk : 0 <= k <= 3) by (unfold k; rewrite Z.rem_mod_nonneg by lia; zdiv).
  set (l := Z.rem (32 + 2 * e + 2 * i - h - k) 7).
  assert (Hl : 0 <= l <= 6) by (unfold l; rewrite Z.rem_mod_nonneg by lia; zdiv).
  zdiv.
Qed.

Lemma easterNumber_sunday (y : Z) :
  0 <= y -> (DayFromYear (y + 1) - 306 + (easterNumber y - 93) + 4) mod 7 = 0.
Proof.
  intros H. unfold easterNumber, DayFromYear. cbv zeta.
  set (a := Z.rem y 19). set (b := y / 100). set (c := Z.rem y 100).
  set (d := b / 4). set (e := Z.rem b 4). set (f := (b + 8) / 25).
  set (g := (b - f + 1) / 3).
  assert (Ha : 0 <= a <= 18) by (unfold a; rewrite Z.rem_mod_nonneg by lia; zdiv).
  assert (Hb : 0 <= b) by (unfold b; zdiv).
  assert (Hc : 0 <= c <= 99) by (unfold c; rewrite Z.rem_mod_nonneg by lia; zdiv).
  assert (He : 0 <= e <= 3) by (unfold e; rewrite Z.rem_mod_nonneg by lia; zdiv).
  assert (Hx : 0 <= 19 * a + b - d - g + 15) by (unfold d, g, f; zdiv).
  set (h := Z.rem (19 * a + b - d - g + 15) 30).
  assert (Hh : 0 <= h <= 29) by (unfold h; rewrite Z.rem_mod_nonneg by lia; zdiv).
  set (i := c / 4). set (k := Z.rem c 4).
  assert (Hi : 0 <= i <= 24) by (unfold i; zdiv).
  assert (Hk : 0 <= k <= 3) by (unfold k; rewrite Z.rem_mod_nonneg by lia; zdiv).
  set (l := Z.rem (32 + 2 * e + 2 * i - h - k) 7).
  set (m := (a + 11 * h + 22 * l) / 451).
  assert (El : l = (32 + 2 * e + 2 * i - h - k) mod 7)
    by (unfold l; rewrite Z.rem_mod_nonneg by lia; reflexivity).
  assert (Ec : c = y mod 100) by (unfold c; rewrite Z.rem_mod_nonneg by lia; reflexivity).
  assert (Ee : e = b mod 4) by (unfold e; rewrite Z.rem_mod_nonneg by lia; reflexivity).
  assert (Ek : k = c mod 4) by (unfold k; rewrite Z.rem_mod_nonneg by lia; reflexivity).
  clearbody l h m a. unfold i in *. unfold b in *. clearbody c e k. clear d f g Hx.
  zdiv.
Qed.

Lemma getEasterSunday_val (y : Z) :
  getEasterSunday (Some y)
  = ymd (Some y) (Some (easterNumber y / 31 - 1))
        (Some (Z.rem (easterNumber y) 31 + 1)).
Proof. reflexivity. Qed.

Lemma easter_MakeDay (y n : Z) :
  114 <= n <= 148 ->
  MakeDay y (n / 31 - 1) (Z.rem n 31 + 1) = MakeDay y 2 (n - 92).
Proof.
  intros H. rewrite Z.rem_mod_nonneg by lia.
  assert (Q : n / 31 = 3 \/ n / 31 = 4) by zdiv.
  destruct Q as [Q | Q]; rewrite Q; cbn [Z.sub Z.add Z.opp Z.pos_sub Pos.pred_double];
    rewrite !MakeDay_month by lia; unfold DaysBeforeMonth;
    destruct (isLeapYear y); zdiv.
Qed.

Lemma easterDay_in_year (y : Z) :
  0 <= y ->
  DayFromYear y + 80 <= easterDay y <= DayFromYear y + 115 /\
  easterDay y + 115 < DayFromYear (y + 1) /\
  (easterDay y + 4) mod 7 = 0.
Proof.
  intros H. pose proof (easterNumber_range y H) as R.
  pose proof (easterNumber_sunday y H) as S.
  unfold easterDay. rewrite MakeDay_month by lia.
  rewrite DayFromYear_succ in *. unfold DaysBeforeMonth, DaysInYear in *.
  destruct (isLeapYear y); repeat split; try lia.
  - rewrite <- S. f_equal. lia.
  - rewrite <- S. f_equal. lia.
Qed.

Lemma getEasterSunday_day (y : Z) :
  100 <= y <= 275759 ->
  getEasterSunday (Some y) = Some (easterDay y * msPerDay).
Proof.
  intros H. rewrite getEasterSunday_val, ymd_eq.
  rewrite fullYear_plain by lia.
  rewrite easter_MakeDay by (apply easterNumber_range; lia).
  fold (easterDay y). apply TimeClip_ok, days_in_range.
  pose proof (easterDay_in_year y). apply (year_days_range y); lia.
Qed.

Lemma easter_offset (y k : Z) :
  100 <= y <= 275759 -> -80 <= k <= 115 ->
  addDays (getEasterSunday (Some y)) (Some k)
  = Some ((easterDay y + k) * msPerDay)
  /\ getDay (Some ((easterDay y + k) * msPerDay)) = Some (k mod 7)
  /\ getFullYear (Some ((easterDay y + k) * msPerDay)) = Some y.
Proof.
  intros H K. destruct (easterDay_in_year y ltac:(lia)) as (B1 & B2 & S).
  rewrite getEasterSunday_day, addDays_val by trivial.
  replace (easterDay y * msPerDay + k * msPerDay)
    with ((easterDay y + k) * msPerDay) by lia.
  rewrite TimeClip_ok
    by (apply days_in_range, (year_days_range y); lia).
  rewrite getDay_days. unfold getFullYear, bind, YearFromTime.
  rewrite Day_of_days. repeat split.
  - f_equal. zdiv.
  - f_equal. apply YearFromDay_unique. lia.
Qed.

End Easter.

(** ** Entries of the holiday table *)

Section Table.

Lemma ofType_push (ty : string) (l : list Holiday.t) (e : Holiday.t) :
  ofType ty (push l e)
  = if String.eqb (Holiday.type e) ty then push (ofType ty l) e
    else ofType ty l.
Proof.
  unfold ofType, push. rewrite filter_app. cbn [filter].
  destruct (String.eqb (Holiday.type e) ty); [reflexivity|apply app_nil_r].
Qed.

Lemma In_push {A : Type} (x e : A) (l : list A) :
  In x (push l e) -> In x l \/ x = e.
Proof.
  unfold push. intros H. apply in_app_or in H.
  destruct H as [H | [H | []]]; auto.
Qed.

Lemma In_push_l {A : Type} (x e : A) (l : list A) :
  In x l -> In x (push l e).
Proof. intros H. unfold push. apply in_or_app. now left. Qed.

Lemma In_push_r {A : Type} (e : A) (l : list A) : In e (push l e).
Proof. unfold push. apply in_or_app. right. now left. Qed.

Lemma getNthWeekday_pos (Y m wd n : Z) :
  (Y < 0 \/ 100 <= Y) -> -271820 <= Y <= 275759 ->
  0 <= m <= 11 -> 0 <= wd <= 6 -> 1 <= n <= 4 ->
  let F := MakeDay Y m 1 in
  getNthWeekday (Some Y) (Some m) (Some wd) (Some n)
  = Some (MakeDay Y m (1 + (wd - (F + 4)) mod 7 + (n - 1) * 7) * msPerDay).
Proof.
  intros P R Hm Hw Hn F. unfold getNthWeekday.
  assert (G : Js.gt (Some n) (Some 0) = true)
    by (unfold Js.gt; apply Z.ltb_lt; lia).
  rewrite G.
  pose proof (DaysInMonth_range Y m) as DR.
  pose proof (MakeDay_in_year Y m 1 Hm ltac:(lia)) as B1.
  rewrite (ymd_day Y m 1) by (trivial; lia). fold F.
  rewrite getDay_days. cbn [Js.sub Js.add Js.rem Js.mul bind].
  assert (E : Z.rem (wd - (F + 4) mod 7 + 7) 7 = (wd - (F + 4)) mod 7).
  { rewrite Z.rem_mod_nonneg by zdiv. zdiv. }
  rewrite E. apply ymd_day; trivial.
  pose proof (MakeDay_in_year Y m (1 + (wd - (F + 4)) mod 7 + (n - 1) * 7) Hm)
    as B2.
  assert (0 <= (wd - (F + 4)) mod 7 <= 6) by zdiv. lia.
Qed.

Lemma getNthWeekday_neg (Y m wd : Z) :
  (Y < 0 \/ 100 <= Y) -> -271820 <= Y <= 275759 ->
  0 <= m <= 11 -> 0 <= wd <= 6 ->
  let L := MakeDay Y m (DaysInMonth Y m) in
  getNthWeekday (Some Y) (Some m) (Some wd) (Some (-1))
  = Some (MakeDay Y m (DaysInMonth Y m - (L + 4 - wd) mod 7) * msPerDay).
Proof.
  intros P R Hm Hw L. unfold getNthWeekday.
  assert (G : Js.gt (Some (-1)) (Some 0) = false) by reflexivity.
  rewrite G. cbn [Js.add bind].
  pose proof (DaysInMonth_range Y m) as DR.
  pose proof (MakeDay_in_year Y m (DaysInMonth Y m) Hm ltac:(lia)) as B1.
  rewrite (ymd_day Y (m + 1) 0) by (trivial; rewrite MakeDay_last by trivial; lia).
  rewrite MakeDay_last by trivial. fold L.
  rewrite getDay_days. cbn [Js.sub Js.add Js.rem Js.mul bind].
  assert (E : Z.rem ((L + 4) mod 7 - wd + 7) 7 = (L + 4 - wd) mod 7).
  { rewrite Z.rem_mod_nonneg by zdiv. zdiv. }
  rewrite E.
  assert (O : 0 <= (L + 4 - wd) mod 7 <= 6) by zdiv.
  assert (E2 : MakeDay Y (m + 1) (0 - (L + 4 - wd) mod 7 + (-1 + 1) * 7)
               = MakeDay Y m (DaysInMonth Y m - (L + 4 - wd) mod 7)).
  { replace (0 - (L + 4 - wd) mod 7 + (-1 + 1) * 7)
      with (0 + - ((L + 4 - wd) mod 7)) by lia.
    rewrite MakeDay_add, MakeDay_last by trivial.
    replace (DaysInMonth Y m - (L + 4 - wd) mod 7)
      with (DaysInMonth Y m + - ((L + 4 - wd) mod 7)) by lia.
    now rewrite MakeDay_add. }
  rewrite ymd_eq, fullYear_plain, E2 by trivial.
  apply TimeClip_ok, days_in_range, (year_days_range Y); trivial.
  pose proof (MakeDay_in_year Y m (DaysInMonth Y m - (L + 4 - wd) mod 7) Hm)
    as B2. lia.
Qed.

Lemma newYear_weekday (y : Z) :
  100 <= y <= 275759 ->
  let nyd := ymd (Some y) (Some 0) (Some 1) in
  let nyd :=
    if Js.seq (getDay nyd) (Some 0) then ymd (Some y) (Some 0) (Some 2)
    else nyd in
  let nyd :=
    if Js.seq (getDay nyd) (Some 6) then ymd (Some y) (Some 0) (Some 3)
    else nyd in
  exists t w dd,
    nyd = Some t /\ getDay (Some t) = Some w /\ 1 <= w <= 5 /\
    getFullYear (Some t) = Some y /\ getMonth (Some t) = Some 0 /\
    getDate (Some t) = Some dd /\ 1 <= dd <= 3.
Proof.
  intros R. cbv zeta.
  destruct (ymd_in_year y 0 1 R) as [E1 Y1]; [lia | cbn; lia |].
  destruct (ymd_in_year y 0 2 R) as [E2 Y2]; [lia | cbn; lia |].
  destruct (ymd_in_year y 0 3 R) as [E3 Y3]; [lia | cbn; lia |].
  destruct (fields_of_day y 0 1) as (_ & M1 & D1); [lia | cbn; lia |].
  destruct (fields_of_day y 0 2) as (_ & M2 & D2); [lia | cbn; lia |].
  destruct (fields_of_day y 0 3) as (_ & M3 & D3); [lia | cbn; lia |].
  rewrite E1, E2, E3.
  assert (A2 : MakeDay y 0 2 = MakeDay y 0 1 + 1)
    by (replace 2 with (1 + 1) by lia; apply MakeDay_add).
  assert (A3 : MakeDay y 0 3 = MakeDay y 0 1 + 2)
    by (replace 3 with (1 + 2) by lia; apply MakeDay_add).
  set (J := MakeDay y 0 1) in *.
  rewrite (getDay_days J). unfold Js.seq.
  destruct (Z.eqb_spec ((J + 4) mod 7) 0) as [S0 | S0].
  - rewrite getDay_days.
    destruct (Z.eqb_spec ((MakeDay y 0 2 + 4) mod 7) 6) as [S6 | S6];
      [exfalso; rewrite A2 in S6; clearbody J; clear - S0 S6; zdiv|].
    exists (MakeDay y 0 2 * msPerDay), ((MakeDay y 0 2 + 4) mod 7), 2.
    unfold getMonth, getDate, bind. rewrite getDay_days, M2, D2.
    repeat split; trivial; try lia; rewrite A2; zdiv.
  - rewrite getDay_days.
    destruct (Z.eqb_spec ((J + 4) mod 7) 6) as [S6 | S6].
    + exists (MakeDay y 0 3 * msPerDay), ((MakeDay y 0 3 + 4) mod 7), 3.
      unfold getMonth, getDate, bind. rewrite getDay_days, M3, D3.
      repeat split; trivial; try lia; rewrite A3; zdiv.
    + exists (J * msPerDay), ((J + 4) mod 7), 1.
      unfold getMonth, getDate, bind. rewrite getDay_days, M1, D1.
      repeat split; trivial; try lia; zdiv.
Qed.

Lemma december_substitute (y D D2 : Z) :
  100 <= y <= 275759 -> 25 <= D <= 26 -> D2 = D + 2 ->
  let d0 := ymd (Some y) (Some 11) (Some D) in
  let w := getDay d0 in
  let d := if Js.seq w (Some 0) then ymd (Some y) (Some 11) (Some D2) else d0 in
  let d := if Js.seq w (Some 6) then ymd (Some y) (Some 11) (Some D2) else d in
  exists t wd dd,
    d = Some t /\ getDay (Some t) = Some wd /\ 1 <= wd <= 5 /\
    getFullYear (Some t) = Some y /\ getMonth (Some t) = Some 11 /\
    getDate (Some t) = Some dd /\ (dd = D \/ dd = D2).
Proof.
  intros R HD ->. cbv zeta.
  destruct (ymd_in_year y 11 D R) as [E1 Y1];
    [lia | unfold DaysBeforeMonth; lia |].
  destruct (ymd_in_year y 11 (D + 2) R) as [E2 Y2];
    [lia | unfold DaysBeforeMonth; lia |].
  destruct (fields_of_day y 11 D) as (_ & M1 & D1);
    [lia | unfold DaysInMonth; lia |].
  destruct (fields_of_day y 11 (D + 2)) as (_ & M2 & D2);
    [lia | unfold DaysInMonth; lia |].
  rewrite E1, E2. rewrite MakeDay_add in *.
  set (J := MakeDay y 11 D) in *.
  rewrite (getDay_days J). unfold Js.seq.
  destruct (Z.eqb_spec ((J + 4) mod 7) 6) as [S6 | S6];
    [|destruct (Z.eqb_spec ((J + 4) mod 7) 0) as [S0 | S0]].
  - exists ((J + 2) * msPerDay), ((J + 2 + 4) mod 7), (D + 2).
    unfold getMonth, getDate, bind. rewrite getDay_days, M2, D2.
    repeat split; trivial; try lia; zdiv.
  - exists ((J + 2) * msPerDay), ((J + 2 + 4) mod 7), (D + 2).
    unfold getMonth, getDate, bind. rewrite getDay_days, M2, D2.
    repeat split; trivial; try lia; zdiv.
  - exists (J * msPerDay), ((J + 4) mod 7), D.
    unfold getMonth, getDate, bind. rewrite getDay_days, M1, D1.
    repeat split; trivial; try lia; zdiv.
Qed.

End Table.

Ltac ofType_table :=
  unfold getUKBankHolidays; cbv zeta;
  repeat (rewrite ofType_push; cbn [Holiday.type];
          match goal with
          | |- context [if String.eqb ?a ?b then _ else _] =>
              let v := eval vm_compute in (String.eqb a b) in
              change (String.eqb a b) with v; cbv iota
          end).

(** ** Plain railway years *)

Section RailwayYears.

Lemma plainYear_facts (R : Z) :
  plainYear R ->
  fullYear R = R /\ fullYear (R + 1) = R + 1 /\
  representable R /\ representable (R + 1) /\
  (weekOneDay (R + 1) = weekOneDay R + 364
   \/ weekOneDay (R + 1) = weekOneDay R + 371) /\
  getWeekOneStart (Some R) = Some (weekOneDay R * msPerDay) /\
  getWeekOneStart (Some (R + 1)) = Some (weekOneDay (R + 1) * msPerDay) /\
  getTotalWeeks (Some R) = Some ((weekOneDay (R + 1) - weekOneDay R) / 7).
Proof.
  intros P. unfold plainYear in P.
  assert (F1 : fullYear R = R) by (apply fullYear_plain; lia).
  assert (F2 : fullYear (R + 1) = R + 1) by (apply fullYear_plain; lia).
  assert (R1 : representable R) by (unfold representable; lia).
  assert (R2 : representable (R + 1)) by (unfold representable; lia).
  repeat split; trivial; try (unfold representable in *; lia).
  - apply weekOneDay_succ.
  - rewrite getWeekOneStart_val; rewrite F1; trivial.
  - rewrite getWeekOneStart_val; rewrite F2; trivial.
  - rewrite getTotalWeeks_val; rewrite ?F1, ?F2; trivial.
Qed.

(** The railway year of a day: the calendar year, or the one before for
    the days before week one. *)
Lemma railway_year_of (D : Z) :
  let y := YearFromDay D in
  -271819 <= y <= -2 \/ 101 <= y <= 275759 ->
  exists R,
    (R = y \/ R = y - 1) /\ plainYear R /\
    weekOneDay R <= D < weekOneDay (R + 1) /\
    locate (Some (D * msPerDay)) (Some y) = (Some R, Some (weekOneDay R * msPerDay)).
Proof.
  intros y Hy. pose proof (YearFromDay_spec D) as Sp. fold y in Sp.
  assert (Py : plainYear y) by (unfold plainYear; lia).
  destruct (plainYear_facts y Py) as (Fy & Fn & Ry & Rn & _ & _ & _ & _).
  pose proof (weekOneDay_in_year y) as Iy.
  pose proof (weekOneDay_in_year (y + 1)) as In'.
  destruct (Z_lt_dec D (weekOneDay y)) as [Lt | Ge].
  - assert (Pp : plainYear (y - 1)) by (unfold plainYear; lia).
    destruct (plainYear_facts (y - 1) Pp) as (Fp & _ & Rp & _ & _ & Wp & _).
    pose proof (weekOneDay_in_year (y - 1)) as Ip.
    replace (y - 1 + 1) with y in * by lia.
    exists (y - 1). replace (y - 1 + 1) with y by lia.
    repeat split; trivial; try lia.
    rewrite locate_prev by (rewrite Fy; trivial). now rewrite Wp.
  - exists y. repeat split; trivial; try lia.
    rewrite <- Fy at 3. apply locate_same; rewrite ?Fy, ?Fn; trivial. lia.
Qed.

(** The coordinate of a valid date whose day [D] lies in the railway year
    [R]. *)
Lemma dateToRailway_in_year (t R : Z) :
  Z.abs t <= maxTime -> plainYear R ->
  weekOneDay R <= Day t < weekOneDay (R + 1) ->
  let r := dateToRailway (Some t) in
  let k := Day t - weekOneDay R in
  railwayYear r = Some R /\
  weekOneStart r = Some (weekOneDay R * msPerDay) /\
  railWeek r = Some (k / 7 + 1) /\
  dayOfRailWeek r = Some (k mod 7 + 1) /\
  period r = Some (k / 28 + 1) /\
  weekInPeriod r = Some ((k / 7) mod 4 + 1) /\
  totalWeeks r = Some ((weekOneDay (R + 1) - weekOneDay R) / 7).
Proof.
  intros V P B r k.
  destruct (plainYear_facts R P) as (F1 & F2 & R1 & R2 & S & W1 & W2 & T).
  pose proof (weekOneDay_in_year R) as I1.
  pose proof (weekOneDay_in_year (R + 1)) as I2.
  assert (L : locate (Some (Day t * msPerDay)) (Some (YearFromDay (Day t)))
              = (Some R, Some (weekOneDay R * msPerDay))).
  { destruct (Z_lt_dec (Day t) (DayFromYear (R + 1))) as [Lt | Ge].
    - rewrite (YearFromDay_unique (Day t) R) by lia.
      rewrite <- F1 at 3. apply locate_same; rewrite ?F1, ?F2; trivial.
    - rewrite (YearFromDay_unique (Day t) (R + 1)) by lia.
      rewrite locate_prev by (rewrite ?F2; trivial; lia).
      replace (R + 1 - 1) with R by lia. now rewrite W1. }
  destruct (dateToRailway_fields t R (weekOneDay R) V L)
    as (H1 & H2 & H3 & H4 & H5 & H6).
  destruct (dateToRailway_locate (Some t)) as (_ & _ & _ & _ & _ & _ & H7).
  fold r in H1, H2, H3, H4, H5, H6, H7. fold k in H3, H4, H5, H6.
  assert (K : 0 <= k) by (unfold k; lia).
  repeat split; trivial.
  - rewrite H4. f_equal. rewrite Z.rem_mod_nonneg by lia. reflexivity.
  - rewrite H5. f_equal. zdiv.
  - rewrite H6. replace (k / 7 + 1 - 1) with (k / 7) by lia.
    rewrite Z.rem_mod_nonneg by zdiv. reflexivity.
  - rewrite H7, H1. exact T.
Qed.

Lemma dateToRailway_dayName_eq (date : Date) :
  let r := dateToRailway date in
  dayName r = index dayNames (Js.sub (dayOfRailWeek r) (Some 1)).
Proof.
  unfold dateToRailway, copy. cbv zeta.
  match goal with
  | |- context [match ?p with pair _ _ => _ end] => destruct p
  end.
  reflexivity.
Qed.

Lemma representable_dec (y : Z) : {representable y} + {~ representable y}.
Proof.
  unfold representable.
  destruct (Z_le_dec (-271820) y), (Z_le_dec y 275760); (left; lia) || (right; lia).
Qed.

(** A valid start date of [railwayToDateRange] gives the day of week one. *)
Lemma railwayToDateRange_Some (Y W s : Z) :
  startDate (railwayToDateRange (Some Y) (Some W)) = Some s ->
  representable (fullYear Y) /\
  s = (weekOneDay (fullYear Y) + (W - 1) * 7) * msPerDay /\
  Z.abs s <= maxTime /\
  endDate (railwayToDateRange (Some Y) (Some W)) = TimeClip (s + 6 * msPerDay).
Proof.
  intros E. destruct (representable_dec (fullYear Y)) as [R | R].
  - destruct (railwayToDateRange_val Y W R) as [S1 S2].
    rewrite S1 in E. apply TimeClip_Some in E. destruct E as [-> V].
    rewrite (TimeClip_ok _ V) in S2. cbn [bind] in S2. auto.
  - exfalso. unfold railwayToDateRange in E. cbv zeta in E.
    rewrite getWeekOneStart_nan in E by trivial. discriminate.
Qed.

(** The fields of [getPeriodDates] in a plain year. *)
Lemma getPeriodDates_val (Y p : Z) :
  plainYear Y ->
  let tw := (weekOneDay (Y + 1) - weekOneDay Y) / 7 in
  let g := getPeriodDates (Some Y) (Some p) in
  startWeek g = Some ((p - 1) * 4 + 1) /\
  endWeek g = Some (Z.min (p * 4) tw) /\
  periodStart g = TimeClip ((weekOneDay Y + (p - 1) * 28) * msPerDay) /\
  periodEnd g
  = (let* s' := TimeClip ((weekOneDay Y + (Z.min (p * 4) tw - 1) * 7)
                           * msPerDay) in
     TimeClip (s' + 6 * msPerDay)).
Proof.
  intros P tw g.
  destruct (plainYear_facts Y P) as (F1 & _ & R1 & _ & _ & _ & _ & T).
  unfold g, getPeriodDates. cbv zeta.
  cbn [startWeek endWeek periodStart periodEnd].
  rewrite T. fold tw. cbn [Js.sub Js.mul Js.add Js.min bind].
  rewrite <- F1 in R1.
  destruct (railwayToDateRange_val Y ((p - 1) * 4 + 1) R1) as [S1 _].
  destruct (railwayToDateRange_val Y (Z.min (p * 4) tw) R1) as [_ S2].
  rewrite F1 in *. rewrite S1, S2. repeat split. f_equal. lia.
Qed.

(** Period [p] of a plain year, for [p] up to 13: its weeks and its first
    and last days, [w + 28 (p - 1)] and 27 days later. *)
Lemma getPeriodDates_days (Y p : Z) :
  plainYear Y -> 1 <= p <= 13 ->
  let g := getPeriodDates (Some Y) (Some p) in
  let d := weekOneDay Y + (p - 1) * 28 in
  startWeek g = Some (4 * p - 3) /\ endWeek g = Some (4 * p) /\
  periodStart g = Some (d * msPerDay) /\
  periodEnd g = Some ((d + 27) * msPerDay) /\
  weekOneDay Y <= d /\ d + 27 < weekOneDay (Y + 1).
Proof.
  intros P Hp g d.
  destruct (getPeriodDates_val Y p P) as (G1 & G2 & G3 & G4).
  fold g in G1, G2, G3, G4.
  destruct (plainYear_facts Y P) as (_ & _ & R1 & R2 & S & _).
  pose proof (weekOneDay_range Y R1) as B1.
  pose proof (weekOneDay_range (Y + 1) R2) as B2.
  set (w := weekOneDay Y) in *.
  assert (M : Z.min (p * 4) ((weekOneDay (Y + 1) - w) / 7) = p * 4)
    by (destruct S; zdiv).
  rewrite M in *.
  assert (L : d + 27 < weekOneDay (Y + 1)) by (unfold d; destruct S; lia).
  fold d in G3.
  rewrite TimeClip_ok in G3, G4 by (apply days_in_range; unfold d in *; lia).
  cbn [bind] in G4.
  replace ((w + (p * 4 - 1) * 7) * msPerDay + 6 * msPerDay)
    with ((d + 27) * msPerDay) in G4 by (unfold d; lia).
  rewrite TimeClip_ok in G4 by (apply days_in_range; unfold d in *; lia).
  repeat split; trivial; try (unfold d; lia).
  - rewrite G1. f_equal. lia.
  - rewrite G2. f_equal. lia.
Qed.

Lemma referenceDay_val : referenceDay = 20427.
Proof. reflexivity. Qed.

End RailwayYears.

(** ** Comparison of doubles *)

Section Compare.

Lemma SFcompare_antisym (a b : spec_float) (o : comparison) :
  SFcompare a b = Some o -> SFcompare b a = Some (CompOpp o).
Proof.
  unfold SFcompare.
  destruct a as [sa|sa| |sa ma ea], b as [sb|sb| |sb mb eb];
    try destruct sa; try destruct sb; intros E; try discriminate;
    injection E as <-; try reflexivity;
    rewrite (Z.compare_antisym ea eb);
    fold (Pos.compare ma mb) (Pos.compare mb ma);
    rewrite (Pos.compare_antisym ma mb);
    destruct (ea ?= eb); cbn [CompOpp]; try reflexivity;
    destruct (ma ?= mb)%positive; reflexivity.
Qed.

Lemma SFcompare_nonnan (a b : spec_float) :
  SFcompare a a = Some Eq -> SFcompare b b = Some Eq ->
  exists o, SFcompare a b = Some o.
Proof.
  unfold SFcompare.
  destruct a as [sa|sa| |sa ma ea], b as [sb|sb| |sb mb eb];
    intros Ha Hb; try discriminate; eexists; reflexivity.
Qed.

Lemma is_nan_false (x : float) :
  is_nan x = false -> SFcompare (Prim2SF x) (Prim2SF x) = Some Eq.
Proof.
  unfold is_nan. rewrite eqb_spec. unfold SFeqb.
  destruct (SFcompare (Prim2SF x) (Prim2SF x)) as [[| |]|]; cbn;
    intros E; try discriminate; reflexivity.
Qed.

Lemma leb_of_ltb (x y : float) :
  (x <? y)%float = true -> (x <=? y)%float = true.
Proof.
  rewrite ltb_spec, leb_spec. unfold SFltb, SFleb.
  destruct (SFcompare (Prim2SF x) (Prim2SF y)) as [[| |]|];
    intros E; try discriminate; reflexivity.
Qed.

Lemma leb_of_not_ltb (x y : float) :
  is_nan x = false -> is_nan y = false ->
  (x <? y)%float = false -> (y <=? x)%float = true.
Proof.
  intros Nx Ny. apply is_nan_false in Nx, Ny.
  destruct (SFcompare_nonnan _ _ Nx Ny) as (o & E).
  rewrite ltb_spec, leb_spec. unfold SFltb, SFleb.
  rewrite (SFcompare_antisym _ _ _ E), E.
  destruct o; intros H; try discriminate; reflexivity.
Qed.

(** [Math.max(0, Math.min(100, x))] is [NaN] or lies from 0 to 100. *)
Lemma clamp_range (x : float) :
  let r := Math.max 0 (Math.min 100 x) in
  is_nan r = true \/ ((0 <=? r)%float = true /\ (r <=? 100)%float = true).
Proof.
  cbv zeta. destruct (is_nan x) eqn:Nx.
  - left. unfold Math.min. rewrite Nx, orb_true_r.
    unfold Math.max. rewrite orb_true_r. reflexivity.
  - assert (N100 : is_nan 100 = false) by reflexivity.
    assert (M : exists m, Math.min 100 x = m /\ is_nan m = false
                          /\ (m <=? 100)%float = true).
    { unfold Math.min. rewrite Nx, N100. cbn [orb].
      destruct (100 <? x)%float eqn:A.
      - exists 100%float. repeat split; reflexivity.
      - assert (L : (x <=? 100)%float = true)
          by (apply leb_of_not_ltb; trivial).
        assert (G : get_sign 100 = false) by reflexivity. rewrite G.
        exists x. destruct (x <? 100)%float; auto. }
    destruct M as (m & -> & Nm & Lm). right.
    unfold Math.max. rewrite Nm.
    assert (N0 : is_nan 0 = false) by reflexivity. rewrite N0. cbn [orb].
    destruct (0 <? m)%float eqn:A.
    + split; [now apply leb_of_ltb | exact Lm].
    + assert (G : get_sign 0 = false) by reflexivity. rewrite G.
      destruct (m <? 0)%float; split; reflexivity.
Qed.

End Compare.

(** ** The holiday table *)

Lemma December_range (Y dt : Z) :
  -271821 <= Y <= 275759 -> 1 <= dt <= 31 ->
  -100000000 <= MakeDay Y 11 dt < 100000000.
Proof.
  intros R H. rewrite MakeDay_month by lia.
  assert (L : DayFromYear (-271821) <= DayFromYear Y)
    by (apply DayFromYear_le; lia).
  assert (U : DayFromYear (Y + 1) <= DayFromYear 275760)
    by (apply DayFromYear_le; lia).
  assert (E1 : DayFromYear (-271821) = -100000109) by reflexivity.
  assert (E2 : DayFromYear 275760 = 99999744) by reflexivity.
  rewrite DayFromYear_succ in U.
  unfold DaysInYear, DaysBeforeMonth in *. destruct (isLeapYear Y); lia.
Qed.

Lemma December_out (Y dt : Z) :
  ~ -271821 <= Y <= 275759 -> 1 <= dt <= 31 ->
  maxTime < Z.abs (MakeDay Y 11 dt * msPerDay).
Proof.
  intros R H. rewrite MakeDay_month by lia.
  assert (E1 : DayFromYear (-271821) = -100000109) by reflexivity.
  assert (E2 : DayFromYear 275760 = 99999744) by reflexivity.
  destruct (Z_lt_dec Y (-271821)) as [Lo | Hi].
  - assert (L : DayFromYear (Y + 1) <= DayFromYear (-271821))
      by (apply DayFromYear_le; lia).
    rewrite DayFromYear_succ in L.
    unfold DaysInYear, DaysBeforeMonth, maxTime, msPerDay in *.
    destruct (isLeapYear Y); lia.
  - assert (U : DayFromYear 275760 <= DayFromYear Y)
      by (apply DayFromYear_le; lia).
    unfold DaysBeforeMonth, maxTime, msPerDay in *.
    destruct (isLeapYear Y); lia.
Qed.

(** C7.  For every year, the table of [getUKBankHolidays] has exactly one
    entry named "Christmas Day", and the weekday of its date is neither
    Saturday (6) nor Sunday (0).  When December of the year that the [Date]
    constructor reads is representable, the entry is a valid date of that
    December, from Monday to Friday: the 25th when the 25th is itself from
    Monday to Friday, and the 27th, its substitute two days forward, when
    the 25th is a Saturday or a Sunday.  For any other year, and for [NaN],
    the date is an Invalid Date, which has no weekday. *)
Theorem getUKBankHolidays_Christmas_Day (year : number) :
  exists e,
    named "Christmas Day" (getUKBankHolidays year) = [e] /\
    Js.seq (getDay (Holiday.date e)) (Some 6) = false /\
    Js.seq (getDay (Holiday.date e)) (Some 0) = false /\
    match year with
    | Some y =>
        if (-271821 <=? fullYear y) && (fullYear y <=? 275759) then
          exists t w dd w25,
            Holiday.date e = Some t /\
            getFullYear (Some t) = Some (fullYear y) /\
            getMonth (Some t) = Some 11 /\
            getDate (Some t) = Some dd /\
            getDay (Some t) = Some w /\ 1 <= w <= 5 /\
            getDay (ymd (Some y) (Some 11) (Some 25)) = Some w25 /\
            (1 <= w25 <= 5 -> dd = 25) /\
            (w25 = 6 \/ w25 = 0 -> dd = 27)
        else Holiday.date e = NaN
    | None => Holiday.date e = NaN
    end.
Proof.
  destruct (named_Christmas_Day year) as (em & ty & E).
  exists (Holiday.mk (christmas year) "Christmas Day" em ty).
  split; [exact E|]. cbn [Holiday.date].
  destruct year as [y|]; [|repeat split].
  unfold christmas. cbv zeta. rewrite !ymd_eq.
  set (Y := fullYear y).
  destruct (Z.leb_spec (-271821) Y) as [L | L];
    [destruct (Z.leb_spec Y 275759) as [U | U]|]; cbn [andb].
  - pose proof (December_range Y 25 (conj L U)) as B1.
    pose proof (December_range Y 27 (conj L U)) as B2.
    destruct (fields_of_day Y 11 25) as (Y1 & M1 & D1);
      [lia | unfold DaysInMonth; lia |].
    destruct (fields_of_day Y 11 27) as (Y2 & M2 & D2);
      [lia | unfold DaysInMonth; lia |].
    replace 27 with (25 + 2) in * by reflexivity.
    rewrite MakeDay_add in *.
    set (m := MakeDay Y 11 25) in *.
    rewrite !TimeClip_ok by (apply days_in_range; lia).
    rewrite (getDay_days m). unfold Js.seq.
    destruct (Z.eqb_spec ((m + 4) mod 7) 6) as [E6 | N6];
      [|destruct (Z.eqb_spec ((m + 4) mod 7) 0) as [E0 | N0]].
    + rewrite getDay_days.
      destruct (Z.eqb_spec ((m + 2 + 4) mod 7) 6); [exfalso; zdiv|].
      destruct (Z.eqb_spec ((m + 2 + 4) mod 7) 0); [exfalso; zdiv|].
      repeat split.
      exists ((m + 2) * msPerDay), ((m + 2 + 4) mod 7), (25 + 2),
        ((m + 4) mod 7).
      unfold getFullYear, getMonth, getDate, bind.
      rewrite Y2, M2, D2, getDay_days.
      repeat split; trivial; try lia; zdiv.
    + rewrite getDay_days.
      destruct (Z.eqb_spec ((m + 2 + 4) mod 7) 6); [exfalso; zdiv|].
      destruct (Z.eqb_spec ((m + 2 + 4) mod 7) 0); [exfalso; zdiv|].
      repeat split.
      exists ((m + 2) * msPerDay), ((m + 2 + 4) mod 7), (25 + 2),
        ((m + 4) mod 7).
      unfold getFullYear, getMonth, getDate, bind.
      rewrite Y2, M2, D2, getDay_days.
      repeat split; trivial; try lia; zdiv.
    + rewrite getDay_days.
      destruct (Z.eqb_spec ((m + 4) mod 7) 6); [lia|].
      destruct (Z.eqb_spec ((m + 4) mod 7) 0); [lia|].
      repeat split.
      exists (m * msPerDay), ((m + 4) mod 7), 25, ((m + 4) mod 7).
      unfold getFullYear, getMonth, getDate, bind.
      rewrite Y1, M1, D1, getDay_days.
      repeat split; trivial; try lia; zdiv.
  - rewrite !TimeClip_out by (apply December_out; lia). repeat split.
  - rewrite !TimeClip_out by (apply December_out; lia). repeat split.
Qed.

(** X1.  For every year from 100 to 275759, [getEasterSunday] returns a
    valid date of that year that is a Sunday, from 22 March to 25 April. *)
Theorem getEasterSunday_Sunday (y : Z) :
  100 <= y <= 275759 ->
  exists t dd,
    getEasterSunday (Some y) = Some t /\
    getDay (Some t) = Some 0 /\
    getFullYear (Some t) = Some y /\
    getDate (Some t) = Some dd /\
    ((getMonth (Some t) = Some 2 /\ 22 <= dd <= 31) \/
     (getMonth (Some t) = Some 3 /\ 1 <= dd <= 25)).
Proof.
  intros H. pose proof (easterNumber_range y ltac:(lia)) as R.
  destruct (easterDay_in_year y ltac:(lia)) as (_ & _ & S).
  rewrite getEasterSunday_day by trivial.
  assert (W : getDay (Some (easterDay y * msPerDay)) = Some 0)
    by (rewrite getDay_days; f_equal; exact S).
  unfold getFullYear, getDate, getMonth, bind.
  destruct (Z_le_dec (easterNumber y) 123) as [A | A].
  - destruct (fields_of_day y 2 (easterNumber y - 92)) as (F1 & F2 & F3);
      [lia | cbn; lia |].
    fold (easterDay y) in F1, F2, F3.
    exists (easterDay y * msPerDay), (easterNumber y - 92).
    rewrite F1, F2, F3. repeat split; trivial.
    left. split; [reflexivity | lia].
  - assert (E : easterDay y = MakeDay y 3 (easterNumber y - 123)).
    { unfold easterDay. rewrite !MakeDay_month by lia.
      unfold DaysBeforeMonth. destruct (isLeapYear y); lia. }
    destruct (fields_of_day y 3 (easterNumber y - 123)) as (F1 & F2 & F3);
      [lia | cbn; lia |].
    rewrite <- E in F1, F2, F3.
    exists (easterDay y * msPerDay), (easterNumber y - 123).
    rewrite F1, F2, F3. repeat split; trivial.
    right. split; [reflexivity | lia].
Qed.

Lemma getEasterSunday_Sunday_witness :
  100 <= 2025 <= 275759 /\
  exists t dd,
    getEasterSunday (Some 2025) = Some t /\
    getDay (Some t) = Some 0 /\
    getFullYear (Some t) = Some 2025 /\
    getDate (Some t) = Some dd /\
    ((getMonth (Some t) = Some 2 /\ 22 <= dd <= 31) \/
     (getMonth (Some t) = Some 3 /\ 1 <= dd <= 25)).
Proof.
  assert (H : 100 <= 2025 <= 275759) by lia.
  split; [exact H | exact (getEasterSunday_Sunday 2025 H)].
Defined.

(** X2.  For every year from 100 to 275759, each entry of the holiday
    table that is placed relative to Easter (Shrove Tuesday, Ash Wednesday,
    Mother's Day, Palm Sunday, Maundy Thursday, Good Friday, Easter Sunday,
    Easter Monday, Ascension Day, Pentecost) occurs once, in that year, on
    the day of the week that its name announces. *)
Theorem getUKBankHolidays_feast_weekdays (y : Z) (n : string) (w : Z) :
  100 <= y <= 275759 ->
  In (n, w) feastDays ->
  exists e t,
    named n (getUKBankHolidays (Some y)) = [e] /\
    Holiday.date e = Some t /\
    getDay (Some t) = Some w /\
    getFullYear (Some t) = Some y.
Proof.
  intros H I. unfold feastDays in I. cbn [In] in I.
  repeat (destruct I as [I | I];
    [injection I as <- <-; named_table;
     match goal with
     | |- context [addDays _ (Some ?k)] =>
         destruct (easter_offset y k H ltac:(lia)) as (E1 & E2 & E3);
         rewrite E1; eexists; eexists;
         split; [reflexivity|]; cbn [Holiday.date];
         split; [reflexivity|]; split; [exact E2 | exact E3]
     | |- _ =>
         destruct (easter_offset y 0 H ltac:(lia)) as (E1 & E2 & E3);
         rewrite getEasterSunday_day in * by trivial;
         rewrite Z.add_0_r in *;
         eexists; eexists;
         split; [reflexivity|]; cbn [Holiday.date];
         split; [reflexivity|]; split; [exact E2 | exact E3]
     end |]).
  contradiction.
Qed.

Lemma getUKBankHolidays_feast_weekdays_witness :
  100 <= 2025 <= 275759 /\
  In ("Good Friday"%string, 5) feastDays /\
  exists e t,
    named "Good Friday" (getUKBankHolidays (Some 2025)) = [e] /\
    Holiday.date e = Some t /\
    getDay (Some t) = Some 5 /\
    getFullYear (Some t) = Some 2025.
Proof.
  assert (H1 : 100 <= 2025 <= 275759) by lia.
  assert (H2 : In ("Good Friday"%string, 5) feastDays)
    by (unfold feastDays; cbn [In]; do 5 right; left; reflexivity).
  split; [exact H1|]. split; [exact H2|].
  exact (getUKBankHolidays_feast_weekdays 2025 _ 5 H1 H2).
Defined.

(** X3.  For a year taken as it is, a month 0..11, a weekday 0..6 and
    [n] from 1 to 4, [getNthWeekday] returns the [n]-th such weekday of the
    month: a date of that year and month, on that weekday, whose day of the
    month lies from [7n - 6] to [7n]. *)
Theorem getNthWeekday_nth (Y m wd n : Z) :
  (Y < 0 \/ 100 <= Y) -> -271820 <= Y <= 275759 ->
  0 <= m <= 11 -> 0 <= wd <= 6 -> 1 <= n <= 4 ->
  exists t dd,
    getNthWeekday (Some Y) (Some m) (Some wd) (Some n) = Some t /\
    getDay (Some t) = Some wd /\
    getFullYear (Some t) = Some Y /\
    getMonth (Some t) = Some m /\
    getDate (Some t) = Some dd /\
    7 * n - 6 <= dd <= 7 * n.
Proof.
  intros P R Hm Hw Hn. rewrite getNthWeekday_pos by trivial.
  set (F := MakeDay Y m 1).
  set (dd := 1 + (wd - (F + 4)) mod 7 + (n - 1) * 7).
  assert (O : 0 <= (wd - (F + 4)) mod 7 <= 6) by zdiv.
  pose proof (DaysInMonth_range Y m) as DR.
  destruct (fields_of_day Y m dd Hm) as (F1 & F2 & F3); [unfold dd; lia|].
  exists (MakeDay Y m dd * msPerDay), dd.
  unfold getFullYear, getMonth, getDate, bind. rewrite F1, F2, F3.
  rewrite getDay_days. repeat split; try (unfold dd; lia).
  f_equal. unfold dd. replace (1 + (wd - (F + 4)) mod 7 + (n - 1) * 7)
    with (1 + ((wd - (F + 4)) mod 7 + (n - 1) * 7)) by lia.
  rewrite MakeDay_add. fold F. zdiv.
Qed.

Lemma getNthWeekday_nth_witness :
  (2025 < 0 \/ 100 <= 2025) /\ -271820 <= 2025 <= 275759 /\
  0 <= 4 <= 11 /\ 0 <= 1 <= 6 /\ 1 <= 1 <= 4 /\
  exists t dd,
    getNthWeekday (Some 2025) (Some 4) (Some 1) (Some 1) = Some t /\
    getDay (Some t) = Some 1 /\
    getFullYear (Some t) = Some 2025 /\
    getMonth (Some t) = Some 4 /\
    getDate (Some t) = Some dd /\
    7 * 1 - 6 <= dd <= 7 * 1.
Proof.
  assert (H1 : 2025 < 0 \/ 100 <= 2025) by (right; lia).
  assert (H2 : -271820 <= 2025 <= 275759) by lia.
  assert (H3 : 0 <= 4 <= 11) by lia.
  assert (H4 : 0 <= 1 <= 6) by lia.
  assert (H5 : 1 <= 1 <= 4) by lia.
  repeat (split; [assumption|]).
  exact (getNthWeekday_nth 2025 4 1 1 H1 H2 H3 H4 H5).
Defined.

(** X4.  With [n = -1], [getNthWeekday] returns the last such weekday
    of the month: a date of that year and month, on that weekday, within
    the last seven days of the month. *)
Theorem getNthWeekday_last (Y m wd : Z) :
  (Y < 0 \/ 100 <= Y) -> -271820 <= Y <= 275759 ->
  0 <= m <= 11 -> 0 <= wd <= 6 ->
  exists t dd,
    getNthWeekday (Some Y) (Some m) (Some wd) (Some (-1)) = Some t /\
    getDay (Some t) = Some wd /\
    getFullYear (Some t) = Some Y /\
    getMonth (Some t) = Some m /\
    getDate (Some t) = Some dd /\
    DaysInMonth Y m - 6 <= dd <= DaysInMonth Y m.
Proof.
  intros P R Hm Hw. rewrite getNthWeekday_neg by trivial.
  set (L := MakeDay Y m (DaysInMonth Y m)).
  set (dd := DaysInMonth Y m - (L + 4 - wd) mod 7).
  assert (O : 0 <= (L + 4 - wd) mod 7 <= 6) by zdiv.
  pose proof (DaysInMonth_range Y m) as DR.
  destruct (fields_of_day Y m dd Hm) as (F1 & F2 & F3); [unfold dd; lia|].
  exists (MakeDay Y m dd * msPerDay), dd.
  unfold getFullYear, getMonth, getDate, bind. rewrite F1, F2, F3.
  rewrite getDay_days. repeat split; try (unfold dd; lia).
  f_equal. unfold dd.
  replace (DaysInMonth Y m - (L + 4 - wd) mod 7)
    with (DaysInMonth Y m + - ((L + 4 - wd) mod 7)) by lia.
  rewrite MakeDay_add. fold L. zdiv.
Qed.

Lemma getNthWeekday_last_witness :
  (2025 < 0 \/ 100 <= 2025) /\ -271820 <= 2025 <= 275759 /\
  0 <= 7 <= 11 /\ 0 <= 1 <= 6 /\
  exists t dd,
    getNthWeekday (Some 2025) (Some 7) (Some 1) (Some (-1)) = Some t /\
    getDay (Some t) = Some 1 /\
    getFullYear (Some t) = Some 2025 /\
    getMonth (Some t) = Some 7 /\
    getDate (Some t) = Some dd /\
    DaysInMonth 2025 7 - 6 <= dd <= DaysInMonth 2025 7.
Proof.
  assert (H1 : 2025 < 0 \/ 100 <= 2025) by (right; lia).
  assert (H2 : -271820 <= 2025 <= 275759) by lia.
  assert (H3 : 0 <= 7 <= 11) by lia.
  assert (H4 : 0 <= 1 <= 6) by lia.
  repeat (split; [assumption|]).
  exact (getNthWeekday_last 2025 7 1 H1 H2 H3 H4).
Defined.

(** X5.  For every year from 100 to 275759, the holiday table has
    exactly eight entries of type [bank], and each of them falls from Monday
    to Friday. *)
Theorem getUKBankHolidays_bank_weekdays (y : Z) :
  100 <= y <= 275759 ->
  List.length (ofType "bank" (getUKBankHolidays (Some y))) = 8%nat /\
  Forall (fun h => onWeekday (Holiday.date h))
         (ofType "bank" (getUKBankHolidays (Some y))).
Proof.
  intros R. ofType_table. unfold push, ofType. cbn [filter app].
  split; [reflexivity|].
  repeat apply Forall_cons; try apply Forall_nil; cbn [Holiday.date];
    unfold onWeekday.
  - destruct (newYear_weekday y R) as (t & w & _ & E & W & B & _).
    exists t, w. auto.
  - destruct (easter_offset y (-2) R ltac:(lia)) as (E1 & E2 & _).
    rewrite E1. do 2 eexists. split; [reflexivity|]. split; [exact E2|].
    cbn. lia.
  - destruct (easter_offset y 1 R ltac:(lia)) as (E1 & E2 & _).
    rewrite E1. do 2 eexists. split; [reflexivity|]. split; [exact E2|].
    cbn. lia.
  - rewrite getNthWeekday_pos by lia. do 2 eexists.
    split; [reflexivity|]. rewrite getDay_days. split; [reflexivity|].
    replace (1 + (1 - (MakeDay y 4 1 + 4)) mod 7 + (1 - 1) * 7)
      with (1 + (1 - (MakeDay y 4 1 + 4)) mod 7) by lia.
    rewrite MakeDay_add. zdiv.
  - rewrite getNthWeekday_neg by lia. do 2 eexists.
    split; [reflexivity|]. rewrite getDay_days. split; [reflexivity|].
    set (L := MakeDay y 4 (DaysInMonth y 4)).
    replace (DaysInMonth y 4 - (L + 4 - 1) mod 7)
      with (DaysInMonth y 4 + - ((L + 4 - 1) mod 7)) by lia.
    rewrite MakeDay_add. fold L. zdiv.
  - rewrite getNthWeekday_neg by lia. do 2 eexists.
    split; [reflexivity|]. rewrite getDay_days. split; [reflexivity|].
    set (L := MakeDay y 7 (DaysInMonth y 7)).
    replace (DaysInMonth y 7 - (L + 4 - 1) mod 7)
      with (DaysInMonth y 7 + - ((L + 4 - 1) mod 7)) by lia.
    rewrite MakeDay_add. fold L. zdiv.
  - destruct (december_substitute y 25 27 R) as (t & w & _ & E & W & B & _);
      [lia | lia |]. exists t, w. auto.
  - destruct (december_substitute y 26 28 R) as (t & w & _ & E & W & B & _);
      [lia | lia |]. exists t, w. auto.
Qed.

Lemma getUKBankHolidays_bank_weekdays_witness :
  100 <= 2025 <= 275759 /\
  List.length (ofType "bank" (getUKBankHolidays (Some 2025))) = 8%nat /\
  Forall (fun h => onWeekday (Holiday.date h))
         (ofType "bank" (getUKBankHolidays (Some 2025))).
Proof.
  assert (H : 100 <= 2025 <= 275759) by lia.
  split; [exact H | exact (getUKBankHolidays_bank_weekdays 2025 H)].
Defined.

(** X6.  For every year from 100 to 275759, when 25 December falls on
    weekday [w] the single entry named Advent Sunday falls on weekday
    [2w mod 7]: it is a Sunday exactly in the years where 25 December is a
    Sunday. *)
Theorem getUKBankHolidays_Advent_Sunday (y : Z) :
  100 <= y <= 275759 ->
  exists e t w,
    named "Advent Sunday" (getUKBankHolidays (Some y)) = [e] /\
    getDay (ymd (Some y) (Some 11) (Some 25)) = Some w /\
    Holiday.date e = Some t /\
    getDay (Some t) = Some ((2 * w) mod 7) /\
    (getDay (Some t) = Some 0 <-> w = 0).
Proof.
  intros R. named_table.
  destruct (ymd_in_year y 11 25 R) as [E1 _];
    [lia | unfold DaysBeforeMonth; lia |].
  rewrite E1. set (J := MakeDay y 11 25). rewrite getDay_days.
  unfold Js.seq.
  assert (W : 0 <= (J + 4) mod 7 <= 6) by zdiv.
  assert (A : forall k, -6 <= k <= 0 ->
            ymd (Some y) (Some 11) (Some (25 + (k - 21)))
            = Some ((J + (k - 21)) * msPerDay)).
  { intros k Hk. destruct (ymd_in_year y 11 (25 + (k - 21)) R) as [E _];
      [lia | unfold DaysBeforeMonth; lia |].
    rewrite E, MakeDay_add. reflexivity. }
  destruct (Z.eqb_spec ((J + 4) mod 7) 0) as [S0 | S0]; cbn [Js.sub bind].
  - replace (25 - 0 - 21) with (25 + (0 - 21)) by lia. rewrite A by lia.
    do 3 eexists. split; [reflexivity|]. split; [reflexivity|].
    cbn [Holiday.date]. split; [reflexivity|]. rewrite getDay_days.
    split; [f_equal; zdiv|]. split; [intros _; exact S0|].
    intros _. f_equal. zdiv.
  - replace (25 - (7 - (J + 4) mod 7) - 21)
      with (25 + (((J + 4) mod 7 - 7) - 21)) by lia.
    rewrite A by lia.
    do 3 eexists. split; [reflexivity|]. split; [reflexivity|].
    cbn [Holiday.date]. split; [reflexivity|]. rewrite getDay_days.
    split; [f_equal; zdiv|]. split; [|intros; lia].
    intros E. injection E as E. exfalso. zdiv.
Qed.

Lemma getUKBankHolidays_Advent_Sunday_witness :
  100 <= 2025 <= 275759 /\
  exists e t w,
    named "Advent Sunday" (getUKBankHolidays (Some 2025)) = [e] /\
    getDay (ymd (Some 2025) (Some 11) (Some 25)) = Some w /\
    Holiday.date e = Some t /\
    getDay (Some t) = Some ((2 * w) mod 7) /\
    (getDay (Some t) = Some 0 <-> w = 0).
Proof.
  assert (H : 100 <= 2025 <= 275759) by lia.
  split; [exact H | exact (getUKBankHolidays_Advent_Sunday 2025 H)].
Defined.

(** X7.  For every year from 100 to 275759, every entry of the holiday
    table other than Eid al-Adha is dated within the requested year. *)
Theorem getUKBankHolidays_in_year (y : Z) (h : Holiday.t) :
  100 <= y <= 275759 ->
  In h (getUKBankHolidays (Some y)) ->
  Holiday.name h <> "Eid al-Adha (approx)"%string ->
  getFullYear (Holiday.date h) = Some y.
Proof.
  intros R I N. unfold getUKBankHolidays in I. cbv zeta in I.
  repeat (apply In_push in I; destruct I as [I | ->]);
    [destruct I | ..]; cbn [Holiday.date Holiday.name] in *.
  all: try (exfalso; apply N; reflexivity).
  all: clear N.
  all: try (match goal with
        | |- getFullYear (ymd (Some _) (Some ?m) (Some ?d)) = _ =>
            destruct (ymd_in_year y m d R) as [E Y];
            [lia | unfold DaysBeforeMonth; lia | rewrite E; exact Y]
        | |- getFullYear (addDays _ (Some ?k)) = _ =>
            destruct (easter_offset y k R ltac:(lia)) as (E1 & _ & E3);
            rewrite E1; exact E3
        end).
  - destruct (newYear_weekday y R) as (t & w & dd & E & _ & _ & Y & _).
    cbv zeta in E. rewrite E. exact Y.
  - rewrite getNthWeekday_pos by lia. apply getFullYear_days.
    apply MakeDay_in_year; [lia|]. unfold DaysInMonth.
    assert (0 <= (1 - (MakeDay y 4 1 + 4)) mod 7 <= 6) by zdiv. lia.
  - rewrite getNthWeekday_neg by lia. apply getFullYear_days.
    apply MakeDay_in_year; [lia|]. unfold DaysInMonth.
    match goal with
    | |- context [?a mod 7] => assert (0 <= a mod 7 <= 6) by zdiv
    end. lia.
  - rewrite getNthWeekday_neg by lia. apply getFullYear_days.
    apply MakeDay_in_year; [lia|]. unfold DaysInMonth.
    match goal with
    | |- context [?a mod 7] => assert (0 <= a mod 7 <= 6) by zdiv
    end. lia.
  - destruct (december_substitute y 25 27 R)
      as (t & w & dd & E & _ & _ & Y & _); [lia | lia |].
    cbv zeta in E. rewrite E. exact Y.
  - destruct (december_substitute y 26 28 R)
      as (t & w & dd & E & _ & _ & Y & _); [lia | lia |].
    cbv zeta in E. rewrite E. exact Y.
  - destruct (easter_offset y 0 R ltac:(lia)) as (_ & _ & E3).
    rewrite getEasterSunday_day by trivial.
    rewrite Z.add_0_r in E3. exact E3.
  - destruct (ymd_in_year y 11 25 R) as [E1 _];
      [lia | unfold DaysBeforeMonth; lia |].
    rewrite E1, getDay_days. unfold Js.seq.
    set (w := (MakeDay y 11 25 + 4) mod 7).
    assert (W : 0 <= w <= 6) by (unfold w; zdiv).
    destruct (Z.eqb_spec w 0); cbn [Js.sub bind];
      match goal with
      | |- getFullYear (ymd _ _ (Some ?d)) = _ =>
          destruct (ymd_in_year y 11 d R) as [E Y];
          [lia | unfold DaysBeforeMonth; lia | rewrite E; exact Y]
      end.
  - cbn [Js.sub Js.mul Js.rem Js.add Js.floor_div bind].
    set (r := Z.rem ((y - 2024) * 11) 30).
    assert (Hr : -29 <= r <= 29)
      by (unfold r; Z.to_euclidean_division_equations; lia).
    assert (Q : (15 + r) / 30 = -1 /\ Z.rem (15 + r) 30 = 15 + r /\ r < -15
                \/ (15 + r) / 30 = 0 /\ Z.rem (15 + r) 30 = 15 + r
                   /\ -15 <= r < 15
                \/ (15 + r) / 30 = 1 /\ Z.rem (15 + r) 30 = r - 15 /\ 15 <= r)
      by (Z.to_euclidean_division_equations; lia).
    destruct Q as [(-> & -> & B) | [(-> & -> & B) | (-> & -> & B)]];
      change (9 + -1) with 8; change (9 + 0) with 9; change (9 + 1) with 10;
      unfold Js.or;
      match goal with
      | |- context [match ?x with Z0 => _ | Zpos _ => _ | Zneg _ => _ end] =>
          destruct x eqn:X
      end;
      match goal with
      | |- getFullYear (ymd _ (Some ?m) (Some ?d)) = _ =>
          destruct (ymd_in_year y m d R) as [E Y];
          [lia | unfold DaysBeforeMonth; lia | rewrite E; exact Y]
      end.
  - unfold copy. cbn [Js.sub Js.mul Js.rem bind].
    set (s := Z.rem ((y - 2024) * 11) 354).
    assert (Hs : -353 <= s <= 353)
      by (unfold s; Z.to_euclidean_division_equations; lia).
    assert (B : ymd (Some 2024) (Some 3) (Some 10) = Some 1712707200000)
      by reflexivity.
    rewrite B.
    assert (E : Js.sub (getDate (Some 1712707200000)) (Some s)
                = Js.add (getDate (Some 1712707200000)) (Some (- s)))
      by (unfold getDate, Js.sub, Js.add, bind; f_equal; lia).
    rewrite E, setDate_getDate_add.
    rewrite TimeClip_ok by (unfold maxTime, msPerDay; lia).
    set (t := 1712707200000 + - s * msPerDay).
    unfold Js.sne, Js.seq. cbn [getFullYear bind].
    destruct (Z.eqb_spec (YearFromTime t) y) as [Ey | Ny]; cbn [negb].
    + cbn [getFullYear bind]. now f_equal.
    + cbn [getMonth getDate bind].
      destruct (month_date_bounds t) as [Bm Bd].
      destruct (ymd_in_year y (MonthFromTime t) (DateFromTime t) R Bm Bd)
        as [E' Y'].
      rewrite E'. exact Y'.
  - rewrite getNthWeekday_pos by lia. apply getFullYear_days.
    apply MakeDay_in_year; [lia|]. unfold DaysInMonth.
    match goal with
    | |- context [?a mod 7] => assert (0 <= a mod 7 <= 6) by zdiv
    end. lia.
  - rewrite getNthWeekday_pos by lia. apply getFullYear_days.
    apply MakeDay_in_year; [lia|]. unfold DaysInMonth.
    match goal with
    | |- context [?a mod 7] => assert (0 <= a mod 7 <= 6) by zdiv
    end. lia.
Qed.

Lemma getUKBankHolidays_in_year_witness :
  let h := Holiday.mk (ymd (Some 2025) (Some 0) (Some 6))
             "Epiphany" "⭐" "religious" in
  100 <= 2025 <= 275759 /\
  In h (getUKBankHolidays (Some 2025)) /\
  Holiday.name h <> "Eid al-Adha (approx)"%string /\
  getFullYear (Holiday.date h) = Some 2025.
Proof.
  intros h.
  assert (H1 : 100 <= 2025 <= 275759) by lia.
  assert (H2 : In h (getUKBankHolidays (Some 2025))).
  { unfold getUKBankHolidays. cbv zeta.
    do 26 apply In_push_l. apply In_push_r. }
  assert (H3 : Holiday.name h <> "Eid al-Adha (approx)"%string)
    by (cbn; discriminate).
  split; [exact H1|]. split; [exact H2|]. split; [exact H3|].
  exact (getUKBankHolidays_in_year 2025 h H1 H2 H3).
Defined.

(** ** Paydays *)

(** X8.  For every valid date, [isPayday] holds exactly when the
    calendar day is a whole number of 28-day cycles away from 5 December
    2025, before or after it; every payday is a Friday. *)
Theorem isPayday_cycle (t : Z) :
  Z.abs t <= maxTime ->
  (isPayday (Some t) = true <-> exists k, Day t = referenceDay + 28 * k) /\
  (isPayday (Some t) = true -> getDay (Some t) = Some 5).
Proof.
  intros V. rewrite isPayday_val by trivial. rewrite referenceDay_val.
  split; [split|].
  - intros E. apply Z.eqb_eq in E. exists ((Day t - 20427) / 28).
    Z.to_euclidean_division_equations; lia.
  - intros (k & E). apply Z.eqb_eq. rewrite E.
    Z.to_euclidean_division_equations; lia.
  - intros E. apply Z.eqb_eq in E. unfold getDay, bind, WeekDay. f_equal.
    Z.to_euclidean_division_equations; lia.
Qed.

Lemma isPayday_cycle_witness :
  Z.abs 1764892800000 <= maxTime /\
  (isPayday (Some 1764892800000) = true
   <-> exists k, Day 1764892800000 = referenceDay + 28 * k) /\
  (isPayday (Some 1764892800000) = true
   -> getDay (Some 1764892800000) = Some 5).
Proof.
  assert (H : Z.abs 1764892800000 <= maxTime) by (vm_compute; discriminate).
  split; [exact H | exact (isPayday_cycle 1764892800000 H)].
Defined.

(** X9.  From the reference payday on, [getNextPayday] returns the
    first payday on or after the date: it is a payday less than 28 days
    ahead, and no day from the date up to it is a payday. *)
Theorem getNextPayday_first (t : Z) :
  Z.abs t <= maxTime ->
  referenceDay <= Day t -> Day t + 27 <= 100000000 ->
  exists n,
    getNextPayday (Some t) = Some n /\
    isPayday (Some n) = true /\
    Day t <= Day n < Day t + 28 /\
    (forall u, Z.abs u <= maxTime -> Day t <= Day u < Day n ->
               isPayday (Some u) = false).
Proof.
  intros V Ref Top.
  pose proof (Day_range t V) as B.
  set (N := Day t + daysUntilPayday (Day t)).
  assert (U : 0 <= daysUntilPayday (Day t) < 28
              /\ forall D, Day t <= D < N ->
                           Z.rem (D - referenceDay) 28 <> 0).
  { unfold N, daysUntilPayday. cbv zeta. revert Ref. generalize referenceDay.
    intros R Ref.
    destruct (Z.eqb_spec (28 - Z.rem (Day t - R) 28) 28); split;
      try (intros D HD); Z.to_euclidean_division_equations; lia. }
  destruct U as [U1 U2].
  assert (VN : Z.abs (N * msPerDay) <= maxTime)
    by (apply days_in_range; unfold N; lia).
  exists (N * msPerDay).
  rewrite getNextPayday_val by trivial. fold N.
  rewrite TimeClip_ok by trivial.
  rewrite isPayday_val by trivial. rewrite Day_of_days.
  split; [reflexivity|]. split.
  { unfold N. rewrite daysUntilPayday_cycle. reflexivity. }
  split; [unfold N; lia|].
  intros u Vu Hu. rewrite isPayday_val by trivial.
  apply Z.eqb_neq. apply U2. exact Hu.
Qed.

Lemma getNextPayday_first_witness :
  Z.abs 1764979200000 <= maxTime /\
  referenceDay <= Day 1764979200000 /\
  Day 1764979200000 + 27 <= 100000000 /\
  exists n,
    getNextPayday (Some 1764979200000) = Some n /\
    isPayday (Some n) = true /\
    Day 1764979200000 <= Day n < Day 1764979200000 + 28 /\
    (forall u, Z.abs u <= maxTime -> Day 1764979200000 <= Day u < Day n ->
               isPayday (Some u) = false).
Proof.
  assert (H1 : Z.abs 1764979200000 <= maxTime) by (vm_compute; discriminate).
  assert (H2 : referenceDay <= Day 1764979200000)
    by (vm_compute; discriminate).
  assert (H3 : Day 1764979200000 + 27 <= 100000000)
    by (vm_compute; discriminate).
  split; [exact H1|]. split; [exact H2|]. split; [exact H3|].
  exact (getNextPayday_first 1764979200000 H1 H2 H3).
Defined.

(** X10.  [getNextPayday] applied to its own result returns that
    result, also when the result is an Invalid Date. *)
Theorem getNextPayday_idempotent (d : Date) :
  wellFormed d ->
  getNextPayday (getNextPayday d) = getNextPayday d.
Proof.
  destruct d as [t|]; [|reflexivity]. cbn [wellFormed]. intros V.
  rewrite getNextPayday_val by trivial.
  set (N := Day t + daysUntilPayday (Day t)).
  destruct (TimeClip (N * msPerDay)) as [n|] eqn:E; [|reflexivity].
  apply TimeClip_Some in E. destruct E as [-> Vn].
  rewrite getNextPayday_val by trivial. rewrite Day_of_days.
  assert (Z0 : daysUntilPayday N = 0).
  { pose proof (daysUntilPayday_cycle (Day t)) as C. fold N in C.
    unfold daysUntilPayday. cbv zeta. rewrite C. reflexivity. }
  rewrite Z0, Z.add_0_r. now apply TimeClip_ok.
Qed.

Lemma getNextPayday_idempotent_witness :
  wellFormed (Some 1764806400000) /\
  getNextPayday (getNextPayday (Some 1764806400000))
  = getNextPayday (Some 1764806400000).
Proof.
  assert (H : wellFormed (Some 1764806400000))
    by (vm_compute; discriminate).
  split; [exact H | exact (getNextPayday_idempotent _ H)].
Defined.

(** ** Railway coordinates *)

(** X11.  For every valid date of the years -271819..-2 and
    101..275759, the coordinate of [dateToRailway] has [totalWeeks] 52 or
    53, [railWeek] from 1 to [totalWeeks], [dayOfRailWeek] from 1 to 7,
    [weekInPeriod] from 1 to 4 and [period] from 1 to 14; period 14 is week
    53 alone. *)
Theorem dateToRailway_field_ranges (t : Z) :
  Z.abs t <= maxTime ->
  -271819 <= YearFromTime t <= -2 \/ 101 <= YearFromTime t <= 275759 ->
  let r := dateToRailway (Some t) in
  exists rw dw p wp tw,
    railWeek r = Some rw /\ dayOfRailWeek r = Some dw /\
    period r = Some p /\ weekInPeriod r = Some wp /\
    totalWeeks r = Some tw /\
    (tw = 52 \/ tw = 53) /\ 1 <= rw <= tw /\ 1 <= dw <= 7 /\
    1 <= p <= 14 /\ 1 <= wp <= 4 /\
    (p = 14 -> rw = 53 /\ wp = 1).
Proof.
  intros V Hy r. unfold YearFromTime in Hy.
  destruct (railway_year_of (Day t) Hy) as (R & _ & P & B & _).
  destruct (dateToRailway_in_year t R V P B)
    as (_ & _ & H3 & H4 & H5 & H6 & H7).
  fold r in H3, H4, H5, H6, H7.
  destruct (plainYear_facts R P) as (_ & _ & _ & _ & S & _).
  set (k := Day t - weekOneDay R) in *.
  exists (k / 7 + 1), (k mod 7 + 1), (k / 28 + 1), ((k / 7) mod 4 + 1),
    ((weekOneDay (R + 1) - weekOneDay R) / 7).
  assert (K : 0 <= k) by (unfold k; lia).
  repeat split; trivial; try zdiv.
  all: destruct S as [S | S]; unfold k in *; zdiv.
Qed.

Lemma dateToRailway_field_ranges_witness :
  Z.abs 1764892800000 <= maxTime /\
  (-271819 <= YearFromTime 1764892800000 <= -2
   \/ 101 <= YearFromTime 1764892800000 <= 275759) /\
  let r := dateToRailway (Some 1764892800000) in
  exists rw dw p wp tw,
    railWeek r = Some rw /\ dayOfRailWeek r = Some dw /\
    period r = Some p /\ weekInPeriod r = Some wp /\
    totalWeeks r = Some tw /\
    (tw = 52 \/ tw = 53) /\ 1 <= rw <= tw /\ 1 <= dw <= 7 /\
    1 <= p <= 14 /\ 1 <= wp <= 4 /\
    (p = 14 -> rw = 53 /\ wp = 1).
Proof.
  assert (H1 : Z.abs 1764892800000 <= maxTime) by (vm_compute; discriminate).
  assert (H2 : -271819 <= YearFromTime 1764892800000 <= -2
               \/ 101 <= YearFromTime 1764892800000 <= 275759)
    by (right; vm_compute; split; discriminate).
  split; [exact H1|]. split; [exact H2|].
  exact (dateToRailway_field_ranges 1764892800000 H1 H2).
Defined.

(** X14.  Whenever [railwayToDateRange] returns valid dates,
    whatever the year and the week number, the start is a Saturday and the
    end is the Friday six days later. *)
Theorem railwayToDateRange_Saturday_to_Friday (Y W s e : Z) :
  startDate (railwayToDateRange (Some Y) (Some W)) = Some s ->
  endDate (railwayToDateRange (Some Y) (Some W)) = Some e ->
  getDay (Some s) = Some 6 /\ getDay (Some e) = Some 5 /\
  e = s + 6 * msPerDay.
Proof.
  intros Es Ee.
  destruct (railwayToDateRange_Some Y W s Es) as (R & -> & V & E).
  rewrite E in Ee. apply TimeClip_Some in Ee. destruct Ee as [-> _].
  pose proof (weekOneDay_saturday (fullYear Y)) as Sat.
  set (w := weekOneDay (fullYear Y)) in *.
  replace ((w + (W - 1) * 7) * msPerDay + 6 * msPerDay)
    with ((w + (W - 1) * 7 + 6) * msPerDay) by lia.
  rewrite !getDay_days. repeat split; f_equal; zdiv.
Qed.

Lemma railwayToDateRange_Saturday_to_Friday_witness :
  exists s e,
    startDate (railwayToDateRange (Some 2025) (Some 36)) = Some s /\
    endDate (railwayToDateRange (Some 2025) (Some 36)) = Some e /\
    getDay (Some s) = Some 6 /\ getDay (Some e) = Some 5 /\
    e = s + 6 * msPerDay.
Proof.
  exists 1764374400000, 1764892800000.
  assert (Es : startDate (railwayToDateRange (Some 2025) (Some 36))
               = Some 1764374400000) by (vm_compute; reflexivity).
  assert (Ee : endDate (railwayToDateRange (Some 2025) (Some 36))
               = Some 1764892800000) by (vm_compute; reflexivity).
  split; [exact Es|]. split; [exact Ee|].
  exact (railwayToDateRange_Saturday_to_Friday 2025 36 _ _ Es Ee).
Defined.

(** X15.  The weeks tile the calendar: the range of week [W + 1]
    starts the day after the range of week [W] ends, and week
    [getTotalWeeks Y + 1] of year [Y] starts on week one of year [Y + 1]. *)
Theorem railwayToDateRange_tiles (Y W e tw : Z) :
  endDate (railwayToDateRange (Some Y) (Some W)) = Some e ->
  getTotalWeeks (Some Y) = Some tw ->
  startDate (railwayToDateRange (Some Y) (Some (W + 1)))
  = addDays (Some e) (Some 1) /\
  startDate (railwayToDateRange (Some Y) (Some (tw + 1)))
  = getWeekOneStart (Some (Y + 1)).
Proof.
  intros Ee Et.
  apply getTotalWeeks_Some in Et. destruct Et as (R1 & R2 & ->).
  destruct (railwayToDateRange_val Y W R1) as [S1 S2].
  rewrite Ee in S2.
  destruct (TimeClip ((weekOneDay (fullYear Y) + (W - 1) * 7) * msPerDay))
    as [s|] eqn:Ts; [|discriminate].
  apply TimeClip_Some in Ts. destruct Ts as [-> _]. cbn [bind] in S2.
  symmetry in S2. apply TimeClip_Some in S2. destruct S2 as [-> _].
  split.
  - destruct (railwayToDateRange_val Y (W + 1) R1) as [S1' _].
    rewrite S1', addDays_val. f_equal. lia.
  - destruct (railwayToDateRange_val Y
               ((weekOneDay (fullYear (Y + 1)) - weekOneDay (fullYear Y)) / 7
                + 1) R1) as [S1' _].
    rewrite S1', getWeekOneStart_val by trivial.
    pose proof (weekOneDay_saturday (fullYear Y)) as Sa.
    pose proof (weekOneDay_saturday (fullYear (Y + 1))) as Sb.
    replace ((weekOneDay (fullYear Y)
              + ((weekOneDay (fullYear (Y + 1)) - weekOneDay (fullYear Y)) / 7
                 + 1 - 1) * 7))
      with (weekOneDay (fullYear (Y + 1))) by zdiv.
    apply TimeClip_ok, days_in_range, weekOneDay_range, R2.
Qed.

Lemma railwayToDateRange_tiles_witness :
  endDate (railwayToDateRange (Some 2025) (Some 36)) = Some 1764892800000 /\
  getTotalWeeks (Some 2025) = Some 52 /\
  startDate (railwayToDateRange (Some 2025) (Some (36 + 1)))
  = addDays (Some 1764892800000) (Some 1) /\
  startDate (railwayToDateRange (Some 2025) (Some (52 + 1)))
  = getWeekOneStart (Some (2025 + 1)).
Proof.
  assert (H1 : endDate (railwayToDateRange (Some 2025) (Some 36))
               = Some 1764892800000) by (vm_compute; reflexivity).
  assert (H2 : getTotalWeeks (Some 2025) = Some 52)
    by (vm_compute; reflexivity).
  split; [exact H1|]. split; [exact H2|].
  exact (railwayToDateRange_tiles 2025 36 _ 52 H1 H2).
Defined.

(** X16.  A railway year of 53 weeks is followed by one of 52
    weeks. *)
Theorem getTotalWeeks_53_then_52 (Y : Z) :
  plainYear Y -> plainYear (Y + 1) ->
  getTotalWeeks (Some Y) = Some 53 ->
  getTotalWeeks (Some (Y + 1)) = Some 52.
Proof.
  intros P P' E.
  destruct (plainYear_facts Y P) as (_ & _ & _ & _ & S & _ & _ & T).
  destruct (plainYear_facts (Y + 1) P') as (_ & _ & _ & _ & S' & _ & _ & T').
  rewrite T in E. injection E as E. rewrite T'. f_equal.
  destruct (weekOneDay_March Y) as (k & Hk & Ek).
  destruct (weekOneDay_March (Y + 1 + 1)) as (k' & Hk' & Ek').
  rewrite Ek in *. rewrite Ek' in *.
  rewrite !MakeDay_month in * by lia.
  pose proof (DayFromYear_succ Y) as D1.
  pose proof (DayFromYear_succ (Y + 1)) as D2.
  pose proof (DaysInYear_cases Y) as C1.
  pose proof (DaysInYear_cases (Y + 1)) as C2.
  unfold DaysBeforeMonth in *.
  destruct (isLeapYear Y), (isLeapYear (Y + 1 + 1)); zdiv.
Qed.

Lemma getTotalWeeks_53_then_52_witness :
  plainYear 2023 /\ plainYear (2023 + 1) /\
  getTotalWeeks (Some 2023) = Some 53 /\
  getTotalWeeks (Some (2023 + 1)) = Some 52.
Proof.
  assert (H1 : plainYear 2023) by (right; lia).
  assert (H2 : plainYear (2023 + 1)) by (right; lia).
  assert (H3 : getTotalWeeks (Some 2023) = Some 53)
    by (vm_compute; reflexivity).
  split; [exact H1|]. split; [exact H2|]. split; [exact H3|].
  exact (getTotalWeeks_53_then_52 2023 H1 H2 H3).
Defined.

(** X17.  In a plain railway year, each period from 1 to 13 covers
    the weeks [4p - 3] to [4p]: it starts on a Saturday and ends on the
    Friday 27 days later. *)
Theorem getPeriodDates_four_weeks (Y p : Z) :
  plainYear Y -> 1 <= p <= 13 ->
  let g := getPeriodDates (Some Y) (Some p) in
  exists s e,
    periodStart g = Some s /\ periodEnd g = Some e /\
    startWeek g = Some (4 * p - 3) /\ endWeek g = Some (4 * p) /\
    getDay (Some s) = Some 6 /\ getDay (Some e) = Some 5 /\
    e = s + 27 * msPerDay.
Proof.
  intros P Hp g.
  destruct (getPeriodDates_days Y p P Hp) as (G1 & G2 & G3 & G4 & _).
  fold g in G1, G2, G3, G4.
  pose proof (weekOneDay_saturday Y) as Sat.
  do 2 eexists. split; [exact G3|]. split; [exact G4|].
  split; [exact G1|]. split; [exact G2|].
  rewrite !getDay_days. repeat split; try (f_equal; zdiv). lia.
Qed.

Lemma getPeriodDates_four_weeks_witness :
  plainYear 2025 /\ 1 <= 10 <= 13 /\
  let g := getPeriodDates (Some 2025) (Some 10) in
  exists s e,
    periodStart g = Some s /\ periodEnd g = Some e /\
    startWeek g = Some (4 * 10 - 3) /\ endWeek g = Some (4 * 10) /\
    getDay (Some s) = Some 6 /\ getDay (Some e) = Some 5 /\
    e = s + 27 * msPerDay.
Proof.
  assert (H1 : plainYear 2025) by (right; lia).
  assert (H2 : 1 <= 10 <= 13) by lia.
  split; [exact H1|]. split; [exact H2|].
  exact (getPeriodDates_four_weeks 2025 10 H1 H2).
Defined.

(** X19.  Period 14 starts with week 53 and ends with the last
    week of the year: in a year of 53 weeks it is that single week; in a
    year of 52 weeks the end date is the day before the start date. *)
Theorem getPeriodDates_period_14 (Y tw : Z) :
  plainYear Y -> getTotalWeeks (Some Y) = Some tw ->
  let g := getPeriodDates (Some Y) (Some 14) in
  exists s e,
    periodStart g = Some s /\ periodEnd g = Some e /\
    startWeek g = Some 53 /\ endWeek g = Some tw /\
    (tw = 53 -> e = s + 6 * msPerDay) /\
    (tw = 52 -> e = s - msPerDay).
Proof.
  intros P Et g.
  destruct (getPeriodDates_val Y 14 P) as (G1 & G2 & G3 & G4).
  fold g in G1, G2, G3, G4.
  destruct (plainYear_facts Y P) as (_ & _ & R1 & R2 & S & _ & _ & T).
  rewrite T in Et. injection Et as Et.
  pose proof (weekOneDay_range Y R1) as B1.
  pose proof (weekOneDay_range (Y + 1) R2) as B2.
  rewrite Et in *.
  assert (C : tw = 52 \/ tw = 53) by (destruct S; zdiv).
  assert (M : Z.min (14 * 4) tw = tw) by lia.
  rewrite M in *.
  assert (Top : weekOneDay Y + 371 <= 100000000).
  { pose proof (weekOneDay_in_year Y) as I.
    pose proof (DayFromYear_succ Y) as D. pose proof (DaysInYear_cases Y) as C'.
    assert (U : weekOneDay Y <= DayFromYear Y + 90).
    { destruct (weekOneDay_March Y) as (k & Hk & ->).
      rewrite MakeDay_month by lia. unfold DaysBeforeMonth.
      destruct (isLeapYear Y); lia. }
    assert (Q : DayFromYear Y - 256 <= weekOneDay Y + 371
                <= DayFromYear (Y + 1) + 256) by lia.
    apply (year_days_range Y) in Q; [lia|].
    unfold plainYear in P. lia. }
  rewrite TimeClip_ok in G3, G4 by (apply days_in_range; lia).
  cbn [bind] in G4.
  rewrite TimeClip_ok in G4 by (unfold maxTime, msPerDay; lia).
  do 2 eexists. split; [exact G3|]. split; [exact G4|].
  split; [exact G1|]. split; [exact G2|].
  split; intros ->; unfold msPerDay; lia.
Qed.

Lemma getPeriodDates_period_14_witness :
  plainYear 2025 /\ getTotalWeeks (Some 2025) = Some 52 /\
  let g := getPeriodDates (Some 2025) (Some 14) in
  exists s e,
    periodStart g = Some s /\ periodEnd g = Some e /\
    startWeek g = Some 53 /\ endWeek g = Some 52 /\
    (52 = 53 -> e = s + 6 * msPerDay) /\
    (52 = 52 -> e = s - msPerDay).
Proof.
  assert (H1 : plainYear 2025) by (right; lia).
  assert (H2 : getTotalWeeks (Some 2025) = Some 52)
    by (vm_compute; reflexivity).
  split; [exact H1|]. split; [exact H2|].
  exact (getPeriodDates_period_14 2025 52 H1 H2).
Defined.

(** ** Dates and estimators *)

(** X20.  [isPayday], [getNextPayday], [dateToRailway] and
    [getMoonPhase] depend on the calendar day only: two valid dates of the
    same day give the same results. *)
Theorem calendar_day_only (M : Math.host) (t u : Z) :
  Z.abs t <= maxTime -> Z.abs u <= maxTime -> Day t = Day u ->
  isPayday (Some t) = isPayday (Some u) /\
  getNextPayday (Some t) = getNextPayday (Some u) /\
  dateToRailway (Some t) = dateToRailway (Some u) /\
  getMoonPhase M (Some t) = getMoonPhase M (Some u).
Proof.
  intros Vt Vu E. pose proof (setHours0_same_day t u Vt Vu E) as S.
  unfold isPayday, getNextPayday, dateToRailway, getMoonPhase, lunarDayOf,
    copy.
  cbv zeta. rewrite S. repeat split.
Qed.

Lemma calendar_day_only_witness :
  Z.abs 1764892800000 <= maxTime /\ Z.abs 1764892800001 <= maxTime /\
  Day 1764892800000 = Day 1764892800001 /\
  isPayday (Some 1764892800000) = isPayday (Some 1764892800001) /\
  getNextPayday (Some 1764892800000) = getNextPayday (Some 1764892800001) /\
  dateToRailway (Some 1764892800000) = dateToRailway (Some 1764892800001) /\
  getMoonPhase polarDay (Some 1764892800000)
  = getMoonPhase polarDay (Some 1764892800001).
Proof.
  assert (H1 : Z.abs 1764892800000 <= maxTime) by (vm_compute; discriminate).
  assert (H2 : Z.abs 1764892800001 <= maxTime) by (vm_compute; discriminate).
  assert (H3 : Day 1764892800000 = Day 1764892800001) by reflexivity.
  split; [exact H1|]. split; [exact H2|]. split; [exact H3|].
  exact (calendar_day_only polarDay _ _ H1 H2 H3).
Defined.

(** X21.  On an Invalid Date nothing fails: [isPayday] is false,
    [getNextPayday] is an Invalid Date, every number of the coordinate of
    [dateToRailway] is [NaN] with no [dayName], and [getMoonPhase] reports a
    New Moon, marked as significant. *)
Theorem invalid_date (M : Math.host) :
  let r := dateToRailway NaN in
  let m := getMoonPhase M NaN in
  isPayday NaN = false /\
  getNextPayday NaN = NaN /\
  railwayYear r = NaN /\ railWeek r = NaN /\ dayOfRailWeek r = NaN /\
  period r = NaN /\ weekInPeriod r = NaN /\ totalWeeks r = NaN /\
  weekOneStart r = NaN /\ dayName r = None /\
  railwayYearDisplay r = "NaN/aN"%string /\
  MoonPhase.phase m = 0 /\ MoonPhase.name m = "New Moon"%string /\
  MoonPhase.isSignificant m = true.
Proof. repeat split; vm_compute; reflexivity. Qed.

(** X22.  The emoji and the name that [getMoonPhase] returns are
    those of its phase index, in every branch. *)
Theorem getMoonPhase_name (M : Math.host) (date : Date) :
  let r := getMoonPhase M date in
  nth_error phases (Z.to_nat (MoonPhase.phase r))
  = Some (MoonPhase.emoji r, MoonPhase.name r).
Proof.
  unfold getMoonPhase. cbv zeta.
  repeat match goal with
    | |- context [if ?c then _ else _] => destruct c
    end; reflexivity.
Qed.

(** X23.  For every date and every host, [dayLengthPercent] of
    [getDayLength] is [NaN] or lies from 0 to 100. *)
Theorem getDayLength_percent_clamped (M : Math.host) (date : Date) :
  let p := DayLength.dayLengthPercent (getDayLength M date) in
  is_nan p = true \/ ((0 <=? p)%float = true /\ (p <=? 100)%float = true).
Proof.
  unfold getDayLength. cbv zeta.
  destruct (cosHourAngleOf M (dayOfYear (copy date)) <? -1)%float;
    [|destruct (1 <? cosHourAngleOf M (dayOfYear (copy date)))%float];
    cbn [DayLength.dayLengthPercent]; apply clamp_range.
Qed.

Import RailwayCalendar.

(** ** The week view *)

Section Views.

Lemma index_defined {A : Type} (l : list A) (k : Z) :
  0 <= k < Z.of_nat (List.length l) ->
  exists x, index l (Some k) = Some x /\ nth_error l (Z.to_nat k) = Some x.
Proof.
  intros H. unfold index. destruct (Z.ltb_spec k 0); [lia|].
  destruct (nth_error l (Z.to_nat k)) as [x|] eqn:E; [eauto|].
  apply nth_error_None in E. lia.
Qed.

(** [weekStart] is the current date moved back to its Saturday. *)
Lemma weekStart_val (t : Z) :
  weekStart (Some t) = TimeClip (t - ((Day t + 5) mod 7) * msPerDay).
Proof.
  unfold weekStart, copy. cbv zeta. rewrite getDay_val.
  cbn [Js.add Js.rem bind].
  assert (E : Z.rem ((Day t + 4) mod 7 + 1) 7 = (Day t + 5) mod 7)
    by (rewrite Z.rem_mod_nonneg by zdiv; zdiv).
  rewrite E.
  assert (E' : Js.sub (getDate (Some t)) (Some ((Day t + 5) mod 7))
               = Js.add (getDate (Some t)) (Some (- ((Day t + 5) mod 7))))
    by (unfold getDate, Js.sub, Js.add, bind; f_equal; lia).
  rewrite E', setDate_getDate_add. f_equal. lia.
Qed.

End Views.

(** ** Loops over days *)

Section Loops.

Context {A : Type} (f : Date -> A) (keep : list A -> bool).

Lemma forLoop_S {S : Type} (n : nat) (body : S -> S) (s : S) :
  forLoop (Datatypes.S n) body s = forLoop n body (body s).
Proof. reflexivity. Qed.

Lemma days_0 (c : Z) : c + Z.of_nat 0 * msPerDay = c.
Proof. change (Z.of_nat 0) with 0. lia. Qed.

Lemma days_S (c : Z) (k : nat) :
  c + msPerDay + Z.of_nat k * msPerDay
  = c + Z.of_nat (Datatypes.S k) * msPerDay.
Proof. lia. Qed.

Lemma weeks_0 (c : Z) : c + Z.of_nat (7 * 0) * msPerDay = c.
Proof. change (Z.of_nat (7 * 0)) with 0. lia. Qed.

Lemma weeks_days (c : Z) (k : nat) :
  c + 7 * msPerDay + Z.of_nat k * msPerDay = c + Z.of_nat (7 + k) * msPerDay.
Proof. lia. Qed.

Lemma weeks_S (c : Z) (w : nat) :
  c + 7 * msPerDay + Z.of_nat (7 * w) * msPerDay
  = c + Z.of_nat (7 * Datatypes.S w) * msPerDay.
Proof. lia. Qed.

Lemma stepDay_val (week : list A) (c : Z) :
  Z.abs (c + msPerDay) <= maxTime ->
  stepDay f (week, Some c) = (week ++ [f (Some c)], Some (c + msPerDay)).
Proof.
  intros V. unfold stepDay, push. rewrite setDate_getDate_add.
  replace (c + 1 * msPerDay) with (c + msPerDay) by lia.
  rewrite TimeClip_ok by trivial. reflexivity.
Qed.

Lemma forLoop_stepDay (n : nat) :
  forall (week : list A) (c : Z),
    (forall k, (k <= n)%nat -> Z.abs (c + Z.of_nat k * msPerDay) <= maxTime) ->
    forLoop n (stepDay f) (week, Some c)
    = (week ++ map (fun k => f (Some (c + Z.of_nat k * msPerDay))) (seq 0 n),
       Some (c + Z.of_nat n * msPerDay)).
Proof.
  induction n as [|n IH]; intros week c V.
  - cbn [forLoop seq map]. rewrite app_nil_r, days_0. reflexivity.
  - rewrite forLoop_S, stepDay_val.
    2:{ specialize (V 1%nat ltac:(lia)).
        replace (c + msPerDay) with (c + Z.of_nat 1 * msPerDay)
          by (change (Z.of_nat 1) with 1; lia).
        exact V. }
    rewrite IH.
    2:{ intros k Hk. rewrite days_S. apply V. lia. }
    rewrite <- app_assoc. cbn [app seq map]. rewrite days_0.
    rewrite <- seq_shift, map_map.
    rewrite (map_ext (fun k => f (Some (c + msPerDay + Z.of_nat k * msPerDay)))
               (fun k => f (Some (c + Z.of_nat (Datatypes.S k) * msPerDay))))
      by (intros k; now rewrite days_S).
    rewrite days_S. reflexivity.
Qed.

Lemma stepWeek_val (weeks : list (list A)) (c : Z) :
  (forall k, (k <= 7)%nat -> Z.abs (c + Z.of_nat k * msPerDay) <= maxTime) ->
  stepWeek f keep (weeks, Some c)
  = ((if keep (sevenDays f c) then push weeks (sevenDays f c) else weeks),
     Some (c + 7 * msPerDay)).
Proof.
  intros V. unfold stepWeek. rewrite forLoop_stepDay by exact V.
  reflexivity.
Qed.

Lemma forLoop_stepWeek (n : nat) :
  forall (weeks : list (list A)) (c : Z),
    (forall k, (k <= 7 * n)%nat ->
               Z.abs (c + Z.of_nat k * msPerDay) <= maxTime) ->
    forLoop n (stepWeek f keep) (weeks, Some c)
    = (weeks ++ filter keep
                  (map (fun w => sevenDays f (c + Z.of_nat (7 * w) * msPerDay))
                       (seq 0 n)),
       Some (c + Z.of_nat (7 * n) * msPerDay)).
Proof.
  induction n as [|n IH]; intros weeks c V.
  - cbn [forLoop seq map filter]. rewrite app_nil_r, weeks_0. reflexivity.
  - rewrite forLoop_S, stepWeek_val by (intros k Hk; apply V; lia).
    rewrite IH by (intros k Hk; rewrite weeks_days; apply V; lia).
    rewrite weeks_S. cbn [seq map filter]. rewrite weeks_0.
    rewrite <- seq_shift, map_map.
    rewrite (map_ext
               (fun w => sevenDays f (c + Z.of_nat (7 * Datatypes.S w)
                                          * msPerDay))
               (fun w => sevenDays f (c + 7 * msPerDay
                                      + Z.of_nat (7 * w) * msPerDay)))
      by (intros w; now rewrite weeks_S).
    destruct (keep (sevenDays f c)).
    + unfold push. rewrite <- app_assoc. reflexivity.
    + reflexivity.
Qed.

End Loops.

(** ** The month view *)

Section MonthGrid.

Lemma weekBody_stepWeek (M : Math.host) (currentDate : Date)
  (month : number) :
  MonthView.weekBody M currentDate month
  = stepWeek (monthCell M currentDate month)
             (existsb MonthCell.isCurrentMonth).
Proof. reflexivity. Qed.

Lemma YearFromDay_near (y D : Z) :
  DayFromYear (y - 1) <= D < DayFromYear (y + 2) ->
  y - 1 <= YearFromDay D <= y + 1.
Proof.
  intros H. pose proof (YearFromDay_spec D) as S.
  split.
  - destruct (Z_lt_dec (YearFromDay D) (y - 1)) as [L|]; [|lia].
    assert (DayFromYear (YearFromDay D + 1) <= DayFromYear (y - 1))
      by (apply DayFromYear_le; lia). lia.
  - destruct (Z_lt_dec (y + 1) (YearFromDay D)) as [L|]; [|lia].
    assert (DayFromYear (y + 2) <= DayFromYear (YearFromDay D))
      by (apply DayFromYear_le; lia). lia.
Qed.

(** The days of the grid of the month [m] of the year [y]: from the
    Saturday on or before the first of the month. *)
Lemma grid_days (y m : Z) :
  gridYear y -> 0 <= m <= 11 ->
  (gridStart y m + 4) mod 7 = 6 /\
  MakeDay y m 1 - 6 <= gridStart y m <= MakeDay y m 1 /\
  forall k, 0 <= k <= 42 ->
    -100000000 <= gridStart y m + k < 100000000 /\
    (-271819 <= YearFromDay (gridStart y m + k) <= -2
     \/ 101 <= YearFromDay (gridStart y m + k) <= 275759).
Proof.
  intros G Hm. unfold gridStart. set (F := MakeDay y m 1).
  set (c0 := F - (F + 5) mod 7). unfold gridYear in G.
  pose proof (DaysInMonth_range y m) as DR.
  pose proof (MakeDay_in_year y m 1 Hm ltac:(lia)) as B. fold F in B.
  assert (O : 0 <= (F + 5) mod 7 <= 6) by zdiv.
  split; [unfold c0; zdiv|]. split; [unfold c0; lia|].
  intros k Hk.
  pose proof (DayFromYear_succ (y - 1)) as S1.
  replace (y - 1 + 1) with y in S1 by lia.
  pose proof (DayFromYear_succ (y + 1)) as S2.
  replace (y + 1 + 1) with (y + 2) in S2 by lia.
  pose proof (DaysInYear_cases (y - 1)) as C1.
  pose proof (DaysInYear_cases (y + 1)) as C2.
  assert (N : y - 1 <= YearFromDay (c0 + k) <= y + 1)
    by (apply YearFromDay_near; unfold c0; lia).
  split; [|lia].
  assert (Q : DayFromYear y - 256 <= c0 + k <= DayFromYear (y + 1) + 256)
    by (unfold c0; lia).
  apply (year_days_range y) in Q; [|lia].
  assert (Q' : DayFromYear y - 256 <= c0 + k + 1 <= DayFromYear (y + 1) + 256)
    by (unfold c0; lia).
  apply (year_days_range y) in Q'; lia.
Qed.

Lemma saturday_on_or_before (F : Z) :
  setDate (Some (F * msPerDay))
    (Js.sub (getDate (Some (F * msPerDay)))
       (Js.rem (Js.add (getDay (Some (F * msPerDay))) (Some 1)) 7))
  = TimeClip ((F - (F + 5) mod 7) * msPerDay).
Proof.
  rewrite getDay_days. cbn [Js.add Js.rem bind].
  assert (E : Z.rem ((F + 4) mod 7 + 1) 7 = (F + 5) mod 7)
    by (rewrite Z.rem_mod_nonneg by zdiv; zdiv).
  rewrite E.
  assert (E' : Js.sub (getDate (Some (F * msPerDay))) (Some ((F + 5) mod 7))
               = Js.add (getDate (Some (F * msPerDay)))
                        (Some (- ((F + 5) mod 7))))
    by (unfold getDate, Js.sub, Js.add, bind; f_equal; lia).
  rewrite E', setDate_getDate_add. f_equal. lia.
Qed.

Lemma startDate_unfold (t : Z) :
  MonthView.startDate (Some t)
  = (let firstDay :=
       ymd (Some (YearFromTime t)) (Some (MonthFromTime t)) (Some 1) in
     setDate firstDay
       (Js.sub (getDate firstDay)
          (Js.rem (Js.add (getDay firstDay) (Some 1)) 7))).
Proof. reflexivity. Qed.

Lemma startDate_val (t : Z) :
  Z.abs t <= maxTime -> gridYear (YearFromTime t) ->
  MonthView.startDate (Some t)
  = Some (gridStart (YearFromTime t) (MonthFromTime t) * msPerDay).
Proof.
  intros V G. rewrite startDate_unfold. cbv zeta.
  assert (Hm : 0 <= MonthFromTime t <= 11) by apply month_date_bounds.
  destruct (grid_days _ _ G Hm) as (_ & _ & K).
  pose proof (DaysInMonth_range (YearFromTime t) (MonthFromTime t)) as DR.
  pose proof (MakeDay_in_year (YearFromTime t) (MonthFromTime t) 1 Hm
                ltac:(lia)) as B.
  unfold gridYear in G.
  rewrite ymd_day by lia. rewrite saturday_on_or_before.
  fold (gridStart (YearFromTime t) (MonthFromTime t)).
  apply TimeClip_ok, days_in_range. specialize (K 0 ltac:(lia)). lia.
Qed.

(** The month grid in closed form: the rows that hold a day of the month,
    among the six weeks from [startDate]. *)
Lemma weeks_val (M : Math.host) (t : Z) :
  Z.abs t <= maxTime -> gridYear (YearFromTime t) ->
  MonthView.weeks M (Some t)
  = filter (existsb MonthCell.isCurrentMonth)
      (map (fun w =>
              sevenDays (monthCell M (Some t) (Some (MonthFromTime t)))
                (gridStart (YearFromTime t) (MonthFromTime t) * msPerDay
                 + Z.of_nat (7 * w) * msPerDay))
           (seq 0 6)).
Proof.
  intros V G. unfold MonthView.weeks, copy. cbv zeta.
  rewrite startDate_val by trivial.
  cbn [getMonth bind]. rewrite weekBody_stepWeek.
  rewrite forLoop_stepWeek; [reflexivity|].
  intros k Hk.
  assert (Hm : 0 <= MonthFromTime t <= 11) by apply month_date_bounds.
  destruct (grid_days _ _ G Hm) as (_ & _ & K).
  specialize (K (Z.of_nat k) ltac:(lia)). fold (gridStart (YearFromTime t) (MonthFromTime t)) in K.
  replace (gridStart (YearFromTime t) (MonthFromTime t) * msPerDay
           + Z.of_nat k * msPerDay)
    with ((gridStart (YearFromTime t) (MonthFromTime t) + Z.of_nat k)
          * msPerDay) by lia.
  apply days_in_range. lia.
Qed.

Lemma nth_sevenDays {A : Type} (f : Date -> A) (c i : Z) :
  0 <= i <= 6 ->
  nth_error (sevenDays f c) (Z.to_nat i) = Some (f (Some (c + i * msPerDay))).
Proof.
  intros Hi. unfold sevenDays. rewrite nth_error_map.
  assert (N : nth_error (seq 0 7) (Z.to_nat i) = Some (Z.to_nat i)).
  { assert (C : i = 0 \/ i = 1 \/ i = 2 \/ i = 3 \/ i = 4 \/ i = 5
                \/ i = 6) by lia.
    destruct C as [-> | [-> | [-> | [-> | [-> | [-> | ->]]]]]];
      reflexivity. }
  rewrite N. cbn [option_map]. rewrite Z2Nat.id by lia. reflexivity.
Qed.

End MonthGrid.

(** ** The component *)

(** X24.  For every valid date of the years -271819..-2 and
    101..275759, [getPeriodColor] of the period of the date is defined: it
    is the entry [(period - 1) mod 13] of [colors], so that period 14
    shares the colour of period 1. *)
Theorem getPeriodColor_of_date (t : Z) :
  Z.abs t <= maxTime ->
  -271819 <= YearFromTime t <= -2 \/ 101 <= YearFromTime t <= 275759 ->
  exists p c,
    period (dateToRailway (Some t)) = Some p /\
    getPeriodColor (Some p) = Some c /\
    nth_error colors (Z.to_nat ((p - 1) mod 13)) = Some c.
Proof.
  intros V Hy. unfold YearFromTime in Hy.
  destruct (railway_year_of (Day t) Hy) as (R & _ & P & B & _).
  destruct (dateToRailway_in_year t R V P B) as (_ & _ & _ & _ & H5 & _).
  destruct (plainYear_facts R P) as (_ & _ & _ & _ & S & _).
  set (k := Day t - weekOneDay R) in *.
  assert (K : 0 <= k / 28 <= 13) by (destruct S; unfold k; zdiv).
  exists (k / 28 + 1). unfold getPeriodColor.
  cbn [Js.sub Js.rem bind].
  change (Z.of_nat (List.length colors)) with 13.
  rewrite Z.rem_mod_nonneg by lia.
  destruct (index_defined colors ((k / 28 + 1 - 1) mod 13)) as (c & E1 & E2).
  { change (Z.of_nat (List.length colors)) with 13. zdiv. }
  exists c. auto.
Qed.

Lemma getPeriodColor_of_date_witness :
  Z.abs 1764892800000 <= maxTime /\
  (-271819 <= YearFromTime 1764892800000 <= -2
   \/ 101 <= YearFromTime 1764892800000 <= 275759) /\
  exists p c,
    period (dateToRailway (Some 1764892800000)) = Some p /\
    RailwayCalendar.getPeriodColor (Some p) = Some c /\
    nth_error RailwayCalendar.colors (Z.to_nat ((p - 1) mod 13)) = Some c.
Proof.
  assert (H1 : Z.abs 1764892800000 <= maxTime) by (vm_compute; discriminate).
  assert (H2 : -271819 <= YearFromTime 1764892800000 <= -2
               \/ 101 <= YearFromTime 1764892800000 <= 275759)
    by (right; vm_compute; split; discriminate).
  split; [exact H1|]. split; [exact H2|].
  exact (getPeriodColor_of_date 1764892800000 H1 H2).
Defined.

(** X25.  The week view shows the seven days from the Saturday on or
    before the current date to the Friday after it: [weekStart] is that
    Saturday, and the [i]-th entry of [weekDays] is dated [i] days
    later. *)
Theorem weekDays_Saturday_to_Friday (M : Math.host) (t i : Z) :
  Z.abs t <= maxTime ->
  -100000000 <= Day t - 6 -> Day t + 6 < 100000000 ->
  0 <= i <= 6 ->
  exists ws c,
    weekStart (Some t) = Some ws /\
    getDay (Some ws) = Some 6 /\
    Day t - 6 <= Day ws <= Day t /\
    nth_error (weekDays M (Some t)) (Z.to_nat i) = Some c /\
    DayCell.date c = Some (ws + i * msPerDay).
Proof.
  intros V Lo Hi' Hi.
  set (o := (Day t + 5) mod 7).
  set (ws := t - o * msPerDay).
  assert (O : 0 <= o <= 6) by (unfold o; zdiv).
  assert (Dw : Day ws = Day t - o).
  { unfold ws. replace (t - o * msPerDay) with (t + (- o) * msPerDay) by lia.
    rewrite Day_add_days. lia. }
  assert (Vw : Z.abs ws <= maxTime) by (apply valid_of_day; lia).
  assert (Vi : Z.abs (ws + i * msPerDay) <= maxTime)
    by (apply valid_of_day; rewrite Day_add_days; lia).
  assert (Ew : weekStart (Some t) = Some ws).
  { rewrite weekStart_val. fold o ws. now apply TimeClip_ok. }
  exists ws.
  exists (DayCell.mk (Some (ws + i * msPerDay))
            (dateToRailway (Some (ws + i * msPerDay)))
            (isHoliday (Some t) (Some (ws + i * msPerDay)))
            (getMoonPhase M (Some (ws + i * msPerDay)))
            (getDayLength M (Some (ws + i * msPerDay)))
            (isPayday (Some (ws + i * msPerDay)))).
  cbn [DayCell.date].
  split; [exact Ew|]. split; [rewrite getDay_val, Dw; f_equal; unfold o; zdiv|].
  split; [lia|].
  split; [|reflexivity].
  unfold weekDays. cbv zeta. rewrite Ew. unfold copy.
  assert (N : nth_error [0; 1; 2; 3; 4; 5; 6] (Z.to_nat i) = Some i).
  { assert (C : i = 0 \/ i = 1 \/ i = 2 \/ i = 3 \/ i = 4 \/ i = 5
                \/ i = 6) by lia.
    destruct C as [-> | [-> | [-> | [-> | [-> | [-> | ->]]]]]];
      reflexivity. }
  rewrite nth_error_map, N. cbn [option_map].
  rewrite setDate_getDate_add, TimeClip_ok by trivial. reflexivity.
Qed.

Lemma weekDays_Saturday_to_Friday_witness :
  Z.abs 1764892800000 <= maxTime /\
  -100000000 <= Day 1764892800000 - 6 /\
  Day 1764892800000 + 6 < 100000000 /\
  0 <= 3 <= 6 /\
  exists ws c,
    RailwayCalendar.weekStart (Some 1764892800000) = Some ws /\
    getDay (Some ws) = Some 6 /\
    Day 1764892800000 - 6 <= Day ws <= Day 1764892800000 /\
    nth_error (RailwayCalendar.weekDays polarDay (Some 1764892800000))
              (Z.to_nat 3) = Some c /\
    DayCell.date c = Some (ws + 3 * msPerDay).
Proof.
  assert (H1 : Z.abs 1764892800000 <= maxTime) by (vm_compute; discriminate).
  assert (H2 : -100000000 <= Day 1764892800000 - 6)
    by (vm_compute; discriminate).
  assert (H3 : Day 1764892800000 + 6 < 100000000) by reflexivity.
  assert (H4 : 0 <= 3 <= 6) by lia.
  split; [exact H1|]. split; [exact H2|]. split; [exact H3|].
  split; [exact H4|].
  exact (weekDays_Saturday_to_Friday polarDay 1764892800000 3 H1 H2 H3 H4).
Defined.

(** X26.  [navigateMonth delta] moves to the first day of the month
    [delta] months away, the year carrying, whatever the day of the current
    date, whenever that first day is a representable date and neither the
    year of the current date nor the year reached is one of 0..99, which the
    [Date] constructor reads as 1900..1999; [navigateMonth (- delta)] from
    there returns to the first day of the month of departure. *)
Theorem navigateMonth_first_of_month (t delta : Z) :
  Z.abs t <= maxTime ->
  let y := YearFromTime t in
  let m := MonthFromTime t in
  let y' := y + (m + delta) / 12 in
  (y < 0 \/ 100 <= y) -> (y' < 0 \/ 100 <= y') ->
  -100000000 <= MakeDay y' ((m + delta) mod 12) 1 <= 100000000 ->
  exists u,
    navigateMonth (Some t) (Some delta) = Some u /\
    getFullYear (Some u) = Some y' /\
    getMonth (Some u) = Some ((m + delta) mod 12) /\
    getDate (Some u) = Some 1 /\
    navigateMonth (Some u) (Some (- delta)) = ymd (Some y) (Some m) (Some 1).
Proof.
  intros V y m y' Py Py' R.
  assert (Hm : 0 <= m <= 11) by (apply month_date_bounds).
  assert (Hm' : 0 <= (m + delta) mod 12 <= 11) by zdiv.
  pose proof (DaysInMonth_range y' ((m + delta) mod 12)) as DR.
  destruct (fields_of_day y' ((m + delta) mod 12) 1 Hm') as (F1 & F2 & F3);
    [lia|].
  assert (E : navigateMonth (Some t) (Some delta)
              = Some (MakeDay y' ((m + delta) mod 12) 1 * msPerDay)).
  { unfold navigateMonth. cbn [getFullYear getMonth Js.add bind].
    fold y m. rewrite ymd_eq, fullYear_plain by trivial.
    rewrite MakeDay_carry. fold y'.
    apply TimeClip_ok, days_in_range; trivial. }
  eexists. split; [exact E|].
  unfold getFullYear, getMonth, getDate, bind. rewrite F1, F2, F3.
  repeat split.
  unfold navigateMonth. cbn [getFullYear getMonth Js.add bind].
  rewrite F1, F2. rewrite !ymd_eq, !fullYear_plain by trivial.
  f_equal. f_equal. rewrite MakeDay_carry.
  assert (Q1 : y' + ((m + delta) mod 12 + - delta) / 12 = y)
    by (unfold y'; zdiv).
  assert (Q2 : ((m + delta) mod 12 + - delta) mod 12 = m) by zdiv.
  rewrite Q1, Q2. reflexivity.
Qed.

Lemma navigateMonth_first_of_month_witness :
  let t := 8639998272000000 in
  let delta := 1 in
  Z.abs t <= maxTime /\
  let y := YearFromTime t in
  let m := MonthFromTime t in
  let y' := y + (m + delta) / 12 in
  (y < 0 \/ 100 <= y) /\ (y' < 0 \/ 100 <= y') /\
  -100000000 <= MakeDay y' ((m + delta) mod 12) 1 <= 100000000 /\
  exists u,
    RailwayCalendar.navigateMonth (Some t) (Some delta) = Some u /\
    getFullYear (Some u) = Some y' /\
    getMonth (Some u) = Some ((m + delta) mod 12) /\
    getDate (Some u) = Some 1 /\
    RailwayCalendar.navigateMonth (Some u) (Some (- delta))
    = ymd (Some y) (Some m) (Some 1).
Proof.
  intros t delta.
  assert (H1 : Z.abs t <= maxTime) by (vm_compute; discriminate).
  split; [exact H1|]. intros y m y'.
  assert (H2 : y < 0 \/ 100 <= y) by (right; vm_compute; discriminate).
  assert (H3 : y' < 0 \/ 100 <= y') by (right; vm_compute; discriminate).
  assert (H4 : -100000000 <= MakeDay y' ((m + delta) mod 12) 1 <= 100000000)
    by (vm_compute; split; discriminate).
  split; [exact H2|]. split; [exact H3|]. split; [exact H4|].
  exact (navigateMonth_first_of_month t delta H1 H2 H3 H4).
Defined.

(** X27.  The year view lists 13 periods in a year of 52 weeks and
    14 in a year of 53 weeks; the periods 1 to 13 have four weeks each and
    period 14, when listed, has one. *)
Theorem YearView_periods (t : Z) :
  Z.abs t <= maxTime ->
  -271819 <= YearFromTime t <= -2 \/ 101 <= YearFromTime t <= 275759 ->
  exists tw ps,
    totalWeeks (currentInfo (Some t)) = Some tw /\
    periods (Some t) = Some ps /\
    (tw = 52 /\ ps = 13 \/ tw = 53 /\ ps = 14) /\
    (forall p, 1 <= p <= 13 -> weeksInPeriod (Some t) (Some p) = Some 4) /\
    (ps = 14 -> weeksInPeriod (Some t) (Some 14) = Some 1).
Proof.
  intros V Hy. unfold YearFromTime in Hy.
  destruct (railway_year_of (Day t) Hy) as (R & _ & P & B & _).
  destruct (dateToRailway_in_year t R V P B)
    as (H1 & _ & _ & _ & _ & _ & H7).
  destruct (plainYear_facts R P) as (_ & _ & _ & _ & S & _ & _ & T).
  set (tw := (weekOneDay (R + 1) - weekOneDay R) / 7) in *.
  assert (C : tw = 52 \/ tw = 53) by (unfold tw; destruct S; zdiv).
  exists tw, (- (- tw / 4)). unfold currentInfo, periods, weeksInPeriod.
  cbv zeta. unfold currentInfo. rewrite H1, T.
  split; [exact H7|]. split; [reflexivity|].
  split; [destruct C as [-> | ->]; [left | right]; split; reflexivity|].
  split.
  - intros p Hp. destruct (getPeriodDates_val R p P) as (G1 & G2 & _).
    rewrite G1, G2. fold tw. cbn [Js.sub Js.add bind]. f_equal. lia.
  - intros E. destruct (getPeriodDates_val R 14 P) as (G1 & G2 & _).
    rewrite G1, G2. fold tw. cbn [Js.sub Js.add bind]. f_equal.
    destruct C as [-> | ->]; [discriminate E | reflexivity].
Qed.

Lemma YearView_periods_witness :
  Z.abs 1764892800000 <= maxTime /\
  (-271819 <= YearFromTime 1764892800000 <= -2
   \/ 101 <= YearFromTime 1764892800000 <= 275759) /\
  exists tw ps,
    totalWeeks (RailwayCalendar.currentInfo (Some 1764892800000)) = Some tw /\
    RailwayCalendar.periods (Some 1764892800000) = Some ps /\
    (tw = 52 /\ ps = 13 \/ tw = 53 /\ ps = 14) /\
    (forall p, 1 <= p <= 13 ->
       RailwayCalendar.weeksInPeriod (Some 1764892800000) (Some p) = Some 4) /\
    (ps = 14 ->
       RailwayCalendar.weeksInPeriod (Some 1764892800000) (Some 14) = Some 1).
Proof.
  assert (H1 : Z.abs 1764892800000 <= maxTime) by (vm_compute; discriminate).
  assert (H2 : -271819 <= YearFromTime 1764892800000 <= -2
               \/ 101 <= YearFromTime 1764892800000 <= 275759)
    by (right; vm_compute; split; discriminate).
  split; [exact H1|]. split; [exact H2|].
  exact (YearView_periods 1764892800000 H1 H2).
Defined.

(** X29.  Every row of the month grid is a run of seven days from a
    Saturday to the Friday after it: its cells are dated on consecutive
    days, each is marked as of the current month exactly when its month is
    that of the current date, and one of them at least is. *)
Theorem MonthView_rows_Saturday_to_Friday
  (M : Math.host) (t : Z) (row : list MonthCell.t) :
  Z.abs t <= maxTime -> gridYear (YearFromTime t) ->
  In row (MonthView.weeks M (Some t)) ->
  exists s,
    getDay (Some s) = Some 6 /\
    List.length row = 7%nat /\
    existsb MonthCell.isCurrentMonth row = true /\
    forall i, 0 <= i <= 6 ->
      exists c,
        nth_error row (Z.to_nat i) = Some c /\
        MonthCell.date c = Some (s + i * msPerDay) /\
        MonthCell.isCurrentMonth c
        = Js.seq (getMonth (Some (s + i * msPerDay))) (getMonth (Some t)).
Proof.
  intros V G I. rewrite (weeks_val M t V G) in I.
  apply filter_In in I. destruct I as [I F].
  apply in_map_iff in I. destruct I as (w & <- & Hw).
  apply in_seq in Hw.
  assert (Hm : 0 <= MonthFromTime t <= 11) by apply month_date_bounds.
  destruct (grid_days _ _ G Hm) as (Sat & _ & K).
  set (g := gridStart (YearFromTime t) (MonthFromTime t)) in *.
  set (D := g + 7 * Z.of_nat w).
  replace (g * msPerDay + Z.of_nat (7 * w) * msPerDay)
    with (D * msPerDay) in * by (unfold D; lia).
  exists (D * msPerDay).
  split; [rewrite getDay_days; f_equal; unfold D; zdiv|].
  split; [unfold sevenDays; rewrite length_map, length_seq; reflexivity|].
  split; [exact F|].
  intros i Hi. rewrite nth_sevenDays by trivial.
  exists (monthCell M (Some t) (Some (MonthFromTime t))
            (Some (D * msPerDay + i * msPerDay))).
  split; [reflexivity|].
  unfold monthCell, copy. cbn [MonthCell.date MonthCell.isCurrentMonth].
  split; reflexivity.
Qed.

Lemma MonthView_rows_Saturday_to_Friday_witness :
  let row := nth 1 (MonthView.weeks polarDay (Some 1764892800000)) [] in
  Z.abs 1764892800000 <= maxTime /\
  gridYear (YearFromTime 1764892800000) /\
  In row (MonthView.weeks polarDay (Some 1764892800000)) /\
  exists s,
    getDay (Some s) = Some 6 /\
    List.length row = 7%nat /\
    existsb MonthCell.isCurrentMonth row = true /\
    forall i, 0 <= i <= 6 ->
      exists c,
        nth_error row (Z.to_nat i) = Some c /\
        MonthCell.date c = Some (s + i * msPerDay) /\
        MonthCell.isCurrentMonth c
        = Js.seq (getMonth (Some (s + i * msPerDay)))
            (getMonth (Some 1764892800000)).
Proof.
  intros row.
  assert (H1 : Z.abs 1764892800000 <= maxTime) by (vm_compute; discriminate).
  assert (H2 : gridYear (YearFromTime 1764892800000))
    by (right; vm_compute; split; discriminate).
  assert (H3 : In row (MonthView.weeks polarDay (Some 1764892800000))).
  { apply nth_In.
    assert (L : List.length (MonthView.weeks polarDay (Some 1764892800000))
                = 5%nat) by (vm_compute; reflexivity).
    rewrite L. lia. }
  split; [exact H1|]. split; [exact H2|]. split; [exact H3|].
  exact (MonthView_rows_Saturday_to_Friday polarDay 1764892800000 row
           H1 H2 H3).
Defined.

(** X30.  Every day of the month of the current date is in the month
    grid: some row holds a cell dated that day and marked as of the current
    month. *)
Theorem MonthView_covers (M : Math.host) (t dd : Z) :
  Z.abs t <= maxTime -> gridYear (YearFromTime t) ->
  1 <= dd <= DaysInMonth (YearFromTime t) (MonthFromTime t) ->
  exists row c,
    In row (MonthView.weeks M (Some t)) /\ In c row /\
    MonthCell.date c
    = ymd (Some (YearFromTime t)) (Some (MonthFromTime t)) (Some dd) /\
    MonthCell.isCurrentMonth c = true.
Proof.
  intros V G Hd. rewrite (weeks_val M t V G).
  assert (Hm : 0 <= MonthFromTime t <= 11) by apply month_date_bounds.
  destruct (grid_days _ _ G Hm) as (_ & Bg & K).
  destruct (fields_of_day _ _ dd Hm Hd) as (_ & F2 & _).
  pose proof (MakeDay_in_year _ _ dd Hm Hd) as B.
  set (y := YearFromTime t) in *. set (m := MonthFromTime t) in *.
  set (g := gridStart y m) in *.
  set (F := MakeDay y m 1) in *.
  assert (E : MakeDay y m dd = F + (dd - 1)).
  { unfold F. rewrite <- MakeDay_add. f_equal. lia. }
  rewrite E in F2, B.
  pose proof (DaysInMonth_range y m) as DR.
  set (j := F - g + dd - 1).
  set (f := monthCell M (Some t) (Some m)).
  set (w := Z.to_nat (j / 7)).
  assert (Hw : (w < 6)%nat) by (unfold w, j; zdiv).
  assert (Ec : g * msPerDay + Z.of_nat (7 * w) * msPerDay
               + (j mod 7) * msPerDay
               = (F + (dd - 1)) * msPerDay).
  { unfold w. rewrite Nat2Z.inj_mul, Z2Nat.id by (unfold j; zdiv).
    change (Z.of_nat 7) with 7. unfold j. unfold msPerDay. zdiv. }
  assert (N : nth_error
                (sevenDays f (g * msPerDay + Z.of_nat (7 * w) * msPerDay))
                (Z.to_nat (j mod 7))
              = Some (f (Some ((F + (dd - 1)) * msPerDay)))).
  { rewrite nth_sevenDays by zdiv. rewrite Ec. reflexivity. }
  assert (Cm : MonthCell.isCurrentMonth
                 (f (Some ((F + (dd - 1)) * msPerDay))) = true).
  { unfold f, monthCell. cbn [MonthCell.isCurrentMonth].
    unfold getMonth, bind. rewrite F2. unfold Js.seq. apply Z.eqb_refl. }
  exists (sevenDays f (g * msPerDay + Z.of_nat (7 * w) * msPerDay)),
    (f (Some ((F + (dd - 1)) * msPerDay))).
  split; [|split; [|split]].
  - apply filter_In. split.
    + apply in_map_iff. exists w. split; [reflexivity|].
      apply in_seq. lia.
    + apply existsb_exists. eexists. split; [|exact Cm].
      eapply nth_error_In. exact N.
  - eapply nth_error_In. exact N.
  - unfold f, monthCell, copy. cbn [MonthCell.date].
    unfold gridYear in G. fold y in G.
    rewrite ymd_day by (rewrite ?E; lia). rewrite E. reflexivity.
  - exact Cm.
Qed.

Lemma MonthView_covers_witness :
  Z.abs 1764892800000 <= maxTime /\
  gridYear (YearFromTime 1764892800000) /\
  1 <= 31 <= DaysInMonth (YearFromTime 1764892800000)
                         (MonthFromTime 1764892800000) /\
  exists row c,
    In row (MonthView.weeks polarDay (Some 1764892800000)) /\ In c row /\
    MonthCell.date c
    = ymd (Some (YearFromTime 1764892800000))
          (Some (MonthFromTime 1764892800000)) (Some 31) /\
    MonthCell.isCurrentMonth c = true.
Proof.
  assert (H1 : Z.abs 1764892800000 <= maxTime) by (vm_compute; discriminate).
  assert (H2 : gridYear (YearFromTime 1764892800000))
    by (right; vm_compute; split; discriminate).
  assert (H3 : 1 <= 31 <= DaysInMonth (YearFromTime 1764892800000)
                                      (MonthFromTime 1764892800000))
    by (vm_compute; split; discriminate).
  split; [exact H1|]. split; [exact H2|]. split; [exact H3|].
  exact (MonthView_covers polarDay 1764892800000 31 H1 H2 H3).
Defined.

(** * The railway conversion on a host in a time zone *)

(** ** The host in UTC *)

Section ZoneUTC.

Lemma LocalTime_utc (t : Z) : Zone.LocalTime Zone.utc t = t.
Proof. unfold Zone.LocalTime. cbn. lia. Qed.

Lemma UTC_utc (t : Z) : Zone.UTC Zone.utc t = t.
Proof. unfold Zone.UTC. cbn. lia. Qed.

Lemma ymd_utc (year month date : number) :
  Zoned.ymd Zone.utc year month date = ymd year month date.
Proof.
  destruct year, month, date; try reflexivity.
  unfold Zoned.ymd, Zoned.make, ymd, make, bind. now rewrite UTC_utc.
Qed.

Lemma getFullYear_utc (d : Date) :
  Zoned.getFullYear Zone.utc d = getFullYear d.
Proof.
  destruct d; [|reflexivity].
  unfold Zoned.getFullYear, getFullYear, bind. now rewrite LocalTime_utc.
Qed.

Lemma getMonth_utc (d : Date) : Zoned.getMonth Zone.utc d = getMonth d.
Proof.
  destruct d; [|reflexivity].
  unfold Zoned.getMonth, getMonth, bind. now rewrite LocalTime_utc.
Qed.

Lemma getDate_utc (d : Date) : Zoned.getDate Zone.utc d = getDate d.
Proof.
  destruct d; [|reflexivity].
  unfold Zoned.getDate, getDate, bind. now rewrite LocalTime_utc.
Qed.

Lemma getDay_utc (d : Date) : Zoned.getDay Zone.utc d = getDay d.
Proof.
  destruct d; [|reflexivity].
  unfold Zoned.getDay, getDay, bind. now rewrite LocalTime_utc.
Qed.

Lemma setDate_utc (d : Date) (date : number) :
  Zoned.setDate Zone.utc d date = setDate d date.
Proof.
  destruct d, date; try reflexivity.
  unfold Zoned.setDate, setDate, bind. cbv zeta.
  now rewrite UTC_utc, LocalTime_utc.
Qed.

Lemma setHours0_utc (d : Date) : Zoned.setHours0 Zone.utc d = setHours0 d.
Proof.
  destruct d; [|reflexivity].
  unfold Zoned.setHours0, setHours0, bind. cbv zeta.
  now rewrite UTC_utc, LocalTime_utc.
Qed.

Lemma getWeekOneStart_utc (railwayYear : number) :
  Zoned.getWeekOneStart Zone.utc railwayYear = getWeekOneStart railwayYear.
Proof.
  unfold Zoned.getWeekOneStart, getWeekOneStart.
  now rewrite !ymd_utc, getDay_utc.
Qed.

Lemma getTotalWeeks_utc (railwayYear : number) :
  Zoned.getTotalWeeks Zone.utc railwayYear = getTotalWeeks railwayYear.
Proof.
  unfold Zoned.getTotalWeeks, getTotalWeeks.
  now rewrite !getWeekOneStart_utc.
Qed.

Lemma railwayToDateRange_utc (railwayYear railWeek : number) :
  Zoned.railwayToDateRange Zone.utc railwayYear railWeek
  = railwayToDateRange railwayYear railWeek.
Proof.
  unfold Zoned.railwayToDateRange, railwayToDateRange, Zoned.copy, copy.
  cbv zeta.
  now rewrite getWeekOneStart_utc, getDate_utc, setDate_utc, getDate_utc,
    setDate_utc.
Qed.

(** On a host in UTC the conversion of [Zoned] is that of
    [RailwayDateAPI]. *)
Lemma dateToRailway_utc (date : Date) :
  Zoned.dateToRailway Zone.utc date = dateToRailway date.
Proof.
  unfold Zoned.dateToRailway, dateToRailway, Zoned.copy, copy. cbv zeta.
  rewrite setHours0_utc, getFullYear_utc, !getWeekOneStart_utc.
  destruct (Js.lt (setHours0 date)
              (getWeekOneStart (getFullYear (setHours0 date)))).
  - now rewrite getTotalWeeks_utc.
  - destruct (Js.ge (setHours0 date)
                (getWeekOneStart
                   (Js.add (getFullYear (setHours0 date)) (Some 1)))).
    + now rewrite getTotalWeeks_utc.
    + now rewrite getTotalWeeks_utc.
Qed.

End ZoneUTC.

(** ** Regular zones *)

Section Regular.

Variable z : Zone.t.
Hypothesis Hz : regular z.

Lemma midnight_local (n : Z) :
  Zone.LocalTime z (midnight z n) = n * msPerDay.
Proof. apply Hz. Qed.

Lemma midnight_day (n : Z) : localDay z (midnight z n) = n.
Proof. unfold localDay. rewrite midnight_local. apply Day_of_days. Qed.

Lemma midnight_bounds (n : Z) :
  (n - 1) * msPerDay < midnight z n < (n + 1) * msPerDay.
Proof.
  destruct Hz as (_ & B & _). specialize (B (n * msPerDay)).
  unfold midnight, Zone.UTC. lia.
Qed.

Lemma midnight_valid (n : Z) :
  -100000000 < n < 100000000 -> Z.abs (midnight z n) <= maxTime.
Proof.
  intros H. pose proof (midnight_bounds n) as B.
  unfold maxTime, msPerDay in *. lia.
Qed.

(** The whole days between two local midnights, as [Math.floor] counts
    them: one less than the days of the calendar when the offset has grown
    in between. *)
Lemma midnight_floor (w n : Z) :
  (midnight z n - midnight z w) / msPerDay = n - w - lag z w n.
Proof.
  destruct Hz as (_ & _ & B).
  specialize (B (n * msPerDay) (w * msPerDay)).
  unfold midnight, Zone.UTC, lag.
  destruct (Z.ltb_spec (Zone.localOffset z (w * msPerDay))
              (Zone.localOffset z (n * msPerDay)));
    unfold msPerDay in *; zdiv.
Qed.

(** The same days as [Math.round] counts them. *)
Lemma midnight_round (w n : Z) :
  (2 * (midnight z n - midnight z w) + msPerDay) / (2 * msPerDay) = n - w.
Proof.
  destruct Hz as (_ & _ & B).
  specialize (B (n * msPerDay) (w * msPerDay)).
  unfold midnight, Zone.UTC. unfold msPerDay in *. zdiv.
Qed.

Lemma midnight_lt (w n : Z) : midnight z w < midnight z n <-> w < n.
Proof.
  destruct Hz as (_ & _ & B).
  pose proof (B (n * msPerDay) (w * msPerDay)) as B1.
  destruct (Z.eq_dec w n) as [-> | N]; [lia|].
  revert B1. unfold midnight, Zone.UTC, msPerDay. lia.
Qed.

Lemma zymd_eq (y m dt : Z) :
  Zoned.ymd z (Some y) (Some m) (Some dt)
  = TimeClip (midnight z (MakeDay (fullYear y) m dt)).
Proof.
  unfold Zoned.ymd, Zoned.make, bind, MakeDate, MakeTime, midnight.
  do 2 f_equal. lia.
Qed.

Lemma zgetDay_midnight (n : Z) :
  Zoned.getDay z (Some (midnight z n)) = Some ((n + 4) mod 7).
Proof.
  unfold Zoned.getDay, bind. now rewrite midnight_local, WeekDay_of_days.
Qed.

Lemma zgetFullYear_midnight (n : Z) :
  Zoned.getFullYear z (Some (midnight z n)) = Some (YearFromDay n).
Proof.
  unfold Zoned.getFullYear, bind, YearFromTime.
  now rewrite midnight_local, Day_of_days.
Qed.

Lemma zsetHours0_eq (t : Z) :
  Z.abs (midnight z (localDay z t)) <= maxTime ->
  Zoned.setHours0 z (Some t) = Some (midnight z (localDay z t)).
Proof.
  intros V. unfold Zoned.setHours0, bind. cbv zeta.
  fold (localDay z t). unfold MakeDate, MakeTime.
  replace (localDay z t * msPerDay + (0 * 3600000 + 0 * 60000 + 0 * 1000 + 0))
    with (localDay z t * msPerDay) by lia.
  fold (midnight z (localDay z t)). now apply TimeClip_ok.
Qed.

(** [d.setDate(d.getDate() + k)] on a local midnight moves it by [k]
    days of the calendar. *)
Lemma zsetDate_midnight (n k : Z) :
  Zoned.setDate z (Some (midnight z n))
    (Js.add (Zoned.getDate z (Some (midnight z n))) (Some k))
  = TimeClip (midnight z (n + k)).
Proof.
  unfold Zoned.setDate, Zoned.getDate, Js.add, bind. cbv zeta.
  rewrite midnight_local, MakeDay_add, MakeDay_fields, Day_of_days.
  unfold midnight. do 2 f_equal.
  unfold MakeDate, TimeWithinDay, msPerDay. zdiv.
Qed.

Lemma March_inside (y dt : Z) :
  representable y -> 25 <= dt <= 31 ->
  -100000000 < MakeDay y 2 dt < 100000000.
Proof.
  intros H H'. rewrite MakeDay_month by lia.
  unfold representable, DayFromYear, DaysBeforeMonth in *.
  destruct (isLeapYear y); zdiv.
Qed.

Lemma weekOneDay_inside (y : Z) :
  representable y -> -100000000 < weekOneDay y < 100000000.
Proof.
  intros R. destruct (weekOneDay_March y) as (k & Hk & ->).
  apply March_inside; trivial. lia.
Qed.

Lemma zgetWeekOneStart_val (Y : Z) :
  representable (fullYear Y) ->
  Zoned.getWeekOneStart z (Some Y)
  = Some (midnight z (weekOneDay (fullYear Y))).
Proof.
  intros R. unfold Zoned.getWeekOneStart. rewrite zymd_eq.
  rewrite TimeClip_ok
    by (apply midnight_valid, March_inside; trivial; lia).
  rewrite zgetDay_midnight.
  unfold Js.add, Js.rem, Js.sub, bind.
  rewrite zymd_eq.
  set (m31 := MakeDay (fullYear Y) 2 31).
  assert (E : Z.rem ((m31 + 4) mod 7 + 1) 7 = (m31 + 5) mod 7).
  { rewrite Z.rem_mod_nonneg by zdiv. zdiv. }
  rewrite E.
  replace (31 - (m31 + 5) mod 7) with (31 + - ((m31 + 5) mod 7)) by lia.
  rewrite MakeDay_add. fold m31.
  replace (m31 + - ((m31 + 5) mod 7)) with (weekOneDay (fullYear Y))
    by (unfold weekOneDay; fold m31; cbv zeta; lia).
  apply TimeClip_ok, midnight_valid, weekOneDay_inside, R.
Qed.

(** The number of weeks does not depend on the zone: [Math.round] absorbs
    the change of offset. *)
Lemma zgetTotalWeeks_val (Y : Z) :
  representable (fullYear Y) -> representable (fullYear (Y + 1)) ->
  Zoned.getTotalWeeks z (Some Y)
  = Some ((weekOneDay (fullYear (Y + 1)) - weekOneDay (fullYear Y)) / 7).
Proof.
  intros R R'. unfold Zoned.getTotalWeeks. cbn [Js.add bind].
  rewrite !zgetWeekOneStart_val by trivial.
  unfold Js.sub, Js.round_div, Js.floor_div, bind.
  now rewrite midnight_round.
Qed.

Lemma zgetTotalWeeks_eq (Y : Z) :
  representable (fullYear Y) -> representable (fullYear (Y + 1)) ->
  Zoned.getTotalWeeks z (Some Y) = getTotalWeeks (Some Y).
Proof.
  intros R R'. now rewrite zgetTotalWeeks_val, getTotalWeeks_val.
Qed.

Lemma zdateToRailway_locate (date : Date) :
  let d := Zoned.setHours0 z date in
  let r := Zoned.dateToRailway z date in
  let p := zlocate z d (Zoned.getFullYear z d) in
  let daysDiff := Js.floor_div (Js.sub d (snd p)) msPerDay in
  railwayYear r = fst p /\
  weekOneStart r = snd p /\
  railWeek r = Js.add (Js.floor_div daysDiff 7) (Some 1) /\
  dayOfRailWeek r = Js.add (Js.rem daysDiff 7) (Some 1) /\
  period r = Js.ceil_div (railWeek r) 4 /\
  weekInPeriod r
  = Js.add (Js.rem (Js.sub (railWeek r) (Some 1)) 4) (Some 1) /\
  totalWeeks r = Zoned.getTotalWeeks z (railwayYear r) /\
  dayName r = index dayNames (Js.sub (dayOfRailWeek r) (Some 1)).
Proof.
  unfold Zoned.dateToRailway, zlocate, Zoned.copy. cbv zeta.
  match goal with
  | |- context [match ?p with pair _ _ => _ end] => destruct p
  end.
  cbn. repeat split.
Qed.

Lemma zlocate_prev (D y : Z) :
  representable (fullYear y) ->
  D < weekOneDay (fullYear y) ->
  zlocate z (Some (midnight z D)) (Some y)
  = (Some (y - 1), Zoned.getWeekOneStart z (Some (y - 1))).
Proof.
  intros R L. unfold zlocate. cbv zeta.
  rewrite zgetWeekOneStart_val by trivial. unfold Js.lt.
  apply midnight_lt in L.
  destruct (Z.ltb_spec (midnight z D) (midnight z (weekOneDay (fullYear y)))).
  - reflexivity.
  - lia.
Qed.

Lemma zlocate_same (D y : Z) :
  representable (fullYear y) ->
  representable (fullYear (y + 1)) ->
  weekOneDay (fullYear y) <= D < weekOneDay (fullYear (y + 1)) ->
  zlocate z (Some (midnight z D)) (Some y)
  = (Some y, Some (midnight z (weekOneDay (fullYear y)))).
Proof.
  intros R R' [L1 L2]. unfold zlocate. cbv zeta. cbn [Js.add bind].
  rewrite !zgetWeekOneStart_val by trivial. unfold Js.lt, Js.ge.
  apply midnight_lt in L2.
  pose proof (midnight_lt D (weekOneDay (fullYear y))) as M.
  destruct (Z.ltb_spec (midnight z D) (midnight z (weekOneDay (fullYear y)))).
  - lia.
  - destruct (Z.leb_spec (midnight z (weekOneDay (fullYear (y + 1))))
                (midnight z D)).
    + lia.
    + reflexivity.
Qed.

Lemma zlocate_next (D y : Z) :
  representable (fullYear y) ->
  representable (fullYear (y + 1)) ->
  weekOneDay (fullYear y) <= D ->
  weekOneDay (fullYear (y + 1)) <= D ->
  zlocate z (Some (midnight z D)) (Some y)
  = (Some (y + 1), Some (midnight z (weekOneDay (fullYear (y + 1))))).
Proof.
  intros R R' L L'. unfold zlocate. cbv zeta. cbn [Js.add bind].
  rewrite !zgetWeekOneStart_val by trivial. unfold Js.lt, Js.ge.
  pose proof (midnight_lt D (weekOneDay (fullYear y))) as M.
  pose proof (midnight_lt D (weekOneDay (fullYear (y + 1)))) as M'.
  destruct (Z.ltb_spec (midnight z D) (midnight z (weekOneDay (fullYear y)))).
  - lia.
  - destruct (Z.leb_spec (midnight z (weekOneDay (fullYear (y + 1))))
                (midnight z D)).
    + reflexivity.
    + lia.
Qed.

(** The fields of the coordinate once the railway year [R], starting on
    day [W], is known: the count of days is short by [lag z W n]. *)
Lemma zdateToRailway_fields (t R W : Z) :
  Z.abs (midnight z (localDay z t)) <= maxTime ->
  zlocate z (Some (midnight z (localDay z t)))
    (Some (YearFromDay (localDay z t)))
  = (Some R, Some (midnight z W)) ->
  railwayYear (Zoned.dateToRailway z (Some t)) = Some R /\
  weekOneStart (Zoned.dateToRailway z (Some t)) = Some (midnight z W) /\
  railWeek (Zoned.dateToRailway z (Some t))
  = Some ((localDay z t - W - lag z W (localDay z t)) / 7 + 1) /\
  dayOfRailWeek (Zoned.dateToRailway z (Some t))
  = Some (Z.rem (localDay z t - W - lag z W (localDay z t)) 7 + 1) /\
  dayName (Zoned.dateToRailway z (Some t))
  = index dayNames
      (Some (Z.rem (localDay z t - W - lag z W (localDay z t)) 7)) /\
  totalWeeks (Zoned.dateToRailway z (Some t))
  = Zoned.getTotalWeeks z (Some R).
Proof.
  intros V L.
  destruct (zdateToRailway_locate (Some t))
    as (H1 & H2 & H3 & H4 & _ & _ & H7 & H8).
  rewrite zsetHours0_eq in * by trivial.
  rewrite zgetFullYear_midnight in *. rewrite L in *. cbn [fst snd] in *.
  unfold Js.sub, Js.floor_div, Js.add, Js.rem, bind in H3, H4.
  rewrite midnight_floor in H3, H4.
  rewrite H4 in H8. rewrite H1 in H7.
  repeat split; trivial.
  rewrite H8. unfold Js.sub, bind. f_equal. f_equal. lia.
Qed.

Lemma zrailwayToDateRange_val (Y W : Z) :
  representable (fullYear Y) ->
  startDate (Zoned.railwayToDateRange z (Some Y) (Some W))
  = TimeClip (midnight z (weekOneDay (fullYear Y) + (W - 1) * 7)) /\
  endDate (Zoned.railwayToDateRange z (Some Y) (Some W))
  = (let* s := TimeClip (midnight z (weekOneDay (fullYear Y) + (W - 1) * 7)) in
     TimeClip (midnight z (weekOneDay (fullYear Y) + (W - 1) * 7 + 6))).
Proof.
  intros R. unfold Zoned.railwayToDateRange, Zoned.copy. cbv zeta.
  cbn [startDate endDate]. rewrite zgetWeekOneStart_val by trivial.
  cbn [Js.sub Js.mul bind]. rewrite zsetDate_midnight.
  split; trivial.
  destruct (TimeClip (midnight z (weekOneDay (fullYear Y) + (W - 1) * 7)))
    as [s|] eqn:E; [|reflexivity].
  apply TimeClip_Some in E. destruct E as [-> _].
  cbn [bind]. apply zsetDate_midnight.
Qed.

End Regular.

(** ** The zone of London *)

Section London.

Lemma lastSunday_in_year (y m : Z) :
  m = 2 \/ m = 9 ->
  DayFromYear y < Zone.lastSunday y m < DayFromYear (y + 1).
Proof.
  intros H. unfold Zone.lastSunday. cbv zeta.
  assert (B : DayFromYear y + 65 <= MakeDay y m 31 < DayFromYear (y + 1)).
  { rewrite DayFromYear_succ.
    destruct H as [-> | ->]; rewrite MakeDay_month by lia;
      unfold DaysInYear, DaysBeforeMonth; destruct (isLeapYear y); lia. }
  zdiv.
Qed.

Lemma london_offsets (tl : Z) :
  Zone.localOffset Zone.london tl = 0
  \/ Zone.localOffset Zone.london tl = 3600000.
Proof.
  cbn. destruct (_ && _); auto.
Qed.

(** The local midnights of London exist and are read back as themselves:
    the clocks change at 01:00 UTC. *)
Lemma london_regular : regular Zone.london.
Proof.
  split; [|split].
  - intros n. unfold midnight, Zone.UTC, Zone.LocalTime.
    set (m := n * msPerDay).
    assert (Ym : YearFromTime m = YearFromDay n)
      by (unfold YearFromTime, m; now rewrite Day_of_days).
    pose proof (YearFromDay_spec n) as Sp.
    unfold Zone.london. cbn [Zone.offset Zone.localOffset]. cbv zeta.
    rewrite Ym. set (y := YearFromDay n) in *.
    pose proof (lastSunday_in_year y 2 (or_introl eq_refl)) as Bs.
    pose proof (lastSunday_in_year y 9 (or_intror eq_refl)) as Be.
    unfold Zone.summerStart, Zone.summerEnd, MakeDate, MakeTime,
      Zone.msPerHour.
    set (s := Zone.lastSunday y 2) in *.
    set (e := Zone.lastSunday y 9) in *.
    destruct (Z.leb_spec (s * msPerDay + (1 * 3600000 + 0 * 60000 + 0 * 1000 + 0)
                          + 3600000) m) as [L1 | L1];
      [destruct (Z.ltb_spec m (e * msPerDay + (1 * 3600000 + 0 * 60000 + 0 * 1000 + 0)
                          + 3600000)) as [L2 | L2]|]; cbn [andb].
    + assert (Yu : YearFromTime (m - 3600000) = y).
      { unfold YearFromTime. apply YearFromDay_unique.
        unfold Day, m, msPerDay in *. zdiv. }
      rewrite Yu. fold s e.
      destruct (Z.leb_spec (s * msPerDay + (1 * 3600000 + 0 * 60000 + 0 * 1000 + 0))
                  (m - 3600000));
        [destruct (Z.ltb_spec (m - 3600000)
                     (e * msPerDay + (1 * 3600000 + 0 * 60000 + 0 * 1000 + 0)))|];
        cbn [andb]; lia.
    + rewrite Z.sub_0_r, Ym. fold y s e.
      destruct (Z.leb_spec (s * msPerDay + (1 * 3600000 + 0 * 60000 + 0 * 1000 + 0)) m);
        [destruct (Z.ltb_spec m
                     (e * msPerDay + (1 * 3600000 + 0 * 60000 + 0 * 1000 + 0)))|];
        cbn [andb]; lia.
    + rewrite Z.sub_0_r, Ym. fold y s e.
      destruct (Z.leb_spec (s * msPerDay + (1 * 3600000 + 0 * 60000 + 0 * 1000 + 0)) m);
        [destruct (Z.ltb_spec m
                     (e * msPerDay + (1 * 3600000 + 0 * 60000 + 0 * 1000 + 0)))|];
        cbn [andb]; try lia.
      unfold m, msPerDay in *. lia.
  - intros tl. destruct (london_offsets tl) as [-> | ->];
      unfold msPerDay; lia.
  - intros a b.
    destruct (london_offsets a) as [-> | ->],
      (london_offsets b) as [-> | ->]; unfold msPerDay; lia.
Qed.

Lemma utc_regular : regular Zone.utc.
Proof.
  split; [|split].
  - intros n. unfold midnight. now rewrite UTC_utc, LocalTime_utc.
  - intros tl. cbn. unfold msPerDay. lia.
  - intros a b. cbn. unfold msPerDay. lia.
Qed.

End London.

(** ** Railway years in a regular zone *)

Section ZonedYears.

Variable z : Zone.t.
Hypothesis Hz : regular z.

Lemma lag_range (w n : Z) : 0 <= lag z w n <= 1.
Proof. unfold lag. destruct (_ <? _); lia. Qed.

Lemma lag_same (w : Z) : lag z w w = 0.
Proof. unfold lag. now rewrite Z.ltb_irrefl. Qed.

(** The offset at a local midnight, read from the time value. *)
Lemma offset_midnight (n : Z) :
  Zone.offset z (midnight z n) = Zone.localOffset z (n * msPerDay).
Proof.
  pose proof (midnight_local z Hz n) as E.
  unfold Zone.LocalTime, midnight, Zone.UTC in *. lia.
Qed.

Lemma zplainYear_facts (R : Z) :
  plainYear R ->
  Zoned.getWeekOneStart z (Some R) = Some (midnight z (weekOneDay R)) /\
  Zoned.getWeekOneStart z (Some (R + 1))
  = Some (midnight z (weekOneDay (R + 1))) /\
  Zoned.getTotalWeeks z (Some R)
  = Some ((weekOneDay (R + 1) - weekOneDay R) / 7).
Proof.
  intros P.
  destruct (plainYear_facts R P) as (F1 & F2 & R1 & R2 & _).
  repeat split.
  - rewrite zgetWeekOneStart_val; rewrite ?F1; trivial.
  - rewrite zgetWeekOneStart_val; rewrite ?F2; trivial.
  - rewrite zgetTotalWeeks_val; rewrite ?F1, ?F2; trivial.
Qed.

(** The coordinate of a date whose local day lies in the railway year
    [R]: the days are counted from week one, less the lag. *)
Lemma zdateToRailway_in_year (t R : Z) :
  plainYear R ->
  weekOneDay R <= localDay z t < weekOneDay (R + 1) ->
  0 <= localDay z t - weekOneDay R - lag z (weekOneDay R) (localDay z t) /\
  railwayYear (Zoned.dateToRailway z (Some t)) = Some R /\
  weekOneStart (Zoned.dateToRailway z (Some t))
  = Some (midnight z (weekOneDay R)) /\
  railWeek (Zoned.dateToRailway z (Some t))
  = Some ((localDay z t - weekOneDay R
           - lag z (weekOneDay R) (localDay z t)) / 7 + 1) /\
  dayOfRailWeek (Zoned.dateToRailway z (Some t))
  = Some ((localDay z t - weekOneDay R
           - lag z (weekOneDay R) (localDay z t)) mod 7 + 1) /\
  dayName (Zoned.dateToRailway z (Some t))
  = nth_error dayNames
      (Z.to_nat ((localDay z t - weekOneDay R
                  - lag z (weekOneDay R) (localDay z t)) mod 7)) /\
  totalWeeks (Zoned.dateToRailway z (Some t))
  = Some ((weekOneDay (R + 1) - weekOneDay R) / 7).
Proof.
  intros P B.
  destruct (plainYear_facts R P) as (F1 & F2 & R1 & R2 & S & _).
  destruct (zplainYear_facts R P) as (W1 & W2 & T).
  pose proof (weekOneDay_in_year R) as I1.
  pose proof (weekOneDay_in_year (R + 1)) as I2.
  pose proof (weekOneDay_inside R R1) as J1.
  pose proof (weekOneDay_inside (R + 1) R2) as J2.
  set (n := localDay z t) in *.
  assert (V : Z.abs (midnight z n) <= maxTime)
    by (apply midnight_valid; trivial; lia).
  assert (L : zlocate z (Some (midnight z n)) (Some (YearFromDay n))
              = (Some R, Some (midnight z (weekOneDay R)))).
  { destruct (Z_lt_dec n (DayFromYear (R + 1))) as [Lt | Ge].
    - rewrite (YearFromDay_unique n R) by lia.
      rewrite <- F1 at 3. apply zlocate_same; rewrite ?F1, ?F2; trivial.
    - rewrite (YearFromDay_unique n (R + 1)) by lia.
      rewrite zlocate_prev by (rewrite ?F2; trivial; lia).
      replace (R + 1 - 1) with R by lia. now rewrite W1. }
  destruct (zdateToRailway_fields z Hz t R (weekOneDay R) V L)
    as (H1 & H2 & H3 & H4 & H5 & H6).
  fold n in H3, H4, H5.
  assert (K : 0 <= n - weekOneDay R - lag z (weekOneDay R) n).
  { destruct (Z.eq_dec n (weekOneDay R)) as [E | N].
    - rewrite E, lag_same. lia.
    - pose proof (lag_range (weekOneDay R) n). lia. }
  set (k := n - weekOneDay R - lag z (weekOneDay R) n) in *.
  split; [exact K|]. repeat split; trivial.
  - rewrite H4. f_equal. rewrite Z.rem_mod_nonneg by lia. reflexivity.
  - rewrite H5. unfold index. rewrite Z.rem_mod_nonneg by lia.
    destruct (Z.ltb_spec (k mod 7) 0); [exfalso; zdiv | reflexivity].
  - rewrite H6. exact T.
Qed.

(** A valid start date of [Zoned.railwayToDateRange] is the local midnight
    of the first day of the week. *)
Lemma zrailwayToDateRange_plain (Y W : Z) :
  plainYear Y ->
  1 <= W <= (weekOneDay (Y + 1) - weekOneDay Y) / 7 ->
  startDate (Zoned.railwayToDateRange z (Some Y) (Some W))
  = Some (midnight z (weekOneDay Y + (W - 1) * 7)) /\
  endDate (Zoned.railwayToDateRange z (Some Y) (Some W))
  = Some (midnight z (weekOneDay Y + (W - 1) * 7 + 6)) /\
  weekOneDay Y + (W - 1) * 7 + 6 < weekOneDay (Y + 1).
Proof.
  intros P HW.
  destruct (plainYear_facts Y P) as (F1 & F2 & R1 & R2 & S & _).
  pose proof (weekOneDay_inside Y R1) as J1.
  pose proof (weekOneDay_inside (Y + 1) R2) as J2.
  assert (B : weekOneDay Y + (W - 1) * 7 + 6 < weekOneDay (Y + 1))
    by (destruct S; zdiv).
  rewrite <- F1 in R1.
  destruct (zrailwayToDateRange_val z Hz Y W R1) as [S1 S2].
  rewrite F1 in *.
  rewrite TimeClip_ok in S1, S2 by (apply midnight_valid; trivial; lia).
  cbn [bind] in S2.
  rewrite TimeClip_ok in S2 by (apply midnight_valid; trivial; lia).
  auto.
Qed.

(** The ranges of the fields hold in every regular zone: the lag takes a
    day off the count and never leaves the railway year. *)
Lemma field_ranges_in_zone (t : Z) :
  -271819 <= YearFromDay (localDay z t) <= -2
  \/ 101 <= YearFromDay (localDay z t) <= 275759 ->
  exists tw rw dw,
    totalWeeks (Zoned.dateToRailway z (Some t)) = Some tw /\
    (tw = 52 \/ tw = 53) /\
    railWeek (Zoned.dateToRailway z (Some t)) = Some rw /\
    1 <= rw <= tw /\
    dayOfRailWeek (Zoned.dateToRailway z (Some t)) = Some dw /\
    1 <= dw <= 7.
Proof.
  intros Hy.
  destruct (railway_year_of (localDay z t) Hy) as (R & _ & P & B & _).
  destruct (zdateToRailway_in_year t R P B)
    as (K & _ & _ & H3 & H4 & _ & H6).
  destruct (plainYear_facts R P) as (_ & _ & _ & _ & S & _).
  pose proof (lag_range (weekOneDay R) (localDay z t)) as Lr.
  eexists. eexists. eexists.
  split; [exact H6|]. split; [destruct S as [S | S]; rewrite S; zdiv|].
  split; [exact H3|]. split; [destruct S; zdiv|].
  split; [exact H4|]. zdiv.
Qed.

End ZonedYears.

(** ** The conversion where the offset has not grown *)

Section NoLag.

Variable z : Zone.t.
Hypothesis Hz : regular z.

Lemma March31_far (y : Z) :
  ~ representable y ->
  maxTime + msPerDay < Z.abs (MakeDay y 2 31 * msPerDay).
Proof.
  intros R. rewrite MakeDay_month by lia.
  unfold representable, maxTime, msPerDay, DayFromYear, DaysBeforeMonth in *.
  destruct (isLeapYear y); zdiv.
Qed.

Lemma zgetWeekOneStart_nan (Y : Z) :
  ~ representable (fullYear Y) -> Zoned.getWeekOneStart z (Some Y) = None.
Proof.
  intros R. unfold Zoned.getWeekOneStart. rewrite (zymd_eq z).
  rewrite TimeClip_out; [reflexivity|].
  pose proof (March31_far _ R) as F.
  pose proof (midnight_bounds z Hz (MakeDay (fullYear Y) 2 31)) as B.
  unfold msPerDay in *. lia.
Qed.

Lemma zgetTotalWeeks_Some (Y tw : Z) :
  Zoned.getTotalWeeks z (Some Y) = Some tw ->
  representable (fullYear Y) /\ representable (fullYear (Y + 1)) /\
  tw = (weekOneDay (fullYear (Y + 1)) - weekOneDay (fullYear Y)) / 7.
Proof.
  intros E.
  destruct (representable_dec (fullYear Y)) as [RA | RA];
    [destruct (representable_dec (fullYear (Y + 1))) as [RB | RB]|].
  - split; [exact RA|]. split; [exact RB|].
    rewrite (zgetTotalWeeks_val z Hz) in E by trivial. congruence.
  - exfalso. unfold Zoned.getTotalWeeks in E. cbn [Js.add bind] in E.
    rewrite (zgetWeekOneStart_nan (Y + 1)) in E by trivial.
    destruct (Zoned.getWeekOneStart z (Some Y)); discriminate.
  - exfalso. unfold Zoned.getTotalWeeks in E. cbn [Js.add bind] in E.
    rewrite (zgetWeekOneStart_nan Y) in E by trivial.
    destruct (Zoned.getWeekOneStart z (Some (Y + 1))); discriminate.
Qed.


Lemma lag_of_offsets (w n : Z) :
  offsetNotLarger z (Some (midnight z n)) (Some (midnight z w)) ->
  lag z w n = 0.
Proof.
  unfold offsetNotLarger. rewrite !(offset_midnight z Hz). intros H.
  unfold lag.
  destruct (Z.ltb_spec (Zone.localOffset z (w * msPerDay))
              (Zone.localOffset z (n * msPerDay))); [lia | reflexivity].
Qed.



End NoLag.

(** ** Claims on the date conversion *)

(** C1, as amended.  On a host in any regular zone, for every railway year
    [Y] other than 0..98 and every week [W] with
    [1 <= W <= getTotalWeeks Y], and [W <= 93] when [Y] is -1: whenever the
    offset at the start date of [railwayToDateRange Y W] is not larger than
    at [getWeekOneStart Y], [dateToRailway] applied to that start date
    gives a coordinate with rail week [W] and railway year [Y]. *)
Theorem round_trip_in_zone (z : Zone.t) (Y W tw : Z) :
  regular z ->
  Y < 0 \/ 98 < Y ->
  (Y = -1 -> W <= 93) ->
  Zoned.getTotalWeeks z (Some Y) = Some tw ->
  1 <= W <= tw ->
  offsetNotLarger z
    (startDate (Zoned.railwayToDateRange z (Some Y) (Some W)))
    (Zoned.getWeekOneStart z (Some Y)) ->
  railWeek
    (Zoned.dateToRailway z
       (startDate (Zoned.railwayToDateRange z (Some Y) (Some W))))
  = Some W /\
  railwayYear
    (Zoned.dateToRailway z
       (startDate (Zoned.railwayToDateRange z (Some Y) (Some W))))
  = Some Y.
Proof.
  intros Hz P M E HW Off.
  destruct (zgetTotalWeeks_Some z Hz Y tw E) as (R1 & R2 & Etw).
  destruct (Z.eq_dec Y 99) as [-> | N].
  { exfalso.
    assert (T : (weekOneDay (fullYear (99 + 1)) - weekOneDay (fullYear 99)) / 7
                = -99085) by reflexivity.
    lia. }
  pose proof (weekOneDay_inside _ R1) as B1.
  pose proof (weekOneDay_inside _ R2) as B2.
  pose proof (zgetWeekOneStart_val z Hz Y R1) as W1.
  set (w := weekOneDay (fullYear Y)) in *.
  set (D := w + (W - 1) * 7).
  assert (B : w <= D < weekOneDay (fullYear (Y + 1)))
    by (unfold D; zdiv).
  assert (V : Z.abs (midnight z D) <= maxTime)
    by (apply (midnight_valid z Hz); lia).
  destruct (zrailwayToDateRange_val z Hz Y W R1) as [S _].
  fold w D in S. rewrite (TimeClip_ok _ V) in S.
  rewrite S in *. rewrite W1 in Off.
  apply (lag_of_offsets z Hz) in Off.
  assert (L : zlocate z (Some (midnight z D)) (Some (YearFromDay D))
              = (Some Y, Some (midnight z w))).
  { destruct (Z.eq_dec Y (-1)) as [-> | N1].
    - assert (F : fullYear (-1) = -1) by reflexivity.
      assert (Ew : w = -719808) by reflexivity.
      assert (E0 : DayFromYear 0 = -719528) by reflexivity.
      assert (E1 : DayFromYear 1 = -719162) by reflexivity.
      assert (Em : DayFromYear (-1) = -719893) by reflexivity.
      assert (W' : -719162 < weekOneDay (fullYear 0)) by reflexivity.
      specialize (M eq_refl). change (-1 + 1) with 0 in *.
      destruct (Z_lt_dec D (DayFromYear 0)) as [Lt | Ge].
      + rewrite (YearFromDay_unique D (-1)) by (change (-1 + 1) with 0; lia).
        change 0 with (-1 + 1) in B, R2.
        apply (zlocate_same z Hz); trivial.
      + rewrite (YearFromDay_unique D 0)
          by (change (0 + 1) with 1; unfold D; lia).
        rewrite (zlocate_prev z Hz) by (trivial; unfold D; lia).
        change (0 - 1) with (-1). now rewrite W1.
    - assert (F1 : fullYear Y = Y) by (apply fullYear_plain; lia).
      assert (F2 : fullYear (Y + 1) = Y + 1) by (apply fullYear_plain; lia).
      pose proof (weekOneDay_in_year Y) as I1.
      pose proof (weekOneDay_in_year (Y + 1)) as I2.
      rewrite F2 in *. unfold w in *. rewrite F1 in *.
      destruct (Z_lt_dec D (DayFromYear (Y + 1))) as [Lt | Ge].
      + rewrite (YearFromDay_unique D Y) by lia.
        rewrite <- F1 at 3.
        apply (zlocate_same z Hz); rewrite ?F1, ?F2; trivial.
      + rewrite (YearFromDay_unique D (Y + 1)) by lia.
        rewrite (zlocate_prev z Hz) by (rewrite ?F2; trivial; lia).
        replace (Y + 1 - 1) with Y by lia. now rewrite W1. }
  pose proof (zdateToRailway_fields z Hz (midnight z D) Y w) as F.
  rewrite (midnight_day z Hz) in F.
  destruct (F V L) as (H1 & _ & H3 & _).
  rewrite H1, H3, Off. split; trivial. f_equal. unfold D. zdiv.
Qed.

Lemma round_trip_in_zone_witness :
  let z := Zone.london in
  regular z /\
  (2029 < 0 \/ 98 < 2029) /\
  (2029 = -1 -> 10 <= 93) /\
  Zoned.getTotalWeeks z (Some 2029) = Some 52 /\
  1 <= 10 <= 52 /\
  offsetNotLarger z
    (startDate (Zoned.railwayToDateRange z (Some 2029) (Some 10)))
    (Zoned.getWeekOneStart z (Some 2029)) /\
  railWeek
    (Zoned.dateToRailway z
       (startDate (Zoned.railwayToDateRange z (Some 2029) (Some 10))))
  = Some 10 /\
  railwayYear
    (Zoned.dateToRailway z
       (startDate (Zoned.railwayToDateRange z (Some 2029) (Some 10))))
  = Some 2029.
Proof.
  intros z.
  assert (H1 : 2029 < 0 \/ 98 < 2029) by (right; lia).
  assert (H2 : 2029 = -1 -> 10 <= 93) by lia.
  assert (H3 : Zoned.getTotalWeeks z (Some 2029) = Some 52)
    by (vm_compute; reflexivity).
  assert (H4 : 1 <= 10 <= 52) by lia.
  assert (H5 : offsetNotLarger z
                 (startDate (Zoned.railwayToDateRange z (Some 2029) (Some 10)))
                 (Zoned.getWeekOneStart z (Some 2029)))
    by (vm_compute; discriminate).
  split; [exact london_regular|].
  repeat (split; [assumption|]).
  exact (round_trip_in_zone z 2029 10 52 london_regular H1 H2 H3 H4 H5).
Defined.

(** C1 as stated fails for the railway year 50 and its week 1: the [Date]
    constructor reads the year 50 as 1950, so that the start date is 25
    March 1950, whose railway year is 1950. *)
Lemma round_trip_year_50 :
  let z := Zone.london in
  Zoned.getTotalWeeks z (Some 50) = Some 53 /\
  1 <= 1 <= 53 /\
  railwayYear
    (Zoned.dateToRailway z
       (startDate (Zoned.railwayToDateRange z (Some 50) (Some 1))))
  = Some 1950 /\
  railwayYear
    (Zoned.dateToRailway z
       (startDate (Zoned.railwayToDateRange z (Some 50) (Some 1))))
  <> Some 50.
Proof. vm_compute. repeat split; try discriminate. Qed.




(** ** The conversion in a zone with summer time *)

(** Where the offset has grown since week one, the count of days is one
    short.  On a host in the zone of London, week 2 of the railway year 2025
    is one of its 52 weeks and starts on Saturday 5 April 2025, at local
    midnight.  Week one started on Saturday 29 March, in winter time, so
    that the two midnights are seven days less one hour apart:
    [Math.floor] makes six days of them, and [dateToRailway] returns rail
    week 1 and day 7 for the first day of week 2. *)
Lemma dateToRailway_start_of_week_in_summer_time :
  let start :=
    startDate (Zoned.railwayToDateRange Zone.london (Some 2025) (Some 2)) in
  let r := Zoned.dateToRailway Zone.london start in
  Zoned.getTotalWeeks Zone.london (Some 2025) = Some 52 /\
  start = Zoned.ymd Zone.london (Some 2025) (Some 3) (Some 5) /\
  Zoned.getDay Zone.london start = Some 6 /\
  weekOneStart r = Zoned.ymd Zone.london (Some 2025) (Some 2) (Some 29) /\
  Js.sub start (weekOneStart r) = Some (7 * msPerDay - Zone.msPerHour) /\
  railwayYear r = Some 2025 /\
  railWeek r = Some 1 /\
  dayOfRailWeek r = Some 7 /\
  railWeek r <> Some 2.
Proof. vm_compute. repeat split. discriminate. Qed.

(** On the same host, Saturday 14 June 2025 gets rail week 11, day 7,
    named Friday; the range of week 11 runs from Saturday 7 June to Friday
    13 June, so that the date is after the end of the range that its own
    coordinate names. *)
Lemma dateToRailway_after_its_range_in_summer_time :
  let d := Zoned.ymd Zone.london (Some 2025) (Some 5) (Some 14) in
  let r := Zoned.dateToRailway Zone.london d in
  let range :=
    Zoned.railwayToDateRange Zone.london (railwayYear r) (railWeek r) in
  Zoned.getDay Zone.london d = Some 6 /\
  railwayYear r = Some 2025 /\
  railWeek r = Some 11 /\
  dayOfRailWeek r = Some 7 /\
  dayName r = Some "Friday"%string /\
  startDate range = Zoned.ymd Zone.london (Some 2025) (Some 5) (Some 7) /\
  endDate range = Zoned.ymd Zone.london (Some 2025) (Some 5) (Some 13) /\
  Js.le d (endDate range) = false /\
  Js.gt d (endDate range) = true.
Proof. vm_compute. repeat split. Qed.

(** ** Railway coordinates in a regular zone *)

(** X12.  In any regular zone, [dayName] names the day of the week of the
    date, and [dayOfRailWeek] counts it from Saturday, when the offset at
    the date is not larger than at the start of week one; when it is
    larger, as on a day of summer time in a railway year that began in
    winter time, both are those of the day before. *)
Theorem dayName_in_zone (z : Zone.t) (t : Z) :
  regular z ->
  Z.abs t <= maxTime ->
  -271819 <= YearFromTime (Zone.LocalTime z t) <= -2
  \/ 101 <= YearFromTime (Zone.LocalTime z t) <= 275759 ->
  exists R w l name,
    railwayYear (Zoned.dateToRailway z (Some t)) = Some R /\
    Zoned.getDay z (Some t) = Some w /\
    l = lag z (weekOneDay R) (localDay z t) /\
    dayOfRailWeek (Zoned.dateToRailway z (Some t))
    = Some ((w + 1 - l) mod 7 + 1) /\
    dayName (Zoned.dateToRailway z (Some t)) = Some name /\
    nth_error weekdayNames (Z.to_nat ((w - l) mod 7)) = Some name.
Proof.
  intros Hz V Hy. unfold YearFromTime in Hy. fold (localDay z t) in Hy.
  destruct (railway_year_of (localDay z t) Hy) as (R & _ & P & B & _).
  destruct (zdateToRailway_in_year z Hz t R P B)
    as (K & H1 & _ & _ & H4 & H5 & _).
  pose proof (weekOneDay_saturday R) as Sat.
  pose proof (lag_range z (weekOneDay R) (localDay z t)) as Lr.
  set (n := localDay z t) in *.
  set (l := lag z (weekOneDay R) n) in *.
  set (k := n - weekOneDay R - l) in *.
  assert (E1 : ((n + 4) mod 7 + 1 - l) mod 7 = k mod 7) by (unfold k; zdiv).
  assert (E2 : ((n + 4) mod 7 - l) mod 7 = (k mod 7 + 6) mod 7)
    by (unfold k; zdiv).
  assert (C : k mod 7 = 0 \/ k mod 7 = 1 \/ k mod 7 = 2 \/ k mod 7 = 3
              \/ k mod 7 = 4 \/ k mod 7 = 5 \/ k mod 7 = 6) by zdiv.
  assert (N : exists name,
            nth_error dayNames (Z.to_nat (k mod 7)) = Some name /\
            nth_error weekdayNames (Z.to_nat ((k mod 7 + 6) mod 7))
            = Some name).
  { destruct C as [C | [C | [C | [C | [C | [C | C]]]]]]; rewrite C;
      eexists; split; reflexivity. }
  destruct N as (name & N1 & N2).
  exists R, ((n + 4) mod 7), l, name.
  split; [exact H1|]. split; [reflexivity|]. split; [reflexivity|].
  rewrite E1, E2. split; [exact H4|]. split; [now rewrite H5 | exact N2].
Qed.

Lemma dayName_in_zone_witness :
  regular Zone.london /\
  Z.abs 1749855600000 <= maxTime /\
  (-271819 <= YearFromTime (Zone.LocalTime Zone.london 1749855600000) <= -2
   \/ 101 <= YearFromTime (Zone.LocalTime Zone.london 1749855600000)
      <= 275759) /\
  exists R w l name,
    railwayYear (Zoned.dateToRailway Zone.london (Some 1749855600000))
    = Some R /\
    Zoned.getDay Zone.london (Some 1749855600000) = Some w /\
    l = lag Zone.london (weekOneDay R) (localDay Zone.london 1749855600000) /\
    dayOfRailWeek (Zoned.dateToRailway Zone.london (Some 1749855600000))
    = Some ((w + 1 - l) mod 7 + 1) /\
    dayName (Zoned.dateToRailway Zone.london (Some 1749855600000))
    = Some name /\
    nth_error weekdayNames (Z.to_nat ((w - l) mod 7)) = Some name.
Proof.
  assert (H1 : Z.abs 1749855600000 <= maxTime) by (vm_compute; discriminate).
  assert (H2 : -271819
               <= YearFromTime (Zone.LocalTime Zone.london 1749855600000)
               <= -2
               \/ 101
                  <= YearFromTime (Zone.LocalTime Zone.london 1749855600000)
                  <= 275759)
    by (right; vm_compute; split; discriminate).
  split; [exact london_regular|]. split; [exact H1|]. split; [exact H2|].
  exact (dayName_in_zone Zone.london 1749855600000 london_regular H1 H2).
Defined.

(** X13.  In any regular zone and a plain railway year [Y], a date whose
    local day is [i] days after the start of [railwayToDateRange Y W], for
    [i] from 0 to 6 and [W] from 1 to [getTotalWeeks Y], has the railway
    year [Y]; it has the rail week [W] and the day [i + 1] when the offset
    at the date is not larger than at the start of week one.  When it is
    larger, the day is [i], and the first day of the week is given day 7
    of the week before. *)
Theorem within_range_in_zone (z : Zone.t) (Y W tw s e t : Z) :
  regular z -> plainYear Y ->
  Zoned.getTotalWeeks z (Some Y) = Some tw -> 1 <= W <= tw ->
  startDate (Zoned.railwayToDateRange z (Some Y) (Some W)) = Some s ->
  endDate (Zoned.railwayToDateRange z (Some Y) (Some W)) = Some e ->
  Z.abs t <= maxTime ->
  localDay z s <= localDay z t <= localDay z e ->
  railwayYear (Zoned.dateToRailway z (Some t)) = Some Y /\
  (lag z (weekOneDay Y) (localDay z t) = 0 ->
   railWeek (Zoned.dateToRailway z (Some t)) = Some W /\
   dayOfRailWeek (Zoned.dateToRailway z (Some t))
   = Some (localDay z t - localDay z s + 1)) /\
  (lag z (weekOneDay Y) (localDay z t) = 1 ->
   localDay z s < localDay z t ->
   railWeek (Zoned.dateToRailway z (Some t)) = Some W /\
   dayOfRailWeek (Zoned.dateToRailway z (Some t))
   = Some (localDay z t - localDay z s)) /\
  (lag z (weekOneDay Y) (localDay z t) = 1 ->
   localDay z s = localDay z t ->
   railWeek (Zoned.dateToRailway z (Some t)) = Some (W - 1) /\
   dayOfRailWeek (Zoned.dateToRailway z (Some t)) = Some 7).
Proof.
  intros Hz P Et HW Es Ee V B.
  destruct (plainYear_facts Y P) as (_ & _ & _ & _ & S & _).
  destruct (zplainYear_facts z Hz Y P) as (_ & _ & T).
  rewrite T in Et. injection Et as <-.
  destruct (zrailwayToDateRange_plain z Hz Y W P HW) as (S1 & S2 & L).
  rewrite S1 in Es. rewrite S2 in Ee.
  injection Es as <-. injection Ee as <-.
  rewrite !(midnight_day z Hz) in *.
  assert (B' : weekOneDay Y <= localDay z t < weekOneDay (Y + 1)) by lia.
  destruct (zdateToRailway_in_year z Hz t Y P B')
    as (K & H1 & _ & H3 & H4 & _).
  set (n := localDay z t) in *.
  rewrite H1, H3, H4.
  split; [reflexivity|].
  split; [|split]; intros El; rewrite El in *.
  - split; f_equal; zdiv.
  - intros Lt. split; f_equal; zdiv.
  - intros Eq. split; f_equal; zdiv.
Qed.

Lemma within_range_in_zone_witness :
  let z := Zone.london in
  let s := 1743807600000 in
  let e := 1744326000000 in
  let t := 1743807600000 in
  regular z /\ plainYear 2025 /\
  Zoned.getTotalWeeks z (Some 2025) = Some 52 /\ 1 <= 2 <= 52 /\
  startDate (Zoned.railwayToDateRange z (Some 2025) (Some 2)) = Some s /\
  endDate (Zoned.railwayToDateRange z (Some 2025) (Some 2)) = Some e /\
  Z.abs t <= maxTime /\
  localDay z s <= localDay z t <= localDay z e /\
  railwayYear (Zoned.dateToRailway z (Some t)) = Some 2025 /\
  (lag z (weekOneDay 2025) (localDay z t) = 0 ->
   railWeek (Zoned.dateToRailway z (Some t)) = Some 2 /\
   dayOfRailWeek (Zoned.dateToRailway z (Some t))
   = Some (localDay z t - localDay z s + 1)) /\
  (lag z (weekOneDay 2025) (localDay z t) = 1 ->
   localDay z s < localDay z t ->
   railWeek (Zoned.dateToRailway z (Some t)) = Some 2 /\
   dayOfRailWeek (Zoned.dateToRailway z (Some t))
   = Some (localDay z t - localDay z s)) /\
  (lag z (weekOneDay 2025) (localDay z t) = 1 ->
   localDay z s = localDay z t ->
   railWeek (Zoned.dateToRailway z (Some t)) = Some (2 - 1) /\
   dayOfRailWeek (Zoned.dateToRailway z (Some t)) = Some 7).
Proof.
  intros z s e t.
  assert (H1 : plainYear 2025) by (right; lia).
  assert (H2 : Zoned.getTotalWeeks z (Some 2025) = Some 52)
    by (vm_compute; reflexivity).
  assert (H3 : 1 <= 2 <= 52) by lia.
  assert (H4 : startDate (Zoned.railwayToDateRange z (Some 2025) (Some 2))
               = Some s) by (vm_compute; reflexivity).
  assert (H5 : endDate (Zoned.railwayToDateRange z (Some 2025) (Some 2))
               = Some e) by (vm_compute; reflexivity).
  assert (H6 : Z.abs t <= maxTime) by (vm_compute; discriminate).
  assert (H7 : localDay z s <= localDay z t <= localDay z e)
    by (vm_compute; split; discriminate).
  split; [exact london_regular|].
  repeat (split; [assumption|]).
  exact (within_range_in_zone z 2025 2 52 s e t london_regular
           H1 H2 H3 H4 H5 H6 H7).
Defined.

(** X18.  In any regular zone and a plain railway year [Y], a date whose
    local day lies from the start to the end of period [p], for [p] from 1
    to 13, has the railway year [Y]; it has the period [p], unless it is
    the first day of the period and the offset at it is larger than at the
    start of week one: that day is given the period before. *)
Theorem period_in_zone (z : Zone.t) (Y p s e t : Z) :
  regular z -> plainYear Y -> 1 <= p <= 13 ->
  periodStart (Zoned.getPeriodDates z (Some Y) (Some p)) = Some s ->
  periodEnd (Zoned.getPeriodDates z (Some Y) (Some p)) = Some e ->
  Z.abs t <= maxTime ->
  localDay z s <= localDay z t <= localDay z e ->
  railwayYear (Zoned.dateToRailway z (Some t)) = Some Y /\
  (lag z (weekOneDay Y) (localDay z t) = 0 \/ localDay z s < localDay z t ->
   period (Zoned.dateToRailway z (Some t)) = Some p) /\
  (lag z (weekOneDay Y) (localDay z t) = 1 -> localDay z s = localDay z t ->
   period (Zoned.dateToRailway z (Some t)) = Some (p - 1)).
Proof.
  intros Hz P Hp Es Ee V B.
  destruct (plainYear_facts Y P) as (_ & _ & _ & _ & S & _).
  destruct (zplainYear_facts z Hz Y P) as (_ & _ & T).
  unfold Zoned.getPeriodDates in Es, Ee. cbv zeta in Es, Ee.
  cbn [periodStart periodEnd] in Es, Ee. rewrite T in Ee.
  cbn [Js.sub Js.mul Js.add Js.min bind] in Es, Ee.
  assert (M : Z.min (p * 4) ((weekOneDay (Y + 1) - weekOneDay Y) / 7) = p * 4)
    by (destruct S; zdiv).
  rewrite M in Ee.
  destruct (zrailwayToDateRange_plain z Hz Y ((p - 1) * 4 + 1) P)
    as (S1 & _ & _); [destruct S; zdiv|].
  destruct (zrailwayToDateRange_plain z Hz Y (p * 4) P)
    as (_ & S2 & L); [destruct S; zdiv|].
  rewrite S1 in Es. rewrite S2 in Ee.
  injection Es as <-. injection Ee as <-.
  rewrite !(midnight_day z Hz) in *.
  assert (B' : weekOneDay Y <= localDay z t < weekOneDay (Y + 1)) by lia.
  destruct (zdateToRailway_in_year z Hz t Y P B')
    as (K & H1 & _ & H3 & _).
  destruct (zdateToRailway_locate z (Some t)) as (_ & _ & _ & _ & H5 & _).
  pose proof (lag_range z (weekOneDay Y) (localDay z t)) as Lr.
  set (n := localDay z t) in *.
  rewrite H5, H3, H1. unfold Js.ceil_div, bind.
  split; [reflexivity|]. split.
  - intros C. f_equal. zdiv.
  - intros El Eq. f_equal. zdiv.
Qed.

Lemma period_in_zone_witness :
  let z := Zone.london in
  let s := 1745622000000 in
  let e := 1747954800000 in
  let t := 1745622000000 in
  regular z /\ plainYear 2025 /\ 1 <= 2 <= 13 /\
  periodStart (Zoned.getPeriodDates z (Some 2025) (Some 2)) = Some s /\
  periodEnd (Zoned.getPeriodDates z (Some 2025) (Some 2)) = Some e /\
  Z.abs t <= maxTime /\
  localDay z s <= localDay z t <= localDay z e /\
  railwayYear (Zoned.dateToRailway z (Some t)) = Some 2025 /\
  (lag z (weekOneDay 2025) (localDay z t) = 0 \/ localDay z s < localDay z t ->
   period (Zoned.dateToRailway z (Some t)) = Some 2) /\
  (lag z (weekOneDay 2025) (localDay z t) = 1 ->
   localDay z s = localDay z t ->
   period (Zoned.dateToRailway z (Some t)) = Some (2 - 1)).
Proof.
  intros z s e t.
  assert (H1 : plainYear 2025) by (right; lia).
  assert (H2 : 1 <= 2 <= 13) by lia.
  assert (H3 : periodStart (Zoned.getPeriodDates z (Some 2025) (Some 2))
               = Some s) by (vm_compute; reflexivity).
  assert (H4 : periodEnd (Zoned.getPeriodDates z (Some 2025) (Some 2))
               = Some e) by (vm_compute; reflexivity).
  assert (H5 : Z.abs t <= maxTime) by (vm_compute; discriminate).
  assert (H6 : localDay z s <= localDay z t <= localDay z e)
    by (vm_compute; split; discriminate).
  split; [exact london_regular|].
  repeat (split; [assumption|]).
  exact (period_in_zone z 2025 2 s e t london_regular H1 H2 H3 H4 H5 H6).
Defined.

(** X28.  Week one and the number of weeks of a plain railway year do not
    depend on the zone: in any regular zone [getWeekOneStart] is the local
    midnight of the same Saturday of March as on a host in UTC, and
    [getTotalWeeks], which rounds the difference of two local midnights, is
    the same number, 52 or 53. *)
Theorem week_one_in_zone (z : Zone.t) (Y : Z) :
  regular z -> plainYear Y ->
  exists w dd tw,
    getWeekOneStart (Some Y) = Some (w * msPerDay) /\
    Zoned.getWeekOneStart z (Some Y) = Some (midnight z w) /\
    Zoned.getDay z (Some (midnight z w)) = Some 6 /\
    Zoned.getFullYear z (Some (midnight z w)) = Some Y /\
    Zoned.getMonth z (Some (midnight z w)) = Some 2 /\
    Zoned.getDate z (Some (midnight z w)) = Some dd /\ 25 <= dd <= 31 /\
    Zoned.getTotalWeeks z (Some Y) = Some tw /\
    getTotalWeeks (Some Y) = Some tw /\ (tw = 52 \/ tw = 53).
Proof.
  intros Hz P.
  destruct (plainYear_facts Y P) as (_ & _ & _ & _ & S & W1 & _ & T).
  destruct (zplainYear_facts z Hz Y P) as (Z1 & _ & ZT).
  destruct (weekOneDay_March Y) as (k & Hk & E).
  destruct (March_fields Y (31 - k)) as (HY & HM & HD); [lia|].
  rewrite <- E in HY, HM, HD.
  exists (weekOneDay Y), (31 - k), ((weekOneDay (Y + 1) - weekOneDay Y) / 7).
  rewrite (zgetDay_midnight z Hz), weekOneDay_saturday.
  unfold Zoned.getFullYear, Zoned.getMonth, Zoned.getDate, bind.
  rewrite (midnight_local z Hz), HY, HM, HD.
  repeat split; trivial; try lia.
  destruct S as [S | S]; rewrite S; [left | right]; zdiv.
Qed.

Lemma week_one_in_zone_witness :
  regular Zone.london /\ plainYear 2025 /\
  exists w dd tw,
    getWeekOneStart (Some 2025) = Some (w * msPerDay) /\
    Zoned.getWeekOneStart Zone.london (Some 2025)
    = Some (midnight Zone.london w) /\
    Zoned.getDay Zone.london (Some (midnight Zone.london w)) = Some 6 /\
    Zoned.getFullYear Zone.london (Some (midnight Zone.london w))
    = Some 2025 /\
    Zoned.getMonth Zone.london (Some (midnight Zone.london w)) = Some 2 /\
    Zoned.getDate Zone.london (Some (midnight Zone.london w)) = Some dd /\
    25 <= dd <= 31 /\
    Zoned.getTotalWeeks Zone.london (Some 2025) = Some tw /\
    getTotalWeeks (Some 2025) = Some tw /\ (tw = 52 \/ tw = 53).
Proof.
  assert (H1 : plainYear 2025) by (right; lia).
  split; [exact london_regular|]. split; [exact H1|].
  exact (week_one_in_zone Zone.london 2025 london_regular H1).
Defined.
